(** * BigQuery Analytics Hub: a shallow embedding of the dashboard

    The React front end (configuration, application context, the
    expensive-queries, organization-overview, pulse and time-window views)
    is embedded component by component.  JavaScript strings are sequences
    of UTF-16 code units, JavaScript numbers are IEEE-754 binary64 values
    (the specification-level floats of [SpecFloat]), component state is a
    record updated by its setters, and an event handler is a computation
    in a small state-and-log monad whose network replies are supplied by
    an explicit back-end oracle.

    The Flask back end is not part of the sources at hand; the operations
    it owns (aggregation, ranking, week-over-week change) are modelled
    from the written specification in the module [Backend]. *)

From Stdlib Require Import ZArith NArith List String Ascii Bool Lia.
From Stdlib Require Import Sorted Permutation QArith.
From Stdlib Require Import SpecFloat.
Import ListNotations.

Close Scope Q_scope.

(* ================================================================== *)
(** * JavaScript values *)
(* ================================================================== *)

Module Js.

(** ** Strings: sequences of UTF-16 code units *)

Definition code_unit := N.
Definition jsstring := list code_unit.

(** An ASCII literal of the source text. *)
Definition lit (s : string) : jsstring :=
  map N_of_ascii (list_ascii_of_string s).

(** [s.substring(indexStart, indexEnd)] for non-negative integer
    indices: both are clamped to the length and swapped when out of
    order. *)
Definition substring (s : jsstring) (indexStart indexEnd : nat) : jsstring :=
  let a := Nat.min indexStart indexEnd in
  let b := Nat.max indexStart indexEnd in
  firstn (b - a) (skipn a s).

(** Truthiness of an optional string ([undefined], [null] and the empty
    string are falsy). *)
Definition truthy (v : option jsstring) : bool :=
  match v with
  | Some (_ :: _) => true
  | _ => false
  end.

(** [a || b] on optional strings. *)
Definition or (a b : option jsstring) : option jsstring :=
  if truthy a then a else b.

(** [s?.substring(0, k)]. *)
Definition opt_substring (s : option jsstring) (indexStart indexEnd : nat)
  : option jsstring :=
  option_map (fun t => substring t indexStart indexEnd) s.

(** ** UTF-16 surrogates *)

Definition is_high_surrogate (u : code_unit) : bool :=
  (N.leb 55296 u && N.leb u 56319)%bool.   (* D800 .. DBFF *)

Definition is_low_surrogate (u : code_unit) : bool :=
  (N.leb 56320 u && N.leb u 57343)%bool.   (* DC00 .. DFFF *)

(** A string is well formed when every high surrogate is immediately
    followed by a low surrogate and no low surrogate stands alone. *)
Fixpoint well_formed (s : jsstring) : bool :=
  match s with
  | [] => true
  | u :: rest =>
      if is_high_surrogate u then
        match rest with
        | l :: rest' => is_low_surrogate l && well_formed rest'
        | [] => false
        end
      else if is_low_surrogate u then false
      else well_formed rest
  end.

(** Cutting [s] after its first [k] units separates the two halves of a
    surrogate pair. *)
Definition splits_pair (s : jsstring) (k : nat) : bool :=
  match k with
  | O => false
  | S k' =>
      (Nat.ltb k (List.length s)
       && is_high_surrogate (nth k' s 0%N)
       && is_low_surrogate (nth k s 0%N))%bool
  end.

(** ** Numbers: IEEE-754 binary64 *)

Definition number := spec_float.
Definition prec : Z := 53.
Definition emax : Z := 1024.

(** The number denoted by an integer literal or an integer JSON value
    (rounded to nearest-even when it does not fit 53 bits). *)
Definition of_Z (z : Z) : number := binary_normalize prec emax z 0 false.

Definition mul (x y : number) : number := SFmul prec emax x y.
Definition div (x y : number) : number := SFdiv prec emax x y.

(** The number of bits of a mantissa. *)
Definition digits (m : positive) : Z := Z.pos (digits2_pos m).

(** Zeros and NaN are the falsy numbers. *)
Definition truthy_number (x : number) : bool :=
  match x with
  | S754_zero _ | S754_nan => false
  | _ => true
  end.

(** [x > y] and [x < y]; any comparison with NaN is false. *)
Definition gt (x y : number) : bool := SFltb y x.
Definition lt (x y : number) : bool := SFltb x y.

(** A decimal literal [m / 10^k] of the source text, correctly rounded:
    both operands are exact and the division rounds once. *)
Definition decimal (m : Z) (k : nat) : number :=
  div (of_Z m) (of_Z (10 ^ Z.of_nat k)).

(** [Math.round]: the nearest integer, ties towards +infinity;
    infinities, NaN and zeros are returned unchanged and a result that
    rounds to zero keeps the sign of the argument. *)
Definition Math_round (x : number) : number :=
  match x with
  | S754_finite s m e =>
      if (0 <=? e)%Z then x
      else
        let twice := (if s then Z.neg m~0 else Z.pos m~0)%Z in
        let n := ((twice + 2 ^ (- e)) / 2 ^ (1 - e))%Z in
        binary_normalize prec emax n 0 s
  | _ => x
  end.

(** [Math.round(x * 100) / 100], the two-decimal rounding used by the
    views. *)
Definition round2 (x : number) : number :=
  div (Math_round (mul x (of_Z 100))) (of_Z 100).

End Js.

(* ================================================================== *)
(** * config.js *)
(* ================================================================== *)

Module Config.

(** [x || d] for an optional environment string. *)
Definition env_or (x : option string) (d : string) : string :=
  match x with
  | Some EmptyString | None => d
  | Some s => s
  end.

Definition API_BASE_URL (VITE_REACT_APP_API_BASE_URL : option string) : string :=
  env_or VITE_REACT_APP_API_BASE_URL "http://localhost:8080/api".

Definition DEFAULT_TIME_RANGE (VITE_REACT_APP_DEFAULT_TIME_RANGE : option string)
  : string :=
  env_or VITE_REACT_APP_DEFAULT_TIME_RANGE "24h".

Definition TIME_RANGE_OPTIONS : list (string * string) :=
  [ ("1h", "Last Hour"); ("24h", "Last 24 Hours");
    ("7d", "Last 7 Days"); ("30d", "Last 30 Days") ]%string.

Definition DEFAULT_PAGE_SIZE : nat := 10.
Definition MAX_QUERY_PREVIEW_LENGTH : nat := 150.

End Config.

(* ================================================================== *)
(** * context/AppContext.jsx *)
(* ================================================================== *)

Module AppContext.

Record Project := {
  id : string;
  name : string;
  display_name : string
}.

Record Region := {
  value : string;
  label : string
}.

(** The object handed to [AppContext.Provider]; the setters and
    [refreshProjects] are closures over the provider's state and are
    not data. *)
Record ContextValue := {
  projects : list Project;
  selectedProject : string;
  selectedRegion : string;
  regions : list Region;
  loading : bool
}.

Definition regions_table : list Region :=
  [ {| value := "us"; label := "US (Multi-region)" |};
    {| value := "eu"; label := "EU (Multi-region)" |};
    {| value := "asia"; label := "Asia (Multi-region)" |};
    {| value := "us-central1"; label := "US Central 1" |};
    {| value := "us-east1"; label := "US East 1" |};
    {| value := "us-east4"; label := "US East 4" |};
    {| value := "us-west1"; label := "US West 1" |};
    {| value := "us-west2"; label := "US West 2" |};
    {| value := "us-west3"; label := "US West 3" |};
    {| value := "us-west4"; label := "US West 4" |};
    {| value := "europe-west1"; label := "Europe West 1" |};
    {| value := "europe-west2"; label := "Europe West 2" |};
    {| value := "europe-west3"; label := "Europe West 3" |};
    {| value := "europe-west4"; label := "Europe West 4" |};
    {| value := "europe-west6"; label := "Europe West 6" |};
    {| value := "asia-east1"; label := "Asia East 1" |};
    {| value := "asia-northeast1"; label := "Asia Northeast 1" |};
    {| value := "asia-southeast1"; label := "Asia Southeast 1" |};
    {| value := "asia-south1"; label := "Asia South 1" |} ]%string.

(** The value an [AppProvider] publishes on its first render. *)
Definition initial_value : ContextValue :=
  {| projects := [];
     selectedProject := "any_value";
     selectedRegion := "us";
     regions := regions_table;
     loading := false |}.

(** The elements above a component in the rendered tree, innermost
    first.  An [AppProvider] renders [AppContext.Provider] with its
    value object; every other element leaves the context alone. *)
Inductive ancestor :=
| AppProviderNode (v : ContextValue)
| ElementNode (tag : string).

(** [useContext(AppContext)]: the value of the nearest provider above
    the caller, or the default of [createContext()], which is
    [undefined]. *)
Fixpoint useContext (ancestors : list ancestor) : option ContextValue :=
  match ancestors with
  | [] => None
  | AppProviderNode v :: _ => Some v
  | ElementNode _ :: above => useContext above
  end.

Inductive outcome (A : Type) :=
| Returns (a : A)
| Throws (message : string).
Arguments Returns {A} a.
Arguments Throws {A} message.

(** A provided value is an object and hence truthy; only the missing
    provider makes [!context] hold. *)
Definition useAppContext (ancestors : list ancestor) : outcome ContextValue :=
  match useContext ancestors with
  | None => Throws "useAppContext must be used within an AppProvider"
  | Some context => Returns context
  end.

Definition is_provider (a : ancestor) : bool :=
  match a with
  | AppProviderNode _ => true
  | ElementNode _ => false
  end.

(** App.jsx: the ancestors of a routed view, innermost first. *)
Definition App_view_ancestors (v : ContextValue) : list ancestor :=
  [ ElementNode "Route"; ElementNode "Routes"; ElementNode "Layout";
    ElementNode "Router"; AppProviderNode v ]%string.

End AppContext.

(* ================================================================== *)
(** * Event handlers: component state, effect log, back-end oracle *)
(* ================================================================== *)

Module Handler.

(** A rejected axios promise: [error.response?.data?.message] and
    [error.message]. *)
Record http_error := {
  response_message : option string;
  message : string
}.

Inductive reply (A : Type) :=
| Resolved (data : A)
| Rejected (error : http_error).
Arguments Resolved {A} data.
Arguments Rejected {A} error.

(** What a handler does besides updating its component's state, in
    program order. *)
Inductive effect :=
| HttpGet (url : string)
| HttpPostJobId (url : string) (job_id : string)
| HttpPostOptimize (url : string) (query : Js.jsstring) (ddl : option Js.jsstring)
| ConsoleError (label : string)
| Alert (text : string).

Section Monad.
Variable S : Type.

(** A handler threads the component state and appends to the log. *)
Definition M (A : Type) : Type := S * list effect -> A * (S * list effect).

Definition ret {A} (a : A) : M A := fun w => (a, w).

Definition bind {A B} (c : M A) (k : A -> M B) : M B :=
  fun w => let '(a, w') := c w in k a w'.

Definition emit (e : effect) : M unit :=
  fun '(s, l) => (tt, (s, l ++ [e])).

Definition modify (f : S -> S) : M unit :=
  fun '(s, l) => (tt, (f s, l)).

(** Run a handler from a state with an empty log. *)
Definition exec {A} (c : M A) (s : S) : S * list effect :=
  snd (c (s, [])).
End Monad.

Arguments ret {S A} a.
Arguments bind {S A B} c k.
Arguments emit {S} e.
Arguments modify {S} f.
Arguments exec {S A} c s.

End Handler.

Declare Scope handler_scope.
Delimit Scope handler_scope with handler.
Notation "x <- c ;; k" := (Handler.bind c (fun x => k))
  (at level 61, c at next level, right associativity) : handler_scope.
Notation "c ;; k" := (Handler.bind c (fun _ => k))
  (at level 61, right associativity) : handler_scope.

(* ================================================================== *)
(** * components/ExpensiveQueries.jsx *)
(* ================================================================== *)

Module ExpensiveQueries.
Import Handler.

(** One element of the [queries] array of the expensive-queries
    reply. *)
Record Query := {
  job_id : string;
  total_slot_ms : Js.number;
  user_email : string;
  creation_time : string;
  project_id : string;
  duration_seconds : option Js.number;
  query_preview : option Js.jsstring;
  query : option Js.jsstring
}.

(** The reply of query-details: the SQL text and the schema text. *)
Record QueryDetails := {
  qd_query : Js.jsstring;
  qd_ddl : option Js.jsstring
}.

(** The reply of expensive-queries is either an object with an optional
    [debug] note and the [queries] array, or the bare array. *)
Inductive queries_payload :=
| PayloadObject (debug : option string) (queries : list Query)
| PayloadArray (queries : list Query).

(** The three endpoints the view talks to. *)
Record backend := {
  get_expensive_queries : string -> reply queries_payload;
  post_query_details : string -> string -> reply QueryDetails;
  post_optimize :
    string -> Js.jsstring -> option Js.jsstring -> reply Js.jsstring
}.

(** The nine [useState] cells of the component. *)
Record State := {
  expensiveQueries : list Query;
  selectedJobId : option string;
  queryDetails : option QueryDetails;
  recommendations : Js.jsstring;
  debugInfo : string;
  isModalOpen : bool;
  loadingQueries : bool;
  loadingDetails : bool;
  loadingRecommendations : bool
}.

Definition initial : State :=
  {| expensiveQueries := [];
     selectedJobId := None;
     queryDetails := None;
     recommendations := [];
     debugInfo := "";
     isModalOpen := false;
     loadingQueries := false;
     loadingDetails := false;
     loadingRecommendations := false |}.

(** ** Setters *)

Definition setExpensiveQueries (v : list Query) : M State unit :=
  modify (fun s =>
    {| expensiveQueries := v; selectedJobId := selectedJobId s;
       queryDetails := queryDetails s; recommendations := recommendations s;
       debugInfo := debugInfo s; isModalOpen := isModalOpen s;
       loadingQueries := loadingQueries s; loadingDetails := loadingDetails s;
       loadingRecommendations := loadingRecommendations s |}).

Definition setSelectedJobId (v : option string) : M State unit :=
  modify (fun s =>
    {| expensiveQueries := expensiveQueries s; selectedJobId := v;
       queryDetails := queryDetails s; recommendations := recommendations s;
       debugInfo := debugInfo s; isModalOpen := isModalOpen s;
       loadingQueries := loadingQueries s; loadingDetails := loadingDetails s;
       loadingRecommendations := loadingRecommendations s |}).

Definition setQueryDetails (v : option QueryDetails) : M State unit :=
  modify (fun s =>
    {| expensiveQueries := expensiveQueries s; selectedJobId := selectedJobId s;
       queryDetails := v; recommendations := recommendations s;
       debugInfo := debugInfo s; isModalOpen := isModalOpen s;
       loadingQueries := loadingQueries s; loadingDetails := loadingDetails s;
       loadingRecommendations := loadingRecommendations s |}).

Definition setRecommendations (v : Js.jsstring) : M State unit :=
  modify (fun s =>
    {| expensiveQueries := expensiveQueries s; selectedJobId := selectedJobId s;
       queryDetails := queryDetails s; recommendations := v;
       debugInfo := debugInfo s; isModalOpen := isModalOpen s;
       loadingQueries := loadingQueries s; loadingDetails := loadingDetails s;
       loadingRecommendations := loadingRecommendations s |}).

Definition setDebugInfo (v : string) : M State unit :=
  modify (fun s =>
    {| expensiveQueries := expensiveQueries s; selectedJobId := selectedJobId s;
       queryDetails := queryDetails s; recommendations := recommendations s;
       debugInfo := v; isModalOpen := isModalOpen s;
       loadingQueries := loadingQueries s; loadingDetails := loadingDetails s;
       loadingRecommendations := loadingRecommendations s |}).

Definition setIsModalOpen (v : bool) : M State unit :=
  modify (fun s =>
    {| expensiveQueries := expensiveQueries s; selectedJobId := selectedJobId s;
       queryDetails := queryDetails s; recommendations := recommendations s;
       debugInfo := debugInfo s; isModalOpen := v;
       loadingQueries := loadingQueries s; loadingDetails := loadingDetails s;
       loadingRecommendations := loadingRecommendations s |}).

Definition setLoadingQueries (v : bool) : M State unit :=
  modify (fun s =>
    {| expensiveQueries := expensiveQueries s; selectedJobId := selectedJobId s;
       queryDetails := queryDetails s; recommendations := recommendations s;
       debugInfo := debugInfo s; isModalOpen := isModalOpen s;
       loadingQueries := v; loadingDetails := loadingDetails s;
       loadingRecommendations := loadingRecommendations s |}).

Definition setLoadingDetails (v : bool) : M State unit :=
  modify (fun s =>
    {| expensiveQueries := expensiveQueries s; selectedJobId := selectedJobId s;
       queryDetails := queryDetails s; recommendations := recommendations s;
       debugInfo := debugInfo s; isModalOpen := isModalOpen s;
       loadingQueries := loadingQueries s; loadingDetails := v;
       loadingRecommendations := loadingRecommendations s |}).

Definition setLoadingRecommendations (v : bool) : M State unit :=
  modify (fun s =>
    {| expensiveQueries := expensiveQueries s; selectedJobId := selectedJobId s;
       queryDetails := queryDetails s; recommendations := recommendations s;
       debugInfo := debugInfo s; isModalOpen := isModalOpen s;
       loadingQueries := loadingQueries s; loadingDetails := loadingDetails s;
       loadingRecommendations := v |}).

Section Component.
(** [Config.API_BASE_URL], the back end, and the two values read from
    the application context. *)
Variable API_BASE : string.
Variable net : backend.
Variables selectedProject selectedRegion : string.

Local Open Scope string_scope.
Local Open Scope handler_scope.

(** ** Outbound calls: each one is logged, then answered by [net] *)

Definition axios_get_expensive_queries : M State (reply queries_payload) :=
  let url := API_BASE ++ "/expensive-queries?project=" ++ selectedProject
               ++ "&region=" ++ selectedRegion in
  emit (HttpGet url) ;; ret (get_expensive_queries net url).

Definition axios_post_query_details (jobId : string)
  : M State (reply QueryDetails) :=
  let url := API_BASE ++ "/query-details" in
  emit (HttpPostJobId url jobId) ;; ret (post_query_details net url jobId).

Definition axios_post_optimize (q : Js.jsstring) (ddl : option Js.jsstring)
  : M State (reply Js.jsstring) :=
  let url := API_BASE ++ "/optimize" in
  emit (HttpPostOptimize url q ddl) ;; ret (post_optimize net url q ddl).

(** ** fetchExpensiveQueries *)

Definition error_text (error : http_error) : string :=
  "Error: " ++ Config.env_or (response_message error) (message error).

Definition fetchExpensiveQueries : M State unit :=
  setLoadingQueries true ;;
  setDebugInfo "" ;;
  response <- axios_get_expensive_queries ;;
  match response with
  | Resolved data =>
      match data with
      | PayloadObject (Some (String c d)) _ => setDebugInfo (String c d)
      | _ => ret tt
      end ;;
      setExpensiveQueries
        match data with
        | PayloadObject _ qs => qs
        | PayloadArray qs => qs
        end ;;
      setSelectedJobId None ;;
      setQueryDetails None ;;
      setRecommendations []
  | Rejected error =>
      emit (ConsoleError "Error fetching queries:") ;;
      setDebugInfo (error_text error) ;;
      setExpensiveQueries []
  end ;;
  setLoadingQueries false.

(** ** handleQuerySelect

    The handler closes over the [selectedJobId] of the render it was
    created in; [selected] is that value.  [selectedJobId === jobId]
    holds when a job is selected and its id is [jobId]. *)
Definition same_job (selected : option string) (jobId : string) : bool :=
  match selected with
  | Some current => String.eqb current jobId
  | None => false
  end.

Definition handleQuerySelect (selected : option string) (jobId : string)
  : M State unit :=
  if same_job selected jobId then
    setSelectedJobId None ;;
    setQueryDetails None ;;
    setRecommendations []
  else
    setSelectedJobId (Some jobId) ;;
    setRecommendations [] ;;
    setLoadingDetails true ;;
    response <- axios_post_query_details jobId ;;
    match response with
    | Resolved data => setQueryDetails (Some data)
    | Rejected _ =>
        emit (ConsoleError "Error fetching query details:") ;;
        emit (Alert "Error fetching query details. Check the backend logs.") ;;
        setQueryDetails None
    end ;;
    setLoadingDetails false.

(** ** getOptimizationRecommendations

    [held] is the [queryDetails] of the render the handler was
    created in. *)
Definition getOptimizationRecommendations (held : option QueryDetails)
  : M State unit :=
  match held with
  | None => ret tt
  | Some details =>
      setIsModalOpen true ;;
      setLoadingRecommendations true ;;
      response <- axios_post_optimize (qd_query details) (qd_ddl details) ;;
      match response with
      | Resolved text => setRecommendations text
      | Rejected _ =>
          emit (ConsoleError "Error getting recommendations:") ;;
          emit (Alert "Error getting recommendations. Check the backend logs and your Gemini API key.")
      end ;;
      setLoadingRecommendations false
  end.

Definition handleCloseModal : M State unit := setIsModalOpen false.

(** A click runs the handler of the current render: the closure
    values are those of the state the click arrives in. *)
Definition click_query (jobId : string) (s : State) : State * list effect :=
  exec (handleQuerySelect (selectedJobId s) jobId) s.

Definition click_optimize (s : State) : State * list effect :=
  exec (getOptimizationRecommendations (queryDetails s)) s.

Definition mount_or_refresh (s : State) : State * list effect :=
  exec fetchExpensiveQueries s.

End Component.

(** ** The rendered query list *)

(** [query.query_preview || query.query?.substring(0, K)
     || 'No preview available'] *)
Definition preview_text (K : nat) (q : Query) : Js.jsstring :=
  match Js.or (Js.or (query_preview q) (Js.opt_substring (query q) 0 K))
              (Some (Js.lit "No preview available")) with
  | Some s => s
  | None => []
  end.

(** [{query.duration_seconds && (<div>Duration: ...s</div>)}]: a missing
    duration shows nothing, a falsy number (zero, NaN) is itself the
    value of the expression and is shown bare, any other number is
    shown in the duration line. *)
Inductive duration_cell :=
| NoDuration
| BareNumber (d : Js.number)
| DurationLine (d : Js.number).

Definition duration_of (d : option Js.number) : duration_cell :=
  match d with
  | None => NoDuration
  | Some x => if Js.truthy_number x then DurationLine x else BareNumber x
  end.

(** What one [query-item] shows; numbers and dates are kept as values,
    their locale formatting is left out. *)
Record QueryItem := {
  key : string;
  selected : bool;
  rank_number : nat;
  slot_ms : Js.number;
  item_user : string;
  item_time : string;
  item_project : string;
  item_duration : duration_cell;
  preview : Js.jsstring
}.

(** [expensiveQueries.map((query, index) => ...)]: the items in array
    order, the [index]-th one labelled [#index + 1]. *)
Fixpoint render_items (sel : option string) (index : nat) (qs : list Query)
  : list QueryItem :=
  match qs with
  | [] => []
  | q :: rest =>
      {| key := job_id q;
         selected := same_job sel (job_id q);
         rank_number := index + 1;
         slot_ms := total_slot_ms q;
         item_user := user_email q;
         item_time := creation_time q;
         item_project := project_id q;
         item_duration := duration_of (duration_seconds q);
         preview := preview_text Config.MAX_QUERY_PREVIEW_LENGTH q |}
      :: render_items sel (S index) rest
  end.

Inductive queries_list :=
| Loader
| EmptyState
| Items (items : list QueryItem).

Definition render_queries_list (s : State) : queries_list :=
  if loadingQueries s then Loader
  else match expensiveQueries s with
       | [] => EmptyState
       | qs => Items (render_items (selectedJobId s) 0 qs)
       end.

End ExpensiveQueries.

(* ================================================================== *)
(** * components/OrganizationOverview.jsx *)
(* ================================================================== *)

Module OrganizationOverview.
Import Handler.

(** One element of [projects] in the organization-overview reply. *)
Record ProjectRow := {
  project_id : string;
  total_queries : Js.number;
  slot_hours : Js.number;
  error_count : Js.number;
  tb_processed : Js.number
}.

Record OrgStats := {
  totalProjects : Js.number;
  totalQueries : Js.number;
  totalSlotHours : Js.number;
  totalUsers : Js.number;
  totalTBProcessed : Js.number;
  totalErrors : Js.number
}.

Record OverviewData := {
  data_projects : list ProjectRow;
  data_orgStats : OrgStats
}.

Record FormattedProject := {
  id : string;
  name : string;
  description : string;
  queriesLast24h : Js.number;
  slotHoursLast24h : Js.number;
  topUsers : list string;
  status : string;
  tbProcessed : Js.number;
  errorCount : Js.number
}.

Record State := {
  projects : list FormattedProject;
  orgStats : OrgStats;
  loading : bool
}.

Definition zero : Js.number := Js.of_Z 0.

Definition empty_stats : OrgStats :=
  {| totalProjects := zero; totalQueries := zero; totalSlotHours := zero;
     totalUsers := zero; totalTBProcessed := zero; totalErrors := zero |}.

Definition initial : State :=
  {| projects := []; orgStats := empty_stats; loading := true |}.

Definition setProjects (v : list FormattedProject) : M State unit :=
  modify (fun s => {| projects := v; orgStats := orgStats s; loading := loading s |}).

Definition setOrgStats (v : OrgStats) : M State unit :=
  modify (fun s => {| projects := projects s; orgStats := v; loading := loading s |}).

Definition setLoading (v : bool) : M State unit :=
  modify (fun s => {| projects := projects s; orgStats := orgStats s; loading := v |}).

(** ** The display name: [replace(/-/g, ' ')] then
    [replace(/\b\w/g, l => l.toUpperCase())] *)

Definition between (lo hi : nat) (c : ascii) : bool :=
  (Nat.leb lo (nat_of_ascii c) && Nat.leb (nat_of_ascii c) hi)%bool.

(** [\w]: letters, digits and the underscore. *)
Definition is_word_char (c : ascii) : bool :=
  (between 48 57 c || between 65 90 c || between 97 122 c
   || Ascii.eqb c "_")%bool.

Definition toUpperCase (c : ascii) : ascii :=
  if between 97 122 c then ascii_of_nat (nat_of_ascii c - 32) else c.

Fixpoint hyphens_to_spaces (s : string) : string :=
  match s with
  | EmptyString => EmptyString
  | String c rest =>
      String (if Ascii.eqb c "-" then " "%char else c) (hyphens_to_spaces rest)
  end.

(** [inside] tells whether the previous character was a word
    character; [\b\w] matches a word character that starts a word. *)
Fixpoint capitalize_words (inside : bool) (s : string) : string :=
  match s with
  | EmptyString => EmptyString
  | String c rest =>
      String (if (is_word_char c && negb inside)%bool then toUpperCase c else c)
             (capitalize_words (is_word_char c) rest)
  end.

Definition display_name (project_id : string) : string :=
  capitalize_words false (hyphens_to_spaces project_id).

(** ** The health badge:
    [project.error_count > project.total_queries * 0.05 ? 'warning' : 'healthy'] *)

Definition five_percent : Js.number := Js.decimal 5 2.

Definition status_of (project : ProjectRow) : string :=
  if Js.gt (error_count project) (Js.mul (total_queries project) five_percent)
  then "warning" else "healthy".

Definition format_project (project : ProjectRow) : FormattedProject :=
  {| id := project_id project;
     name := display_name (project_id project);
     description := "BigQuery project: " ++ project_id project;
     queriesLast24h := total_queries project;
     slotHoursLast24h := Js.round2 (slot_hours project);
     topUsers := [];
     status := status_of project;
     tbProcessed := Js.round2 (tb_processed project);
     errorCount := error_count project |}.

Section Component.
Variable API_BASE : string.
Variable net : string -> reply OverviewData.
Variable selectedRegion : string.

Local Open Scope string_scope.
Local Open Scope handler_scope.

Definition axios_get_overview : M State (reply OverviewData) :=
  let url := API_BASE ++ "/organization-overview?region=" ++ selectedRegion in
  emit (HttpGet url) ;; ret (net url).

Definition fetchOrganizationData : M State unit :=
  setLoading true ;;
  response <- axios_get_overview ;;
  match response with
  | Resolved data =>
      let projectsData := data_projects data in
      let statsData := data_orgStats data in
      let formattedProjects := map format_project projectsData in
      setProjects formattedProjects ;;
      setOrgStats
        {| totalProjects := totalProjects statsData;
           totalQueries := totalQueries statsData;
           totalSlotHours := Js.round2 (totalSlotHours statsData);
           totalUsers := totalUsers statsData;
           totalTBProcessed := Js.round2 (totalTBProcessed statsData);
           totalErrors := totalErrors statsData |}
  | Rejected _ =>
      emit (ConsoleError "Error fetching organization data:") ;;
      setProjects [] ;;
      setOrgStats empty_stats
  end ;;
  setLoading false.

Definition mount_or_refresh (s : State) : State * list effect :=
  exec fetchOrganizationData s.

End Component.

End OrganizationOverview.

(* ================================================================== *)
(** * A small virtual DOM for the views that render fixed markup *)
(* ================================================================== *)

Module Dom.

#[local] Set Warnings "-register-all".

Inductive node :=
| Text (s : string)
| Num (x : Js.number)
| Missing
| Element (className : string) (children : list node)
| Chart (kind : string) (dataKey : string) (data : list (string * Js.number)).

(** [{x}] for an optional number: [undefined] and [null] render
    nothing. *)
Definition opt_num (x : option Js.number) : node :=
  match x with
  | Some v => Num v
  | None => Missing
  end.

End Dom.

(* ================================================================== *)
(** * components/PulseView.jsx *)
(* ================================================================== *)

Module PulseView.
Import Handler Dom.

Record Kpis := {
  bytesProcessedWTD : option Js.number;
  bytesProcessedChange : option Js.number;
  slotMsWTD : option Js.number;
  slotMsChange : option Js.number;
  avgJobDurationWTD : option Js.number;
  jobsDelayedWTD : option Js.number;
  queryCacheRateWTD : option Js.number;
  spillsToDiskWTD : option Js.number
}.

Record Reservations := {
  totalSlotCapacity : option Js.number;
  totalSlots : option Js.number;
  totalIdleSlots : option Js.number
}.

Definition series := list (string * Js.number).

Record PulseData := {
  weeklyBytesProcessed : series;
  weeklySlotMs : series;
  bytesProcessedHourly : series;
  slotRateHourly : series;
  kpis : Kpis;
  reservations : Reservations
}.

Record State := {
  pulseData : option PulseData;
  loading : bool
}.

Definition initial : State := {| pulseData := None; loading := true |}.

Definition setPulseData (v : option PulseData) : M State unit :=
  modify (fun s => {| pulseData := v; loading := loading s |}).

Definition setLoading (v : bool) : M State unit :=
  modify (fun s => {| pulseData := pulseData s; loading := v |}).

Local Open Scope string_scope.

Definition int (z : Z) : Js.number := Js.of_Z z.
Definition dec1 (tenths : Z) : Js.number := Js.decimal tenths 1.
Definition dec2 (hundredths : Z) : Js.number := Js.decimal hundredths 2.

(** The data the view falls back to when the fetch fails. *)
Definition mock_data : PulseData :=
  {| weeklyBytesProcessed :=
       [ ("May", dec1 152); ("Jun", dec1 185); ("Jul", dec1 128);
         ("Aug", dec1 82); ("Sep", dec1 61) ];
     weeklySlotMs :=
       [ ("May", int 2800); ("Jun", int 1200); ("Jul", int 800);
         ("Aug", int 400); ("Sep", int 200) ];
     bytesProcessedHourly :=
       [ ("Sep 19", int 0); ("Sep 20", int 45); ("Sep 21", int 120);
         ("Sep 22", int 180); ("Sep 23", int 200); ("Sep 24", int 150);
         ("Sep 25", int 90); ("Sep 26", int 250); ("Sep 27", int 180) ];
     slotRateHourly :=
       [ ("Sep 19", int 0); ("Sep 20", dec1 12); ("Sep 21", dec1 38);
         ("Sep 22", dec1 21); ("Sep 23", dec1 18); ("Sep 24", dec1 25);
         ("Sep 25", dec1 32); ("Sep 26", dec1 41); ("Sep 27", dec1 39) ];
     kpis :=
       {| bytesProcessedWTD := Some (dec2 29);
          bytesProcessedChange := Some (dec1 (-77));
          slotMsWTD := Some (dec1 781);
          slotMsChange := Some (dec1 335);
          avgJobDurationWTD := Some (dec1 58);
          jobsDelayedWTD := Some (dec1 3);
          queryCacheRateWTD := Some (dec1 669);
          spillsToDiskWTD := Some (int 0) |};
     reservations :=
       {| totalSlotCapacity := Some (int 960);
          totalSlots := Some (int 1000);
          totalIdleSlots := Some (int 1000) |} |}.

Section Component.
Variable API_BASE : string.
Variable net : string -> reply PulseData.
Variables selectedProject selectedRegion : string.

Local Open Scope handler_scope.

Definition axios_get_pulse : M State (reply PulseData) :=
  let url := API_BASE ++ "/pulse-data?project=" ++ selectedProject
               ++ "&region=" ++ selectedRegion in
  emit (HttpGet url) ;; ret (net url).

Definition fetchPulseData : M State unit :=
  setLoading true ;;
  response <- axios_get_pulse ;;
  match response with
  | Resolved data => setPulseData (Some data)
  | Rejected _ =>
      emit (ConsoleError "Error fetching pulse data:") ;;
      setPulseData (Some mock_data)
  end ;;
  setLoading false.

Definition mount_or_refresh (s : State) : State * list effect :=
  exec fetchPulseData s.
End Component.

(** ** The markup *)

(** The two large metric cards are written out in the markup; they take
    the data only to make plain that nothing of it is read. *)
Definition bytes_metric_card (_ : PulseData) : node :=
  Element "pulse-metric-card"
    [ Element "metric-large-display"
        [ Element "metric-value" [ Text "0.29" ];
          Element "metric-unit" [ Text "TiB" ] ];
      Element "metric-label" [ Text "Bytes Processed WTD" ];
      Element "metric-change negative"
        [ Element "TrendingDown" [];
          Element "span" [ Text "7.7% PROCESSED WOW" ] ] ].

Definition slot_metric_card (_ : PulseData) : node :=
  Element "pulse-metric-card"
    [ Element "metric-large-display"
        [ Element "metric-value" [ Text "78.1" ];
          Element "metric-unit" [ Text "M" ] ];
      Element "metric-label" [ Text "Slot ms WTD" ];
      Element "metric-change positive"
        [ Element "TrendingUp" [];
          Element "span" [ Text "33.5% WOW" ] ] ].

Definition kpi_card (value : list node) (label : string) : node :=
  Element "kpi-card-large"
    [ Element "kpi-value" value; Element "kpi-label" [ Text label ] ].

Definition capacity_row (label : string) (value : option Js.number) : node :=
  Element "capacity-row"
    [ Element "span" [ Text label ]; Element "span" [ opt_num value ] ].

Definition bottom_row (d : PulseData) : node :=
  let k := kpis d in
  let r := reservations d in
  Element "pulse-bottom-row"
    [ Element "kpi-section"
        [ Element "h3" [ Text "Latency" ];
          Element "kpi-cards"
            [ kpi_card [ opt_num (avgJobDurationWTD k); Text "s" ]
                       "Avg Job Duration WTD";
              kpi_card [ opt_num (jobsDelayedWTD k); Text "%" ]
                       "Jobs Delayed >1s WTD" ] ];
      Element "kpi-section"
        [ Element "h3" [ Text "Capacity" ];
          Element "capacity-section"
            [ Element "capacity-header" [ Text "Current Reservations" ];
              Element "capacity-details"
                [ capacity_row "Reservations Total Slot Capacity"
                               (totalSlotCapacity r);
                  capacity_row "Capacity Commitments Total Slots"
                               (totalSlots r);
                  capacity_row "Capacity Commitments Total Idle"
                               (totalIdleSlots r) ] ] ];
      Element "kpi-section"
        [ Element "h3" [ Text "Optimization" ];
          Element "kpi-cards"
            [ kpi_card [ opt_num (queryCacheRateWTD k); Text "%" ]
                       "Query Cache Rate WTD";
              kpi_card [ opt_num (spillsToDiskWTD k) ]
                       "Spills to Disk WTD" ] ] ].

Definition chart_card (title kind : string) (data : series) : node :=
  Element "pulse-chart-card"
    [ Element "chart-header" [ Element "h3" [ Text title ] ];
      Chart kind "value" data ].

Definition render_data (d : PulseData) : node :=
  Element "pulse-content"
    [ Element "pulse-top-row"
        [ chart_card "Weekly Bytes Processed by Project" "AreaChart"
                     (weeklyBytesProcessed d);
          bytes_metric_card d;
          chart_card "Bytes Processed by Hour" "LineChart"
                     (bytesProcessedHourly d) ];
      Element "pulse-second-row"
        [ chart_card "Weekly Slot ms by Project" "AreaChart" (weeklySlotMs d);
          slot_metric_card d;
          chart_card "Average Slot Rate by Hour" "LineChart"
                     (slotRateHourly d) ];
      bottom_row d ].

(** While loading the view is the loader; [pulseData] is set before
    [loading] is cleared. *)
Definition render (s : State) : node :=
  if loading s then Element "loader" []
  else match pulseData s with
       | Some d => render_data d
       | None => Missing
       end.

(** All text nodes of a tree, in document order. *)
Fixpoint texts (n : node) : list string :=
  match n with
  | Text s => [s]
  | Element _ children =>
      (fix go (l : list node) : list string :=
         match l with
         | [] => []
         | c :: rest => (texts c ++ go rest)%list
         end) children
  | _ => []
  end.

End PulseView.

(* ================================================================== *)
(** * components/TimeWindowInvestigation.jsx *)
(* ================================================================== *)

Module TimeWindowInvestigation.
Import Handler.

Record Gauge := { current : Js.number; max : Js.number; gauge_unit : string }.
Record Errors := { count : Js.number; percentage : Js.number }.
Record Measure := { value : Js.number; measure_unit : string }.

Record Kpis := {
  slotUsage : Gauge;
  jobConcurrency : Gauge;
  errors : Errors;
  avgJobDuration : Measure;
  bytesProcessed : Measure;
  totalJobs : Measure;
  activeUsers : Measure
}.

Record SlotPoint := { time : string; jobs : Js.number; slots : Js.number }.
Record DurationBucket := { duration_bucket : string; bucket_count : Js.number }.
Record ErrorSlice := { slice_name : string; slice_value : Js.number; color : string }.
Record UserRow := {
  user_email : string;
  query_count : Js.number;
  slot_hours : Js.number;
  gb_processed : Js.number
}.

Record DashboardData := {
  kpis : Kpis;
  slotUsageChart : list SlotPoint;
  jobDurationChart : list DurationBucket;
  bytesProcessedChart : list (string * Js.number);
  errorBreakdown : list ErrorSlice;
  topUsers : list UserRow
}.

Record State := {
  dashboardData : option DashboardData;
  timeRange : string;
  loading : bool
}.

Definition initial (DEFAULT_TIME_RANGE : string) : State :=
  {| dashboardData := None; timeRange := DEFAULT_TIME_RANGE; loading := true |}.

Definition setDashboardData (v : option DashboardData) : M State unit :=
  modify (fun s =>
    {| dashboardData := v; timeRange := timeRange s; loading := loading s |}).

Definition setTimeRange (v : string) : M State unit :=
  modify (fun s =>
    {| dashboardData := dashboardData s; timeRange := v; loading := loading s |}).

Definition setLoading (v : bool) : M State unit :=
  modify (fun s =>
    {| dashboardData := dashboardData s; timeRange := timeRange s; loading := v |}).

Local Open Scope string_scope.

Definition zero : Js.number := Js.of_Z 0.

(** The dashboard shown when the fetch fails. *)
Definition fallback_data : DashboardData :=
  {| kpis :=
       {| slotUsage :=
            {| current := zero; max := Js.of_Z 2000; gauge_unit := "slots" |};
          jobConcurrency :=
            {| current := zero; max := Js.of_Z 100; gauge_unit := "jobs" |};
          errors := {| count := zero; percentage := zero |};
          avgJobDuration := {| value := zero; measure_unit := "minutes" |};
          bytesProcessed := {| value := zero; measure_unit := "TB" |};
          totalJobs := {| value := zero; measure_unit := "jobs" |};
          activeUsers := {| value := zero; measure_unit := "users" |} |};
     slotUsageChart := [];
     jobDurationChart := [];
     bytesProcessedChart := [];
     errorBreakdown := [];
     topUsers := [] |}.

Section Component.
Variable API_BASE : string.
Variable net : string -> reply DashboardData.
Variables selectedProject selectedRegion : string.

Local Open Scope handler_scope.

Definition axios_get_dashboard (timeRange : string)
  : M State (reply DashboardData) :=
  let url := API_BASE ++ "/operational-dashboard?timeRange=" ++ timeRange
               ++ "&project=" ++ selectedProject
               ++ "&region=" ++ selectedRegion in
  emit (HttpGet url) ;; ret (net url).

(** [range] is the [timeRange] of the render the handler closes
    over. *)
Definition fetchDashboardData (range : string) : M State unit :=
  setLoading true ;;
  response <- axios_get_dashboard range ;;
  match response with
  | Resolved data => setDashboardData (Some data)
  | Rejected _ =>
      emit (ConsoleError "Error fetching dashboard data:") ;;
      setDashboardData (Some fallback_data)
  end ;;
  setLoading false.

Definition mount_or_refresh (s : State) : State * list effect :=
  exec (fetchDashboardData (timeRange s)) s.
End Component.

End TimeWindowInvestigation.

(* ================================================================== *)
(** * The back end, from the written specification *)
(* ================================================================== *)

Module Backend.

(** ** Data model *)

Inductive Status :=
| Succeeded
| Failed (category : string).

(** Modelled from the spec: the ExecutionRecord of the data model (one
    historical job run); the Flask service that retrieves it is
    missing from the sources. *)
Record ExecutionRecord := {
  identifier : string;
  project : string;
  user : string;
  submitted : Z;
  duration : Z;
  slot_ms : Z;
  bytes : Z;
  cache_hit : bool;
  status : Status;
  query_text : Js.jsstring
}.

Inductive ProjectScope :=
| AllProjects
| SingleProject (project_id : string).

Record Scope := {
  scope_project : ProjectScope;
  scope_region : string
}.

(** A half-open range of submission times, [w_start] included and
    [w_end] excluded. *)
Record TimeWindow := {
  w_start : Z;
  w_end : Z
}.

(** The warehouse's job history, region by region. *)
Definition Warehouse := string -> list ExecutionRecord.

Inductive failure :=
| InvalidScope
| ScopeDenied
| UpstreamUnavailable
| RecommendationUnavailable.

Inductive result (A : Type) :=
| Ok (a : A)
| Err (f : failure).
Arguments Ok {A} a.
Arguments Err {A} f.

(** ** 4.1 Warehouse Query Gateway *)

Definition in_window (w : TimeWindow) (r : ExecutionRecord) : bool :=
  ((w_start w <=? submitted r) && (submitted r <? w_end w))%Z%bool.

Definition in_scope (sc : Scope) (r : ExecutionRecord) : bool :=
  match scope_project sc with
  | AllProjects => true
  | SingleProject p => String.eqb p (project r)
  end.

Definition matching (sc : Scope) (w : TimeWindow) (wh : Warehouse)
  : list ExecutionRecord :=
  filter (fun r => (in_scope sc r && in_window w r)%bool) (wh (scope_region sc)).

(** Modelled from the spec: [runAggregateQuery(scope, window)] of 4.1,
    a read-only query that fails with [InvalidScope] on a window whose
    end is not after its start; the gateway code is missing from the
    sources. *)
Definition runAggregateQuery (sc : Scope) (w : TimeWindow) (wh : Warehouse)
  : result (list ExecutionRecord) :=
  if (w_end w <=? w_start w)%Z then Err InvalidScope
  else Ok (matching sc w wh).

(** ** 4.2 Metrics Aggregator *)

(** Exact division; [None] is the division fault. *)
Definition checked_div (a b : Z) : option Q :=
  match b with
  | Z0 => None
  | Zpos p => Some (Qmake a p)
  | Zneg p => Some (Qmake (- a) p)
  end.

(** A rate field: zero when the denominator is zero. *)
Definition rate (numerator denominator : Z) : option Q :=
  if (denominator =? 0)%Z then Some 0%Q
  else checked_div numerator denominator.

Record Totals := {
  t_jobs : Z;
  t_slot_ms : Z;
  t_bytes : Z;
  t_errors : Z;
  t_cache_hits : Z
}.

Definition no_totals : Totals :=
  {| t_jobs := 0; t_slot_ms := 0; t_bytes := 0; t_errors := 0; t_cache_hits := 0 |}.

Definition is_failed (r : ExecutionRecord) : bool :=
  match status r with
  | Failed _ => true
  | Succeeded => false
  end.

Definition accumulate (acc : Totals) (r : ExecutionRecord) : Totals :=
  {| t_jobs := t_jobs acc + 1;
     t_slot_ms := t_slot_ms acc + slot_ms r;
     t_bytes := t_bytes acc + bytes r;
     t_errors := t_errors acc + (if is_failed r then 1 else 0);
     t_cache_hits := t_cache_hits acc + (if cache_hit r then 1 else 0) |}%Z.

Definition totals (records : list ExecutionRecord) : Totals :=
  fold_left accumulate records no_totals.

Record KPISet := {
  totalJobs : Z;
  totalSlotMs : Z;
  totalBytes : Z;
  errorCount : Z;
  cacheHits : Z;
  errorRate : Q;
  cacheHitRate : Q
}.

(** Modelled from the spec: [aggregate(records, window)] of 4.2, sums
    and rates over exactly the input records, a rate being zero when
    the total job count is zero; the aggregation code is missing from
    the sources.  [None] is a division fault. *)
Definition aggregate (records : list ExecutionRecord) (w : TimeWindow)
  : option KPISet :=
  let t := totals records in
  match rate (t_errors t) (t_jobs t), rate (t_cache_hits t) (t_jobs t) with
  | Some er, Some cr =>
      Some {| totalJobs := t_jobs t;
              totalSlotMs := t_slot_ms t;
              totalBytes := t_bytes t;
              errorCount := t_errors t;
              cacheHits := t_cache_hits t;
              errorRate := er;
              cacheHitRate := cr |}
  | _, _ => None
  end.

(** The sum of a per-record field, as the specification words it. *)
Fixpoint sum_of (field : ExecutionRecord -> Z) (records : list ExecutionRecord) : Z :=
  match records with
  | [] => 0
  | r :: rest => field r + sum_of field rest
  end.

Inductive kpi_outcome :=
| Kpis (k : KPISet)
| Failure (f : failure)
| DivisionFault.

(** Modelled from the spec: a KPI request, the gateway's rows handed to
    the aggregator.  The warehouse is threaded through and handed back,
    the query being read-only. *)
Definition kpi_request (sc : Scope) (w : TimeWindow) (wh : Warehouse)
  : kpi_outcome * Warehouse :=
  match runAggregateQuery sc w wh with
  | Err f => (Failure f, wh)
  | Ok records =>
      match aggregate records w with
      | Some k => (Kpis k, wh)
      | None => (DivisionFault, wh)
      end
  end.

(** ** Week-over-week change *)

Inductive Change :=
| Undefined
| Percent (p : Q).

(** The equally-sized window that ends where [w] starts. *)
Definition prior_window (w : TimeWindow) : TimeWindow :=
  {| w_start := w_start w - (w_end w - w_start w); w_end := w_start w |}.

(** Modelled from the spec: the week-over-week change of 4.2, a signed
    percentage of the prior total, undefined when that total is zero;
    the computation is missing from the sources.  [None] is a division
    fault. *)
Definition change (current prior : Z) : option Change :=
  if (prior =? 0)%Z then Some Undefined
  else option_map Percent (checked_div ((current - prior) * 100) prior).

Definition window_total (field : ExecutionRecord -> Z)
           (sc : Scope) (w : TimeWindow) (wh : Warehouse) : Z :=
  sum_of field (matching sc w wh).

Definition weekOverWeek (field : ExecutionRecord -> Z)
           (sc : Scope) (w : TimeWindow) (wh : Warehouse) : option Change :=
  change (window_total field sc w wh) (window_total field sc (prior_window w) wh).

(** ** 4.3 Query Ranking Service *)

(** [a] may stand before [b]: more slot-milliseconds, or as many and
    submitted no later. *)
Definition costlier (a b : ExecutionRecord) : bool :=
  ((slot_ms b <? slot_ms a)
   || ((slot_ms a =? slot_ms b) && (submitted a <=? submitted b)))%Z%bool.

Fixpoint insert (r : ExecutionRecord) (l : list ExecutionRecord)
  : list ExecutionRecord :=
  match l with
  | [] => [r]
  | x :: rest => if costlier r x then r :: l else x :: insert r rest
  end.

Fixpoint sort_by_cost (l : list ExecutionRecord) : list ExecutionRecord :=
  match l with
  | [] => []
  | r :: rest => insert r (sort_by_cost rest)
  end.

Record RankedQuery := {
  record : ExecutionRecord;
  rank : nat
}.

Fixpoint annotate (position : nat) (l : list ExecutionRecord) : list RankedQuery :=
  match l with
  | [] => []
  | r :: rest => {| record := r; rank := position |} :: annotate (S position) rest
  end.

(** Modelled from the spec: [topByCost(scope, window, n)] of 4.3, the
    first [n] matching records in descending slot-millisecond order,
    earlier submission first among equals, ranked from 1; the ranking
    code is missing from the sources. *)
Definition topByCost (sc : Scope) (w : TimeWindow) (n : nat) (wh : Warehouse)
  : result (list RankedQuery) :=
  match runAggregateQuery sc w wh with
  | Ok records => Ok (annotate 1 (firstn n (sort_by_cost records)))
  | Err f => Err f
  end.

(** ** organization-overview *)

Fixpoint distinct (l : list string) : list string :=
  match l with
  | [] => []
  | x :: rest =>
      x :: filter (fun y => negb (String.eqb x y)) (distinct rest)
  end.

Record ProjectSummary := {
  ps_project : string;
  ps_totals : Totals
}.

Record Overview := {
  ov_projects : list ProjectSummary;
  ov_totals : Totals;
  ov_users : nat
}.

Definition of_project (p : string) (records : list ExecutionRecord)
  : list ExecutionRecord :=
  filter (fun r => String.eqb p (project r)) records.

(** Modelled from the spec: the organization-overview request of
    section 6, one row of totals per project that has records in scope
    and the totals over all of them; the endpoint is missing from the
    sources. *)
Definition organization_overview (sc : Scope) (w : TimeWindow) (wh : Warehouse)
  : result Overview :=
  match runAggregateQuery sc w wh with
  | Err f => Err f
  | Ok records =>
      Ok {| ov_projects :=
              map (fun p => {| ps_project := p;
                               ps_totals := totals (of_project p records) |})
                  (distinct (map project records));
            ov_totals := totals records;
            ov_users := List.length (distinct (map user records)) |}
  end.

Section Wire.
(** The unit conversions of the reply (slot-milliseconds to
    slot-hours, bytes to terabytes) are not fixed by the
    specification. *)
Variable slot_hours_of : Z -> Js.number.
Variable terabytes_of : Z -> Js.number.

Definition project_row (p : ProjectSummary) : OrganizationOverview.ProjectRow :=
  {| OrganizationOverview.project_id := ps_project p;
     OrganizationOverview.total_queries := Js.of_Z (t_jobs (ps_totals p));
     OrganizationOverview.slot_hours := slot_hours_of (t_slot_ms (ps_totals p));
     OrganizationOverview.error_count := Js.of_Z (t_errors (ps_totals p));
     OrganizationOverview.tb_processed := terabytes_of (t_bytes (ps_totals p)) |}.

Definition overview_data (o : Overview) : OrganizationOverview.OverviewData :=
  {| OrganizationOverview.data_projects := map project_row (ov_projects o);
     OrganizationOverview.data_orgStats :=
       {| OrganizationOverview.totalProjects :=
            Js.of_Z (Z.of_nat (List.length (ov_projects o)));
          OrganizationOverview.totalQueries := Js.of_Z (t_jobs (ov_totals o));
          OrganizationOverview.totalSlotHours :=
            slot_hours_of (t_slot_ms (ov_totals o));
          OrganizationOverview.totalUsers := Js.of_Z (Z.of_nat (ov_users o));
          OrganizationOverview.totalTBProcessed :=
            terabytes_of (t_bytes (ov_totals o));
          OrganizationOverview.totalErrors := Js.of_Z (t_errors (ov_totals o)) |} |}.

(** The endpoint as the view's oracle: a failed request is a rejected
    promise. *)
Definition serve_overview (sc : Scope) (w : TimeWindow) (wh : Warehouse)
  : string -> Handler.reply OrganizationOverview.OverviewData :=
  fun _ =>
    match organization_overview sc w wh with
    | Ok o => Handler.Resolved (overview_data o)
    | Err _ =>
        Handler.Rejected
          {| Handler.response_message := None;
             Handler.message := "Request failed" |}
    end.
End Wire.

End Backend.

(* ================================================================== *)
(** * Properties the statements below are phrased with *)
(* ================================================================== *)

Module Spec.
Import ExpensiveQueries.

(** The frame of a failed recommendation call as the specification
    words it: every cell except the recommendation text and its
    loading flag keeps its value. *)
Definition only_recommendation_and_loading_change (s s' : State) : Prop :=
  expensiveQueries s' = expensiveQueries s
  /\ selectedJobId s' = selectedJobId s
  /\ queryDetails s' = queryDetails s
  /\ debugInfo s' = debugInfo s
  /\ isModalOpen s' = isModalOpen s
  /\ loadingQueries s' = loadingQueries s
  /\ loadingDetails s' = loadingDetails s.

(** The frame the handler has: the modal flag and the loading flag are
    the cells it may change on failure. *)
Definition only_modal_and_loading_change (s s' : State) : Prop :=
  expensiveQueries s' = expensiveQueries s
  /\ selectedJobId s' = selectedJobId s
  /\ queryDetails s' = queryDetails s
  /\ recommendations s' = recommendations s
  /\ debugInfo s' = debugInfo s
  /\ loadingQueries s' = loadingQueries s
  /\ loadingDetails s' = loadingDetails s.

Definition is_refetch (e : Handler.effect) : bool :=
  match e with
  | Handler.HttpGet _ | Handler.HttpPostJobId _ _ => true
  | _ => false
  end.

Definition is_request (e : Handler.effect) : bool :=
  match e with
  | Handler.HttpGet _ | Handler.HttpPostJobId _ _
  | Handler.HttpPostOptimize _ _ _ => true
  | _ => false
  end.

(** The ranking order of the specification: more slot-milliseconds
    first, the earlier submission first among equals. *)
Definition ranks_before (a b : Backend.ExecutionRecord) : Prop :=
  (Backend.slot_ms b < Backend.slot_ms a
   \/ (Backend.slot_ms a = Backend.slot_ms b
       /\ Backend.submitted a <= Backend.submitted b))%Z.

(** [rec] is what [n] one-bit right shifts make of the mantissa [m]:
    the quotient, the round bit (the remainder is at least half) and
    the sticky bit (the remainder is neither zero nor exactly half). *)
Definition shifted (m : Z) (n : nat) (rec : shr_record) : Prop :=
  exists rem : Z,
    (0 <= rem < 2 ^ Z.of_nat n
     /\ m = shr_m rec * 2 ^ Z.of_nat n + rem
     /\ 0 <= shr_m rec)%Z
    /\ shr_r rec = (2 ^ Z.of_nat n <=? 2 * rem)%Z
    /\ shr_s rec
       = negb (2 * rem =? (if shr_r rec then 2 ^ Z.of_nat n else 0))%Z.

End Spec.

(* ================================================================== *)
(** * Sample inputs *)
(* ================================================================== *)

Module Examples.
Import Handler ExpensiveQueries.

Local Open Scope string_scope.

Definition api : string := Config.API_BASE_URL None.

Definition network_error (A : Type) : reply A :=
  Rejected {| response_message := None; message := "Network Error" |}.

(** A back end none of whose endpoints answers. *)
Definition offline : backend :=
  {| get_expensive_queries := fun _ => network_error _;
     post_query_details := fun _ _ => network_error _;
     post_optimize := fun _ _ _ => network_error _ |}.

(** A back end whose optimize endpoint answers with a fixed text. *)
Definition advising : backend :=
  {| get_expensive_queries := fun _ => network_error _;
     post_query_details := fun _ _ => network_error _;
     post_optimize := fun _ _ _ => Resolved (Js.lit "Partition the table.") |}.

Definition details : QueryDetails :=
  {| qd_query := Js.lit "SELECT * FROM t";
     qd_ddl := Some (Js.lit "CREATE TABLE t (x INT64)") |}.

(** The view after job-1 was selected and its details arrived. *)
Definition holding : State :=
  {| expensiveQueries := [];
     selectedJobId := Some "job-1";
     queryDetails := Some details;
     recommendations := [];
     debugInfo := "";
     isModalOpen := false;
     loadingQueries := false;
     loadingDetails := false;
     loadingRecommendations := false |}.

(** A 500-unit query text whose units 149 and 150 are the two halves of
    U+1F600. *)
Definition split_text : Js.jsstring :=
  (repeat 97%N 149 ++ [55357%N; 56832%N] ++ repeat 97%N 349)%list.

(** A 500-unit query text of ASCII letters only. *)
Definition plain_text : Js.jsstring := repeat 97%N 500.

Definition query_with_text (text : Js.jsstring) : Query :=
  {| job_id := "job-1";
     total_slot_ms := Js.of_Z 1000;
     user_email := "ada@example.com";
     creation_time := "2025-01-01T00:00:00Z";
     project_id := "analytics-1";
     duration_seconds := None;
     query_preview := None;
     query := Some text |}.

(** A project row with the given counts. *)
Definition row (queries errors : Z) : OrganizationOverview.ProjectRow :=
  {| OrganizationOverview.project_id := "analytics-1";
     OrganizationOverview.total_queries := Js.of_Z queries;
     OrganizationOverview.slot_hours := Js.decimal 125 1;
     OrganizationOverview.error_count := Js.of_Z errors;
     OrganizationOverview.tb_processed := Js.decimal 3 1 |}.

(** ** A small warehouse *)

Definition job (name proj : string) (at_time slot : Z) (failed : bool)
  : Backend.ExecutionRecord :=
  {| Backend.identifier := name;
     Backend.project := proj;
     Backend.user := "ada@example.com";
     Backend.submitted := at_time;
     Backend.duration := 5;
     Backend.slot_ms := slot;
     Backend.bytes := 10;
     Backend.cache_hit := false;
     Backend.status :=
       if failed then Backend.Failed "accessDenied" else Backend.Succeeded;
     Backend.query_text := Js.lit "SELECT 1" |}.

(** Three jobs of the current day in region us, two of them with the
    same cost; no job the day before; nothing anywhere else. *)
Definition three_jobs : Backend.Warehouse :=
  fun region =>
    if String.eqb region "us" then
      [ job "a" "analytics-1" 120 500 false;
        job "b" "analytics-1" 110 900 true;
        job "c" "billing-2" 105 500 false ]
    else [].

Definition everything_us : Backend.Scope :=
  {| Backend.scope_project := Backend.AllProjects;
     Backend.scope_region := "us" |}.

Definition analytics_us : Backend.Scope :=
  {| Backend.scope_project := Backend.SingleProject "analytics-1";
     Backend.scope_region := "us" |}.

Definition today : Backend.TimeWindow :=
  {| Backend.w_start := 100; Backend.w_end := 200 |}.

(** No record of any region falls in this window. *)
Definition quiet_day : Backend.TimeWindow :=
  {| Backend.w_start := 1000; Backend.w_end := 1100 |}.

(** Pulse data with the two week-over-week fields replaced, every
    other field kept. *)
Definition with_changes (d : PulseView.PulseData)
           (bytesChange slotChange : option Js.number) : PulseView.PulseData :=
  let k := PulseView.kpis d in
  {| PulseView.weeklyBytesProcessed := PulseView.weeklyBytesProcessed d;
     PulseView.weeklySlotMs := PulseView.weeklySlotMs d;
     PulseView.bytesProcessedHourly := PulseView.bytesProcessedHourly d;
     PulseView.slotRateHourly := PulseView.slotRateHourly d;
     PulseView.kpis :=
       {| PulseView.bytesProcessedWTD := PulseView.bytesProcessedWTD k;
          PulseView.bytesProcessedChange := bytesChange;
          PulseView.slotMsWTD := PulseView.slotMsWTD k;
          PulseView.slotMsChange := slotChange;
          PulseView.avgJobDurationWTD := PulseView.avgJobDurationWTD k;
          PulseView.jobsDelayedWTD := PulseView.jobsDelayedWTD k;
          PulseView.queryCacheRateWTD := PulseView.queryCacheRateWTD k;
          PulseView.spillsToDiskWTD := PulseView.spillsToDiskWTD k |};
     PulseView.reservations := PulseView.reservations d |}.

(** The pulse data of a week whose prior week had no traffic:
    [kpis.bytesProcessedChange] and [kpis.slotMsChange] are undefined,
    the other fields are those of the view's sample data. *)
Definition pulse_without_prior : PulseView.PulseData :=
  with_changes PulseView.mock_data None None.

End Examples.

(* ================================================================== *)
(** * config.js: validation *)
(* ================================================================== *)

Module ConfigValidation.

Local Open Scope string_scope.

(** [Config.validateConfig()], reading the two static fields it tests:
    [!this.API_BASE_URL] holds for the empty string only, and
    [this.REFRESH_INTERVAL_MS < 1000] is a number comparison (false on
    NaN, the value [parseInt] gives to text without digits). *)
Definition validateConfig (API_BASE_URL : string) (REFRESH_INTERVAL_MS : Js.number)
  : list string :=
  ((if String.eqb API_BASE_URL "" then ["API_BASE_URL is not configured"] else [])
   ++ (if Js.lt REFRESH_INTERVAL_MS (Js.of_Z 1000)
       then ["REFRESH_INTERVAL_MS should be at least 1000ms"] else []))%list.

End ConfigValidation.

(* ================================================================== *)
(** * context/AppContext.jsx: the provider *)
(* ================================================================== *)

Module AppProvider.
Import Handler.

(** The four [useState] cells of [AppProvider]. *)
Record State := {
  projects : list AppContext.Project;
  selectedProject : string;
  selectedRegion : string;
  loading : bool
}.

Local Open Scope string_scope.

Definition initial : State :=
  {| projects := [];
     selectedProject := "any_value";
     selectedRegion := "us";
     loading := false |}.

Definition setProjects (v : list AppContext.Project) : M State unit :=
  modify (fun s =>
    {| projects := v; selectedProject := selectedProject s;
       selectedRegion := selectedRegion s; loading := loading s |}).

Definition setSelectedProject (v : string) : M State unit :=
  modify (fun s =>
    {| projects := projects s; selectedProject := v;
       selectedRegion := selectedRegion s; loading := loading s |}).

Definition setSelectedRegion (v : string) : M State unit :=
  modify (fun s =>
    {| projects := projects s; selectedProject := selectedProject s;
       selectedRegion := v; loading := loading s |}).

Definition setLoading (v : bool) : M State unit :=
  modify (fun s =>
    {| projects := projects s; selectedProject := selectedProject s;
       selectedRegion := selectedRegion s; loading := v |}).

(** The list shown when the projects request fails. *)
Definition fallback_projects : list AppContext.Project :=
  [ {| AppContext.id := "any_value";
       AppContext.name := "is any value";
       AppContext.display_name := "All Projects" |} ].

Section Component.
Variable API_BASE_URL : string.
Variable net : string -> reply (list AppContext.Project).

Local Open Scope handler_scope.

(** [region] is the [selectedRegion] of the render the function closes
    over. *)
Definition fetchProjects (region : string) : M State unit :=
  setLoading true ;;
  emit (HttpGet (API_BASE_URL ++ "/projects?region=" ++ region)) ;;
  match net (API_BASE_URL ++ "/projects?region=" ++ region) with
  | Resolved data => setProjects data
  | Rejected _ =>
      emit (ConsoleError "Error fetching projects:") ;;
      setProjects fallback_projects
  end ;;
  setLoading false.

Definition refreshProjects (s : State) : State * list effect :=
  exec (fetchProjects (selectedRegion s)) s.
End Component.

(** The object the provider publishes. *)
Definition value_of (s : State) : AppContext.ContextValue :=
  {| AppContext.projects := projects s;
     AppContext.selectedProject := selectedProject s;
     AppContext.selectedRegion := selectedRegion s;
     AppContext.regions := AppContext.regions_table;
     AppContext.loading := loading s |}.

End AppProvider.

(* ================================================================== *)
(** * components/shared/FilterControls.jsx *)
(* ================================================================== *)

Module FilterControls.

(** A [select]: the bound value, the options as (value, text) pairs and
    the disabled flag. *)
Record Select := {
  select_value : string;
  select_options : list (string * string);
  select_disabled : bool
}.

Record Controls := {
  region_select : Select;
  project_select : Select;
  time_range_select : option Select;
  refresh_disabled : bool;
  refresh_spinning : bool;
  refresh_label : string;
  filter_status : option string
}.

(** [regions.find(r => r.value === selectedRegion)] *)
Definition find_region (regions : list AppContext.Region) (selectedRegion : string)
  : option AppContext.Region :=
  find (fun r => String.eqb (AppContext.value r) selectedRegion) regions.

Local Open Scope string_scope.

(** [{x?.label}] of a missing entry renders nothing. *)
Definition label_text (r : option AppContext.Region) : string :=
  match r with
  | Some region => AppContext.label region
  | None => ""
  end.

(** The props are [loading], [showTimeRange], [timeRange] and
    [timeRangeOptions]; the rest comes from the context. *)
Definition render (ctx : AppContext.ContextValue)
           (loading showTimeRange : bool) (timeRange : string)
           (timeRangeOptions : list (string * string)) : Controls :=
  let projectsLoading := AppContext.loading ctx in
  {| region_select :=
       {| select_value := AppContext.selectedRegion ctx;
          select_options :=
            map (fun r => (AppContext.value r, AppContext.label r))
                (AppContext.regions ctx);
          select_disabled := projectsLoading |};
     project_select :=
       {| select_value := AppContext.selectedProject ctx;
          select_options :=
            map (fun p => (AppContext.id p, AppContext.name p))
                (AppContext.projects ctx);
          select_disabled := projectsLoading |};
     time_range_select :=
       if showTimeRange
       then Some {| select_value := timeRange;
                    select_options := timeRangeOptions;
                    select_disabled := false |}
       else None;
     refresh_disabled := loading || projectsLoading;
     refresh_spinning := loading;
     refresh_label := if loading then "Loading..." else "Refresh";
     filter_status :=
       if projectsLoading
       then Some ("Loading projects for "
                    ++ label_text (find_region (AppContext.regions ctx)
                                               (AppContext.selectedRegion ctx))
                    ++ "...")
       else None |}.

End FilterControls.

(* ================================================================== *)
(** * App.jsx and components/Layout.jsx: routes and navigation *)
(* ================================================================== *)

Module Navigation.

Local Open Scope string_scope.

(** The [Route] elements of [App]: path and component. *)
Definition routes : list (string * string) :=
  [ ("/", "OrganizationOverview");
    ("/pulse", "PulseView");
    ("/time-window", "TimeWindowInvestigation");
    ("/expensive-queries", "ExpensiveQueries") ].

Record NavItem := {
  path : string;
  nav_label : string;
  icon : string
}.

Definition navItems : list NavItem :=
  [ {| path := "/"; nav_label := "Organization Overview"; icon := "BarChart3" |};
    {| path := "/pulse"; nav_label := "Pulse"; icon := "Zap" |};
    {| path := "/time-window"; nav_label := "Time Window Investigation";
       icon := "Clock" |};
    {| path := "/expensive-queries"; nav_label := "Expensive Queries";
       icon := "AlertTriangle" |} ].

(** [location.pathname === path] *)
Definition is_active (pathname : string) (item : NavItem) : bool :=
  String.eqb pathname (path item).

Record NavLink := {
  link_to : string;
  link_class : string;
  link_text : string
}.

Definition render_nav (pathname : string) : list NavLink :=
  map (fun item =>
         {| link_to := path item;
            link_class :=
              "nav-item " ++ (if is_active pathname item then "active" else "");
            link_text := nav_label item |})
      navItems.

End Navigation.

(* ================================================================== *)
(** * components/ExpensiveQueries.jsx: details pane, modal, sessions *)
(* ================================================================== *)

Module ExpensiveQueriesView.
Import Handler ExpensiveQueries.

Local Open Scope string_scope.

(** [!selectedJobId]: no job, or a job whose id is the empty string. *)
Definition no_job (selected : option string) : bool :=
  match selected with
  | None | Some EmptyString => true
  | Some _ => false
  end.

Inductive details_section :=
| Placeholder
| DetailsLoader
| QueryAnalysis (sql ddl_text : Js.jsstring)
                (button_disabled : bool) (button_label : string)
| ErrorPlaceholder.

(** [queryDetails.ddl || "No schema information available."] *)
Definition ddl_text_of (d : QueryDetails) : Js.jsstring :=
  match Js.or (qd_ddl d) (Some (Js.lit "No schema information available.")) with
  | Some t => t
  | None => []
  end.

(** The right-hand pane. *)
Definition render_details_section (s : State) : details_section :=
  if no_job (selectedJobId s) then Placeholder
  else if loadingDetails s then DetailsLoader
  else match queryDetails s with
       | Some d =>
           QueryAnalysis
             (qd_query d) (ddl_text_of d)
             (loadingRecommendations s || negb (Js.truthy (qd_ddl d)))
             (if loadingRecommendations s
              then "Analyzing..." else "Get AI Recommendations")
       | None => ErrorPlaceholder
       end.

(** The recommendations button can be pressed. *)
Definition button_enabled (s : State) : bool :=
  match render_details_section s with
  | QueryAnalysis _ _ disabled _ => negb disabled
  | _ => false
  end.

Inductive modal_body :=
| ModalLoader
| Markdown (text : Js.jsstring).

(** [{isModalOpen && <AIRecommendationsModal ... />}] *)
Definition render_modal (s : State) : option modal_body :=
  if isModalOpen s
  then Some (if loadingRecommendations s then ModalLoader
             else Markdown (recommendations s))
  else None.

(** What the user can do in the view. *)
Inductive event :=
| Refresh
| SelectQuery (jobId : string)
| GetRecommendations
| CloseModal.

Section Session.
Variable API_BASE : string.
Variable net : backend.
Variables selectedProject selectedRegion : string.

Definition step (e : event) (s : State) : State * list effect :=
  match e with
  | Refresh => mount_or_refresh API_BASE net selectedProject selectedRegion s
  | SelectQuery jobId => click_query API_BASE net jobId s
  | GetRecommendations => click_optimize API_BASE net s
  | CloseModal => exec handleCloseModal s
  end.

(** What is on display agrees with the back end: no loading flag is
    left set, held details are the reply for the selected job, and a
    non-empty recommendation text is the reply for the held details. *)
Definition consistent (s : State) : Prop :=
  loadingQueries s = false
  /\ loadingDetails s = false
  /\ loadingRecommendations s = false
  /\ (forall d, queryDetails s = Some d ->
        exists j, selectedJobId s = Some j
                  /\ post_query_details net (API_BASE ++ "/query-details") j
                     = Resolved d)
  /\ (recommendations s <> [] ->
        exists d, queryDetails s = Some d
                  /\ post_optimize net (API_BASE ++ "/optimize")
                                   (qd_query d) (qd_ddl d)
                     = Resolved (recommendations s)).

(** ** Handlers that overlap

    An async handler runs up to its [await], leaves its request
    outstanding, and runs its remaining statements when the reply
    arrives; in between the view takes further events.  [pending] is
    what a suspended handler still holds: the reply it waits for (the
    statements after the [await] read nothing else). *)
Inductive pending :=
| AwaitQueries (response : reply queries_payload)
| AwaitDetails (response : reply QueryDetails)
| AwaitRecommendations (response : reply Js.jsstring).

Local Open Scope handler_scope.

(** The statements of each handler up to its [await], run in the
    render [s] the event arrives in; a handler that returns before any
    request leaves nothing outstanding. *)
Definition start (e : event) (s : State) : M State (option pending) :=
  match e with
  | Refresh =>
      setLoadingQueries true ;;
      setDebugInfo "" ;;
      response <- axios_get_expensive_queries
                    API_BASE net selectedProject selectedRegion ;;
      ret (Some (AwaitQueries response))
  | SelectQuery jobId =>
      if same_job (selectedJobId s) jobId then
        setSelectedJobId None ;;
        setQueryDetails None ;;
        setRecommendations [] ;;
        ret None
      else
        setSelectedJobId (Some jobId) ;;
        setRecommendations [] ;;
        setLoadingDetails true ;;
        response <- axios_post_query_details API_BASE net jobId ;;
        ret (Some (AwaitDetails response))
  | GetRecommendations =>
      match queryDetails s with
      | None => ret None
      | Some details =>
          setIsModalOpen true ;;
          setLoadingRecommendations true ;;
          response <- axios_post_optimize API_BASE net
                        (qd_query details) (qd_ddl details) ;;
          ret (Some (AwaitRecommendations response))
      end
  | CloseModal => handleCloseModal ;; ret None
  end.

(** The statements after the [await]: the [try] body's remainder or
    the [catch] block, then the [finally] block. *)
Definition resume (p : pending) : M State unit :=
  match p with
  | AwaitQueries response =>
      match response with
      | Resolved data =>
          match data with
          | PayloadObject (Some (String c d)) _ => setDebugInfo (String c d)
          | _ => ret tt
          end ;;
          setExpensiveQueries
            match data with
            | PayloadObject _ qs => qs
            | PayloadArray qs => qs
            end ;;
          setSelectedJobId None ;;
          setQueryDetails None ;;
          setRecommendations []
      | Rejected error =>
          emit (ConsoleError "Error fetching queries:") ;;
          setDebugInfo (error_text error) ;;
          setExpensiveQueries []
      end ;;
      setLoadingQueries false
  | AwaitDetails response =>
      match response with
      | Resolved data => setQueryDetails (Some data)
      | Rejected _ =>
          emit (ConsoleError "Error fetching query details:") ;;
          emit (Alert "Error fetching query details. Check the backend logs.") ;;
          setQueryDetails None
      end ;;
      setLoadingDetails false
  | AwaitRecommendations response =>
      match response with
      | Resolved text => setRecommendations text
      | Rejected _ =>
          emit (ConsoleError "Error getting recommendations:") ;;
          emit (Alert "Error getting recommendations. Check the backend logs and your Gemini API key.")
      end ;;
      setLoadingRecommendations false
  end.

(** The view together with the handlers suspended at their [await],
    oldest first. *)
Record Session := {
  view : State;
  outstanding : list pending
}.

Definition idle (s : State) : Session := {| view := s; outstanding := [] |}.

(** What happens next: the user does something, or the [n]-th
    outstanding request is answered (in any order). *)
Inductive action :=
| User (e : event)
| Answer (n : nat).

Fixpoint without_nth {A} (n : nat) (l : list A) : list A :=
  match n, l with
  | _, [] => []
  | O, _ :: rest => rest
  | S m, x :: rest => x :: without_nth m rest
  end.

Definition act (a : action) (w : Session) : Session * list effect :=
  match a with
  | User e =>
      let '(p, (s', log)) := start e (view w) (view w, []) in
      ({| view := s';
          outstanding :=
            (outstanding w ++ match p with Some r => [r] | None => [] end)%list |},
       log)
  | Answer n =>
      match nth_error (outstanding w) n with
      | Some p =>
          let '(s', log) := exec (resume p) (view w) in
          ({| view := s'; outstanding := without_nth n (outstanding w) |}, log)
      | None => (w, [])
      end
  end.

Fixpoint play (actions : list action) (w : Session) : Session * list effect :=
  match actions with
  | [] => (w, [])
  | a :: rest =>
      let '(w1, log1) := act a w in
      let '(w2, log2) := play rest w1 in
      (w2, (log1 ++ log2)%list)
  end.

(** Every user event of the sequence arrives when no request is
    outstanding: each reply comes in before the next event. *)
Fixpoint answered_before_events (actions : list action) (w : Session) : bool :=
  match actions with
  | [] => true
  | a :: rest =>
      match a, outstanding w with
      | User _, _ :: _ => false
      | _, _ => answered_before_events rest (fst (act a w))
      end
  end.

(** Nothing is outstanding and the display agrees with the back end,
    or one handler is suspended and the display agrees once it has
    been resumed. *)
Definition on_course (w : Session) : Prop :=
  match outstanding w with
  | [] => consistent (view w)
  | [q] => consistent (fst (exec (resume q) (view w)))
  | _ => False
  end.
End Session.

Definition is_details_request (e : effect) : bool :=
  match e with
  | HttpPostJobId _ _ => true
  | _ => false
  end.

(** A query of the list, told apart by its job id only. *)
Definition query_of_job (jobId : string) : Query :=
  {| job_id := jobId;
     total_slot_ms := Js.of_Z 1000;
     user_email := "ada@example.com";
     creation_time := "2025-01-01T00:00:00Z";
     project_id := "analytics-1";
     duration_seconds := None;
     query_preview := None;
     query := None |}.

(** The details reply of a back end that answers each job with the
    job's own id as the query text. *)
Definition details_of_job (jobId : string) : QueryDetails :=
  {| qd_query := Js.lit jobId;
     qd_ddl := None |}.

Definition echo_backend : backend :=
  {| get_expensive_queries := fun _ =>
       Resolved (PayloadArray [ query_of_job "job-1"; query_of_job "job-2" ]);
     post_query_details := fun _ jobId => Resolved (details_of_job jobId);
     post_optimize := fun _ q _ => Resolved q |}.

End ExpensiveQueriesView.

(* ================================================================== *)
(** * components/OrganizationOverview.jsx: the project cards *)
(* ================================================================== *)

Module OverviewCards.
Import OrganizationOverview.

Local Open Scope string_scope.

Record ProjectCard := {
  card_link : string;
  card_name : string;
  card_description : string;
  card_status : string;
  card_queries : Js.number;
  card_slot_hours : Js.number;
  card_tb : Js.number;
  card_errors : option Js.number;
  card_users : list string
}.

(** One [Link]; the error metric is there when [project.errorCount > 0]
    and the user tags are [project.topUsers.slice(0, 2)]. *)
Definition project_card (project : FormattedProject) : ProjectCard :=
  {| card_link := "/project/" ++ id project;
     card_name := name project;
     card_description := description project;
     card_status := status project;
     card_queries := queriesLast24h project;
     card_slot_hours := slotHoursLast24h project;
     card_tb := tbProcessed project;
     card_errors :=
       if Js.gt (errorCount project) (Js.of_Z 0)
       then Some (errorCount project) else None;
     card_users := firstn 2 (topUsers project) |}.

(** While loading the view is the loader. *)
Definition render_projects (s : State) : option (list ProjectCard) :=
  if loading s then None else Some (map project_card (projects s)).

(** Zero of either sign, a positive number or +infinity. *)
Definition nonnegative (x : Js.number) : bool :=
  match x with
  | S754_zero _ | S754_finite false _ _ | S754_infinity false => true
  | _ => false
  end.

End OverviewCards.

(* ================================================================== *)
(** * PulseView.jsx and TimeWindowInvestigation.jsx: what is rendered *)
(* ================================================================== *)

Module Dashboards.

(** A render either produces markup or throws the TypeError of
    destructuring [null]. *)
Inductive rendered (A : Type) :=
| Markup (a : A)
| TypeError.
Arguments Markup {A} a.
Arguments TypeError {A}.

(** [PulseView]: the loader while loading, else
    [const { ... } = pulseData] and the markup. *)
Definition pulse_view (s : PulseView.State) : rendered Dom.node :=
  if PulseView.loading s then Markup (Dom.Element "loader" [])
  else match PulseView.pulseData s with
       | Some d => Markup (PulseView.render_data d)
       | None => TypeError
       end.

(** [fetchPulseData] with the reply body as it arrives:
    [setPulseData(response.data)] stores the body unchecked, and the
    body of an answered request is either data of the shape the view
    destructures or JSON [null] ([None]). *)
Definition fetchPulseData
           (API_BASE : string)
           (net : string -> Handler.reply (option PulseView.PulseData))
           (selectedProject selectedRegion : string)
  : Handler.M PulseView.State unit :=
  let url := (API_BASE ++ "/pulse-data?project=" ++ selectedProject
                ++ "&region=" ++ selectedRegion)%string in
  (PulseView.setLoading true ;;
   Handler.emit (Handler.HttpGet url) ;;
   match net url with
   | Handler.Resolved body => PulseView.setPulseData body
   | Handler.Rejected _ =>
       Handler.emit (Handler.ConsoleError "Error fetching pulse data:") ;;
       PulseView.setPulseData (Some PulseView.mock_data)
   end ;;
   PulseView.setLoading false)%handler.

(** A reply whose body has the data's shape. *)
Definition shaped {A : Type} (r : Handler.reply A) : Handler.reply (option A) :=
  match r with
  | Handler.Resolved data => Handler.Resolved (Some data)
  | Handler.Rejected error => Handler.Rejected error
  end.

(** [fetchDashboardData], likewise with the body stored unchecked;
    [range] is the [timeRange] of the render the handler closes
    over. *)
Definition fetchDashboardData
           (API_BASE : string)
           (net : string -> Handler.reply
                              (option TimeWindowInvestigation.DashboardData))
           (selectedProject selectedRegion : string) (range : string)
  : Handler.M TimeWindowInvestigation.State unit :=
  let url := (API_BASE ++ "/operational-dashboard?timeRange=" ++ range
                ++ "&project=" ++ selectedProject
                ++ "&region=" ++ selectedRegion)%string in
  (TimeWindowInvestigation.setLoading true ;;
   Handler.emit (Handler.HttpGet url) ;;
   match net url with
   | Handler.Resolved body => TimeWindowInvestigation.setDashboardData body
   | Handler.Rejected _ =>
       Handler.emit (Handler.ConsoleError "Error fetching dashboard data:") ;;
       TimeWindowInvestigation.setDashboardData
         (Some TimeWindowInvestigation.fallback_data)
   end ;;
   TimeWindowInvestigation.setLoading false)%handler.

Import TimeWindowInvestigation.

Local Open Scope string_scope.

Record UserLine := {
  line_email : string;
  line_queries : Js.number;
  line_slot_hours : Js.number;
  line_gb : Js.number
}.

Record TimeWindowView := {
  time_indicator : string;
  jobs_chart : list SlotPoint;
  query_jobs : Js.number;
  query_avg_duration : Js.number;
  bytes_value : Js.number;
  bytes_caption : string;
  active_users : Js.number;
  avg_duration : Js.number;
  error_count : Js.number;
  error_percentage : Js.number;
  duration_chart : list DurationBucket;
  users_table : option (list UserLine);
  error_chart : option (list ErrorSlice)
}.

Definition user_line (u : UserRow) : UserLine :=
  {| line_email := user_email u;
     line_queries := query_count u;
     line_slot_hours := Js.round2 (slot_hours u);
     line_gb := Js.round2 (gb_processed u) |}.

(** The markup for loaded data: the users table and the error chart are
    there only for a non-empty list, and the table shows
    [topUsers.slice(0, 5)]. *)
Definition render_dashboard (range : string) (d : DashboardData) : TimeWindowView :=
  let k := kpis d in
  {| time_indicator :=
       "Data for the last "
         ++ (if String.eqb range "1h" then "complete day" else range);
     jobs_chart := slotUsageChart d;
     query_jobs := value (totalJobs k);
     query_avg_duration := value (avgJobDuration k);
     bytes_value := value (bytesProcessed k);
     bytes_caption := measure_unit (bytesProcessed k) ++ " Processed";
     active_users := value (activeUsers k);
     avg_duration := value (avgJobDuration k);
     error_count := count (errors k);
     error_percentage := percentage (errors k);
     duration_chart := jobDurationChart d;
     users_table :=
       match topUsers d with
       | [] => None
       | users => Some (map user_line (firstn 5 users))
       end;
     error_chart :=
       match errorBreakdown d with
       | [] => None
       | slices => Some slices
       end |}.

Definition time_window_view (s : State) : rendered (option TimeWindowView) :=
  if loading s then Markup None
  else match dashboardData s with
       | Some d => Markup (Some (render_dashboard (timeRange s) d))
       | None => TypeError
       end.

End Dashboards.

(* ================================================================== *)
(** * Application context *)
(* ================================================================== *)

Section AppContextFacts.
Import AppContext.

Lemma useContext_skips_elements (inner above : list ancestor) :
  forallb (fun a => negb (is_provider a)) inner = true ->
  useContext (inner ++ above) = useContext above.
Proof.
  induction inner as [| a inner IH]; intros H; [reflexivity |].
  simpl in H. apply andb_true_iff in H as [Ha Hin].
  destruct a as [v | tag]; [discriminate Ha |].
  simpl. now apply IH.
Qed.

(** C10: outside every AppProvider [useAppContext] throws the message
    'useAppContext must be used within an AppProvider'; below a
    provider it returns the value of the nearest one. *)
Theorem useAppContext_throws_outside_returns_inside
        (inner above : list ancestor) (v : ContextValue) :
  forallb (fun a => negb (is_provider a)) inner = true ->
  useAppContext inner
    = Throws "useAppContext must be used within an AppProvider"
  /\ useAppContext (inner ++ AppProviderNode v :: above) = Returns v.
Proof.
  intros Hfree. unfold useAppContext. split.
  - rewrite <- (app_nil_r inner).
    now rewrite (useContext_skips_elements inner [] Hfree).
  - now rewrite (useContext_skips_elements inner _ Hfree).
Qed.

Lemma useAppContext_throws_outside_returns_inside_witness :
  useAppContext [ElementNode "Route"; ElementNode "Routes"]
    = Throws "useAppContext must be used within an AppProvider"
  /\ useAppContext (App_view_ancestors initial_value) = Returns initial_value.
Proof.
  destruct (useAppContext_throws_outside_returns_inside
              [ElementNode "Route"; ElementNode "Routes"]
              [ElementNode "Layout"; ElementNode "Router"]
              initial_value eq_refl) as [Hout _].
  destruct (useAppContext_throws_outside_returns_inside
              [ElementNode "Route"; ElementNode "Routes";
               ElementNode "Layout"; ElementNode "Router"]
              [] initial_value eq_refl) as [_ Hin].
  split; [exact Hout | exact Hin].
Defined.

End AppContextFacts.

(* ================================================================== *)
(** * Expensive queries: selection and recommendation handlers *)
(* ================================================================== *)

Section ExpensiveQueriesFacts.
Import Handler ExpensiveQueries Spec.

Local Open Scope string_scope.

(** Unfold a handler down to the state record and the log it
    produces. *)
Ltac run_handler :=
  cbv beta iota zeta delta
    [exec bind ret emit modify fst snd app
     axios_get_expensive_queries axios_post_query_details axios_post_optimize
     setExpensiveQueries setSelectedJobId setQueryDetails setRecommendations
     setDebugInfo setIsModalOpen setLoadingQueries setLoadingDetails
     setLoadingRecommendations
     expensiveQueries selectedJobId queryDetails recommendations debugInfo
     isModalOpen loadingQueries loadingDetails loadingRecommendations].

Lemma same_job_refl (j : string) : same_job (Some j) j = true.
Proof. simpl. apply String.eqb_refl. Qed.

(** C9: selecting the job that is already selected clears the selected
    id, the query details and the recommendation text, leaves the
    other cells alone and sends nothing. *)
Theorem handleQuerySelect_selected_job_deselects
        (API_BASE : string) (net : backend) (s : State) (jobId : string) :
  selectedJobId s = Some jobId ->
  let '(s', log) := click_query API_BASE net jobId s in
  selectedJobId s' = None
  /\ queryDetails s' = None
  /\ recommendations s' = []
  /\ log = []
  /\ expensiveQueries s' = expensiveQueries s
  /\ debugInfo s' = debugInfo s
  /\ isModalOpen s' = isModalOpen s
  /\ loadingQueries s' = loadingQueries s
  /\ loadingDetails s' = loadingDetails s
  /\ loadingRecommendations s' = loadingRecommendations s.
Proof.
  intros Hsel. destruct s; simpl in Hsel; subst.
  unfold click_query, handleQuerySelect. cbn [selectedJobId].
  rewrite same_job_refl. run_handler. repeat split; reflexivity.
Qed.

Lemma handleQuerySelect_selected_job_deselects_witness :
  selectedJobId Examples.holding = Some "job-1"
  /\ let '(s', log) :=
       click_query Examples.api Examples.offline "job-1" Examples.holding in
     selectedJobId s' = None /\ queryDetails s' = None
     /\ recommendations s' = [] /\ log = [].
Proof.
  split; [reflexivity |].
  pose proof (handleQuerySelect_selected_job_deselects
                Examples.api Examples.offline Examples.holding "job-1"
                eq_refl) as H.
  destruct (click_query Examples.api Examples.offline "job-1" Examples.holding)
    as [s' log].
  destruct H as (H1 & H2 & H3 & H4 & _).
  repeat split; assumption.
Defined.

(** Selecting another job does send a query-details request. *)
Lemma handleQuerySelect_other_job_fetches
      (API_BASE : string) (net : backend) (s : State) (jobId : string) :
  same_job (selectedJobId s) jobId = false ->
  snd (click_query API_BASE net jobId s)
  = HttpPostJobId (API_BASE ++ "/query-details") jobId
      :: match post_query_details net (API_BASE ++ "/query-details") jobId with
         | Resolved _ => []
         | Rejected _ =>
             [ ConsoleError "Error fetching query details:";
               Alert "Error fetching query details. Check the backend logs." ]
         end.
Proof.
  intros Hother. unfold click_query, handleQuerySelect. rewrite Hother.
  destruct s. run_handler.
  destruct (post_query_details net _ jobId); reflexivity.
Qed.

(** What one run of the recommendation handler does when details are
    held, for either outcome of the call. *)
Lemma click_optimize_held
      (API_BASE : string) (net : backend) (s : State) (d : QueryDetails) :
  queryDetails s = Some d ->
  click_optimize API_BASE net s
  = match post_optimize net (API_BASE ++ "/optimize") (qd_query d) (qd_ddl d) with
    | Resolved text =>
        ({| expensiveQueries := expensiveQueries s;
            selectedJobId := selectedJobId s;
            queryDetails := queryDetails s;
            recommendations := text;
            debugInfo := debugInfo s;
            isModalOpen := true;
            loadingQueries := loadingQueries s;
            loadingDetails := loadingDetails s;
            loadingRecommendations := false |},
         [ HttpPostOptimize (API_BASE ++ "/optimize") (qd_query d) (qd_ddl d) ])
    | Rejected _ =>
        ({| expensiveQueries := expensiveQueries s;
            selectedJobId := selectedJobId s;
            queryDetails := queryDetails s;
            recommendations := recommendations s;
            debugInfo := debugInfo s;
            isModalOpen := true;
            loadingQueries := loadingQueries s;
            loadingDetails := loadingDetails s;
            loadingRecommendations := false |},
         [ HttpPostOptimize (API_BASE ++ "/optimize") (qd_query d) (qd_ddl d);
           ConsoleError "Error getting recommendations:";
           Alert "Error getting recommendations. Check the backend logs and your Gemini API key." ])
    end.
Proof.
  intros Hheld. destruct s; simpl in Hheld; subst.
  unfold click_optimize, getOptimizationRecommendations. run_handler.
  destruct (post_optimize net _ (qd_query d) (qd_ddl d)); reflexivity.
Qed.

(** C3, as the handler has it: a failed recommendation call keeps the
    held query and schema text and every other cell except the modal
    flag, which it sets, and the loading flag, which it clears; the
    recommendation text is not touched.  A retry from the resulting
    state sends the optimize request with the same query and schema
    and no other request, and a reply to it becomes the
    recommendation text. *)
Theorem failed_recommendation_keeps_query_details
        (API_BASE : string) (net : backend) (s : State)
        (d : QueryDetails) (error : http_error) :
  queryDetails s = Some d ->
  post_optimize net (API_BASE ++ "/optimize") (qd_query d) (qd_ddl d)
    = Rejected error ->
  let '(s', log) := click_optimize API_BASE net s in
  queryDetails s' = Some d
  /\ only_modal_and_loading_change s s'
  /\ isModalOpen s' = true
  /\ loadingRecommendations s' = false
  /\ filter is_refetch log = []
  /\ forall net' : backend,
       let '(s'', log') := click_optimize API_BASE net' s' in
       filter is_request log'
         = [ HttpPostOptimize (API_BASE ++ "/optimize") (qd_query d) (qd_ddl d) ]
       /\ queryDetails s'' = Some d
       /\ forall text,
            post_optimize net' (API_BASE ++ "/optimize") (qd_query d) (qd_ddl d)
              = Resolved text ->
            recommendations s'' = text.
Proof.
  intros Hheld Hfail.
  rewrite (click_optimize_held API_BASE net s d Hheld), Hfail.
  repeat split; try reflexivity; try assumption.
  - intros net'.
    rewrite (click_optimize_held API_BASE net' _ d) by exact Hheld.
    destruct (post_optimize net' _ (qd_query d) (qd_ddl d)) as [text | e];
      cbn [filter is_request]; repeat split; try assumption.
    + intros text' H. now injection H.
    + intros text' H. discriminate H.
Qed.

Lemma failed_recommendation_keeps_query_details_witness :
  let '(s', _) := click_optimize Examples.api Examples.offline Examples.holding in
  queryDetails s' = Some Examples.details
  /\ let '(s'', _) := click_optimize Examples.api Examples.advising s' in
     recommendations s'' = Js.lit "Partition the table.".
Proof.
  pose proof (failed_recommendation_keeps_query_details
                Examples.api Examples.offline Examples.holding Examples.details
                {| response_message := None; message := "Network Error" |}
                eq_refl eq_refl) as H.
  destruct (click_optimize Examples.api Examples.offline Examples.holding)
    as [s' log].
  destruct H as (Hkept & _ & _ & _ & _ & Hretry).
  split; [exact Hkept |].
  specialize (Hretry Examples.advising).
  destruct (click_optimize Examples.api Examples.advising s') as [s'' log'].
  destruct Hretry as (_ & _ & Htext).
  apply Htext. reflexivity.
Defined.

(** C3 as worded fails on the modal flag: the view holds details with
    the modal closed, the call fails, and the modal flag, which is
    neither the recommendation text nor the loading flag, has changed. *)
Lemma failed_recommendation_opens_modal :
  let s := Examples.holding in
  let s' := fst (click_optimize Examples.api Examples.offline s) in
  queryDetails s = Some Examples.details
  /\ post_optimize Examples.offline (Examples.api ++ "/optimize")
       (qd_query Examples.details) (qd_ddl Examples.details)
     = Examples.network_error _
  /\ isModalOpen s = false
  /\ isModalOpen s' = true
  /\ ~ only_recommendation_and_loading_change s s'.
Proof.
  cbv zeta. repeat split.
  intros (_ & _ & _ & _ & Hmodal & _). discriminate Hmodal.
Qed.

End ExpensiveQueriesFacts.

(* ================================================================== *)
(** * Expensive queries: the preview text *)
(* ================================================================== *)

Section PreviewFacts.
Import ExpensiveQueries.

Lemma low_is_not_high (u : Js.code_unit) :
  Js.is_low_surrogate u = true -> Js.is_high_surrogate u = false.
Proof.
  unfold Js.is_low_surrogate, Js.is_high_surrogate. intros H.
  apply andb_true_iff in H as [Hlo _]. apply N.leb_le in Hlo.
  apply andb_false_iff. right. apply N.leb_gt. lia.
Qed.

Lemma substring_from_start (s : Js.jsstring) (k : nat) :
  Js.substring s 0 k = firstn k s.
Proof. unfold Js.substring. simpl. now rewrite Nat.sub_0_r. Qed.

(** Cutting a well-formed text leaves a well-formed prefix exactly when
    the cut does not fall inside a surrogate pair. *)
Lemma well_formed_firstn (n : nat) :
  forall (s : Js.jsstring) (k : nat),
    List.length s <= n ->
    Js.well_formed s = true ->
    Js.well_formed (firstn k s) = negb (Js.splits_pair s k).
Proof.
  induction n as [| n IH]; intros s k Hlen Hwf.
  - destruct s; [| simpl in Hlen; lia]. now destruct k as [| [| k]].
  - destruct s as [| u rest]; [now destruct k as [| [| k]] |].
    destruct k as [| k]; [reflexivity |].
    simpl in Hlen. simpl in Hwf.
    destruct (Js.is_high_surrogate u) eqn:Hu.
    + destruct rest as [| l rest']; [discriminate Hwf |].
      apply andb_true_iff in Hwf as [Hl Hwf'].
      destruct k as [| k].
      * simpl. rewrite Hu, Hl. reflexivity.
      * change (firstn (S (S k)) (u :: l :: rest'))
          with (u :: l :: firstn k rest').
        simpl Js.well_formed. rewrite Hu, Hl. simpl andb.
        rewrite (IH rest' k) by (simpl in Hlen; lia || assumption).
        destruct k as [| k].
        -- simpl. now rewrite (low_is_not_high l Hl), andb_false_r.
        -- reflexivity.
    + destruct (Js.is_low_surrogate u) eqn:Hu'; [discriminate Hwf |].
      change (firstn (S k) (u :: rest)) with (u :: firstn k rest).
      simpl Js.well_formed. rewrite Hu, Hu'.
      rewrite (IH rest k) by (lia || assumption).
      destruct k as [| k].
      * simpl. now rewrite Hu, andb_false_r.
      * reflexivity.
Qed.

(** C2, as the view has it: for a query that carries no preview of its
    own and has a non-empty text, the preview is the first K UTF-16
    code units of the text (K being 150 in the view), a prefix of it of
    length min(K, length); on a well-formed text the preview is well
    formed exactly when the cut does not separate a surrogate pair; a
    500-unit text with K = 150 gives 150 units. *)
Theorem preview_is_code_unit_prefix
        (K : nat) (q : Query) (text : Js.jsstring) :
  Js.truthy (query_preview q) = false ->
  query q = Some text ->
  text <> [] ->
  0 < K ->
  let p := preview_text K q in
  p = firstn K text
  /\ (exists rest, text = p ++ rest)
  /\ List.length p = Nat.min K (List.length text)
  /\ (Js.well_formed text = true ->
      Js.well_formed p = negb (Js.splits_pair text K))
  /\ Config.MAX_QUERY_PREVIEW_LENGTH = 150
  /\ (K = 150 -> List.length text = 500 -> List.length p = 150).
Proof.
  intros Hnone Htext Hne HK p.
  assert (Hp : p = firstn K text).
  { unfold p, preview_text, Js.or at 2. rewrite Hnone, Htext.
    unfold Js.opt_substring, option_map. rewrite substring_from_start.
    unfold Js.or. destruct text as [| u rest]; [contradiction |].
    destruct K as [| K]; [lia |]. reflexivity. }
  rewrite Hp. repeat split.
  - exists (skipn K text). symmetry. apply firstn_skipn.
  - apply length_firstn.
  - intros Hwf. now apply (well_formed_firstn (List.length text)).
  - intros -> H500. rewrite length_firstn, H500. reflexivity.
Qed.

Lemma preview_is_code_unit_prefix_witness :
  let q := Examples.query_with_text Examples.plain_text in
  let p := preview_text 150 q in
  p = firstn 150 Examples.plain_text
  /\ List.length p = 150
  /\ Js.well_formed p = true.
Proof.
  cbv zeta.
  destruct (preview_is_code_unit_prefix
              150 (Examples.query_with_text Examples.plain_text)
              Examples.plain_text eq_refl eq_refl)
    as (Hp & _ & _ & Hwf & _ & Hlen).
  - discriminate.
  - lia.
  - split; [exact Hp |]. split; [apply Hlen; reflexivity |].
    rewrite Hwf; reflexivity.
Defined.

(** A preview the query carries itself is shown as it is. *)
Lemma preview_prefers_query_preview
      (K : nat) (q : Query) (u : Js.code_unit) (rest : Js.jsstring) :
  query_preview q = Some (u :: rest) ->
  preview_text K q = u :: rest.
Proof. intros H. unfold preview_text. now rewrite H. Qed.

(** Without a preview and without text the placeholder is shown. *)
Lemma preview_placeholder (K : nat) (q : Query) :
  Js.truthy (query_preview q) = false ->
  Js.truthy (query q) = false ->
  preview_text K q = Js.lit "No preview available".
Proof.
  intros Hp Hq. unfold preview_text, Js.or at 2. rewrite Hp.
  destruct (query q) as [[| u rest] |]; try discriminate Hq; [| reflexivity].
  unfold Js.opt_substring, option_map.
  now rewrite substring_from_start, firstn_nil.
Qed.

(** C2 as worded fails on the character boundary: a well-formed
    500-unit text whose units 149 and 150 are the two halves of one
    character gets a 150-unit preview that ends in the lone high
    surrogate. *)
Lemma preview_cuts_surrogate_pair :
  let text := Examples.split_text in
  let p := preview_text Config.MAX_QUERY_PREVIEW_LENGTH
                        (Examples.query_with_text text) in
  List.length text = 500
  /\ Js.well_formed text = true
  /\ p = firstn 150 text
  /\ List.length p = 150
  /\ Js.is_high_surrogate (nth 149 p 0%N) = true
  /\ Js.splits_pair text 150 = true
  /\ Js.well_formed p = false.
Proof. cbv zeta. repeat split; vm_compute; reflexivity. Qed.

End PreviewFacts.

(* ================================================================== *)
(** * Ranking: [topByCost] and the rank labels of the view *)
(* ================================================================== *)

Section RankingFacts.
Import Backend Spec.

Lemma costlier_ranks_before (a b : ExecutionRecord) :
  costlier a b = true <-> ranks_before a b.
Proof.
  unfold costlier, ranks_before.
  rewrite orb_true_iff, andb_true_iff, Z.ltb_lt, Z.eqb_eq, Z.leb_le.
  tauto.
Qed.

Lemma ranks_before_total (a b : ExecutionRecord) :
  costlier a b = false -> ranks_before b a.
Proof.
  unfold costlier, ranks_before. intros H.
  apply orb_false_iff in H as [H1 H2]. apply Z.ltb_ge in H1.
  apply andb_false_iff in H2 as [H2 | H2].
  - apply Z.eqb_neq in H2. left. lia.
  - apply Z.leb_gt in H2.
    destruct (Z.eq_dec (slot_ms a) (slot_ms b)); [right | left]; lia.
Qed.

Lemma ranks_before_trans (a b c : ExecutionRecord) :
  ranks_before a b -> ranks_before b c -> ranks_before a c.
Proof. unfold ranks_before. lia. Qed.

Lemma insert_perm (r : ExecutionRecord) (l : list ExecutionRecord) :
  Permutation (r :: l) (insert r l).
Proof.
  induction l as [| x l IH]; simpl; [apply Permutation_refl |].
  destruct (costlier r x); [apply Permutation_refl |].
  eapply perm_trans; [apply perm_swap |]. now apply perm_skip.
Qed.

Lemma sort_by_cost_perm (l : list ExecutionRecord) :
  Permutation l (sort_by_cost l).
Proof.
  induction l as [| r l IH]; simpl; [apply perm_nil |].
  eapply perm_trans; [apply perm_skip, IH | apply insert_perm].
Qed.

Lemma insert_sorted (r : ExecutionRecord) (l : list ExecutionRecord) :
  StronglySorted ranks_before l -> StronglySorted ranks_before (insert r l).
Proof.
  induction 1 as [| x l Hsorted IH Hx]; simpl.
  - repeat constructor.
  - destruct (costlier r x) eqn:Hc.
    + apply costlier_ranks_before in Hc.
      constructor; [now constructor |].
      constructor; [exact Hc |].
      eapply Forall_impl; [| exact Hx].
      intros y Hy. now apply ranks_before_trans with x.
    + constructor; [exact IH |].
      apply (Permutation_Forall (insert_perm r l)).
      constructor; [now apply ranks_before_total | exact Hx].
Qed.

Lemma sort_by_cost_sorted (l : list ExecutionRecord) :
  StronglySorted ranks_before (sort_by_cost l).
Proof.
  induction l as [| r l IH]; simpl; [constructor | now apply insert_sorted].
Qed.

(** In a sorted list every element of a prefix stands before every
    element of the rest. *)
Lemma sorted_split (l1 l2 : list ExecutionRecord) :
  StronglySorted ranks_before (l1 ++ l2) ->
  StronglySorted ranks_before l1
  /\ Forall (fun r => Forall (fun o => ranks_before o r) l1) l2.
Proof.
  induction l1 as [| a l1 IH]; simpl; intros H.
  - split; [constructor |]. apply Forall_forall. intros; constructor.
  - inversion H as [| ? ? Hs Ha]; subst.
    destruct (IH Hs) as [Hs1 Hall]. apply Forall_app in Ha as [Ha1 Ha2].
    split; [now constructor |].
    rewrite Forall_forall in *. intros r Hr.
    constructor; [now apply Ha2 | now apply Hall].
Qed.

Lemma annotate_record (p : nat) (l : list ExecutionRecord) :
  map record (annotate p l) = l.
Proof.
  revert p. induction l as [| r l IH]; intros p; simpl; [| rewrite IH];
    reflexivity.
Qed.

Lemma annotate_rank (p : nat) (l : list ExecutionRecord) :
  map rank (annotate p l) = seq p (List.length l).
Proof.
  revert p. induction l as [| r l IH]; intros p; simpl; [| rewrite IH];
    reflexivity.
Qed.

Lemma annotate_length (p : nat) (l : list ExecutionRecord) :
  List.length (annotate p l) = List.length l.
Proof. now rewrite <- (length_map record), annotate_record. Qed.

(** The view labels the items 1, 2, 3, ... in array order and keeps
    that order. *)
Lemma render_items_ranks (sel : option string) (i : nat)
      (qs : list ExpensiveQueries.Query) :
  map ExpensiveQueries.rank_number (ExpensiveQueries.render_items sel i qs)
  = seq (i + 1) (List.length qs)
  /\ map ExpensiveQueries.key (ExpensiveQueries.render_items sel i qs)
     = map ExpensiveQueries.job_id qs.
Proof.
  revert i. induction qs as [| q qs IH]; intros i; simpl; [now split |].
  destruct (IH (S i)) as [IH1 IH2]. rewrite IH1, IH2. now split.
Qed.

(** C1: on a valid window [topByCost] returns the matching records in
    descending slot-millisecond order, the earlier submission first
    among equals; the entry at position i carries rank i (from 1), and
    the view labels it so; there are min(n, matching) entries, all of
    them matching records that stand before every record left out.  An
    invalid window is the only failure. *)
Theorem topByCost_sorted_ranked_bounded
        (sc : Scope) (w : TimeWindow) (n : nat) (wh : Warehouse) :
  match topByCost sc w n wh with
  | Ok out =>
      StronglySorted ranks_before (map record out)
      /\ map rank out = seq 1 (List.length out)
      /\ List.length out = Nat.min n (List.length (matching sc w wh))
      /\ (exists rest,
             Permutation (map record out ++ rest) (matching sc w wh)
             /\ Forall (fun r => Forall (fun o => ranks_before o r)
                                        (map record out)) rest)
      /\ (forall sel (encode : RankedQuery -> ExpensiveQueries.Query),
             map ExpensiveQueries.rank_number
                 (ExpensiveQueries.render_items sel 0 (map encode out))
             = map rank out)
  | Err f => f = InvalidScope /\ (w_end w <= w_start w)%Z
  end.
Proof.
  unfold topByCost, runAggregateQuery.
  destruct (w_end w <=? w_start w)%Z eqn:Hw.
  - split; [reflexivity | now apply Z.leb_le].
  - set (records := matching sc w wh).
    pose proof (sort_by_cost_sorted records) as Hsorted.
    rewrite <- (firstn_skipn n (sort_by_cost records)) in Hsorted.
    apply sorted_split in Hsorted as [Hfirst Hrest].
    rewrite annotate_record, annotate_rank, annotate_length.
    repeat split.
    + exact Hfirst.
    + rewrite length_firstn.
      now rewrite <- (Permutation_length (sort_by_cost_perm records)).
    + exists (skipn n (sort_by_cost records)). split; [| exact Hrest].
      rewrite firstn_skipn. apply Permutation_sym, sort_by_cost_perm.
    + intros sel encode.
      destruct (render_items_ranks sel 0 (map encode
                  (annotate 1 (firstn n (sort_by_cost records))))) as [Hr _].
      now rewrite Hr, length_map, annotate_length.
Qed.

(** Ten entries asked of three records: all three come back, the
    costliest first, and of the two with equal cost the one submitted
    earlier. *)
Example topByCost_ten_of_three :
  match topByCost Examples.everything_us Examples.today 10 Examples.three_jobs with
  | Ok out =>
      map (fun q => (identifier (record q), rank q)) out
      = [ ("b", 1); ("c", 2); ("a", 3) ]%string
  | Err _ => False
  end.
Proof. reflexivity. Qed.

Example topByCost_two_of_three :
  match topByCost Examples.everything_us Examples.today 2 Examples.three_jobs with
  | Ok out =>
      map (fun q => (identifier (record q), rank q)) out
      = [ ("b", 1); ("c", 2) ]%string
  | Err _ => False
  end.
Proof. reflexivity. Qed.

End RankingFacts.

(* ================================================================== *)
(** * Aggregation: totals, rates, purity *)
(* ================================================================== *)

Section AggregationFacts.
Import Backend.

Lemma totals_from (records : list ExecutionRecord) (acc : Totals) :
  let t := fold_left accumulate records acc in
  t_jobs t = (t_jobs acc + Z.of_nat (List.length records))%Z
  /\ t_slot_ms t = (t_slot_ms acc + sum_of slot_ms records)%Z
  /\ t_bytes t = (t_bytes acc + sum_of bytes records)%Z
  /\ (t_errors acc <= t_errors t)%Z.
Proof.
  revert acc. induction records as [| r records IH]; intros acc.
  - simpl. lia.
  - cbn [fold_left List.length sum_of].
    destruct (IH (accumulate acc r)) as (Hj & Hs & Hb & He).
    cbv zeta. rewrite Hj, Hs, Hb. cbn [accumulate t_jobs t_slot_ms t_bytes t_errors] in *.
    destruct (is_failed r); lia.
Qed.

Lemma rate_total (numerator denominator : Z) :
  (0 <= denominator)%Z ->
  exists q, rate numerator denominator = Some q
            /\ (denominator = 0%Z -> q = 0%Q).
Proof.
  intros Hd. unfold rate. destruct (Z.eqb_spec denominator 0) as [-> | Hnz].
  - now exists 0%Q.
  - destruct denominator as [| p | p]; try lia.
    exists (Qmake numerator p). split; [reflexivity | intros H; discriminate H].
Qed.

(** The aggregator returns a KPI set for every record collection; its
    totals are the sums of the per-record fields and its rates are zero
    when there is no job. *)
Lemma aggregate_total (records : list ExecutionRecord) (w : TimeWindow) :
  exists k,
    aggregate records w = Some k
    /\ totalJobs k = Z.of_nat (List.length records)
    /\ totalSlotMs k = sum_of slot_ms records
    /\ totalBytes k = sum_of bytes records
    /\ (totalJobs k = 0%Z -> errorRate k = 0%Q /\ cacheHitRate k = 0%Q).
Proof.
  destruct (totals_from records no_totals) as (Hj & Hs & Hb & _).
  fold (totals records) in Hj, Hs, Hb. simpl in Hj, Hs, Hb.
  unfold aggregate.
  destruct (rate_total (t_errors (totals records)) (t_jobs (totals records)))
    as (er & Her & Her0); [lia |].
  destruct (rate_total (t_cache_hits (totals records)) (t_jobs (totals records)))
    as (cr & Hcr & Hcr0); [lia |].
  rewrite Her, Hcr. eexists. split; [reflexivity |]. simpl.
  repeat split; auto.
Qed.

(** C5: [aggregate] returns a KPI set for every record collection, the
    empty one included, and every rate field is zero when the total job
    count is zero; no KPI request, whatever its scope, window and
    warehouse, ends in a division fault; the dashboard's own fallback
    pairs zero jobs with a zero error percentage as well. *)
Theorem aggregate_rates_zero_without_jobs
        (records : list ExecutionRecord) (w : TimeWindow) :
  exists k,
    aggregate records w = Some k
    /\ totalJobs k = Z.of_nat (List.length records)
    /\ (totalJobs k = 0%Z -> errorRate k = 0%Q /\ cacheHitRate k = 0%Q)
    /\ (records = [] -> errorRate k = 0%Q /\ cacheHitRate k = 0%Q)
    /\ (forall sc w' wh, fst (kpi_request sc w' wh) <> DivisionFault)
    /\ TimeWindowInvestigation.value
         (TimeWindowInvestigation.totalJobs
            (TimeWindowInvestigation.kpis TimeWindowInvestigation.fallback_data))
       = Js.of_Z 0
    /\ TimeWindowInvestigation.percentage
         (TimeWindowInvestigation.errors
            (TimeWindowInvestigation.kpis TimeWindowInvestigation.fallback_data))
       = Js.of_Z 0.
Proof.
  destruct (aggregate_total records w) as (k & Hk & Hj & _ & _ & H0).
  exists k. split; [exact Hk |]. split; [exact Hj |]. split; [exact H0 |].
  split; [| split; [| split; reflexivity]].
  - intros Hempty. apply H0. rewrite Hj, Hempty. reflexivity.
  - intros sc w' wh. unfold kpi_request.
    destruct (runAggregateQuery sc w' wh) as [rs | f]; [| discriminate].
    destruct (aggregate_total rs w') as (k' & Hk' & _).
    rewrite Hk'. discriminate.
Qed.

Lemma aggregate_rates_zero_without_jobs_witness :
  exists k,
    aggregate [] Examples.today = Some k
    /\ errorRate k = 0%Q /\ cacheHitRate k = 0%Q.
Proof.
  destruct (aggregate_rates_zero_without_jobs [] Examples.today)
    as (k & Hk & _ & _ & Hempty & _).
  exists k. split; [exact Hk |]. apply Hempty. reflexivity.
Defined.

Lemma kpi_request_valid (sc : Scope) (w : TimeWindow) (wh : Warehouse) :
  (w_start w < w_end w)%Z ->
  kpi_request sc w wh
  = (match aggregate (matching sc w wh) w with
     | Some k => Kpis k
     | None => DivisionFault
     end, wh).
Proof.
  intros Hw. unfold kpi_request, runAggregateQuery.
  destruct (Z.leb_spec (w_end w) (w_start w)); [lia |].
  now destruct (aggregate (matching sc w wh) w).
Qed.

(** C7: on a valid window the KPI set's slot-millisecond and byte
    totals are the sums of those fields over the records in scope and
    window; the request hands the warehouse back unchanged, a second
    request gives the same KPI set, and so does any warehouse with the
    same job history in the region of the scope. *)
Theorem kpi_totals_are_sums_and_pure
        (sc : Scope) (w : TimeWindow) (wh : Warehouse) :
  (w_start w < w_end w)%Z ->
  exists k,
    fst (kpi_request sc w wh) = Kpis k
    /\ aggregate (matching sc w wh) w = Some k
    /\ totalSlotMs k = sum_of slot_ms (matching sc w wh)
    /\ totalBytes k = sum_of bytes (matching sc w wh)
    /\ snd (kpi_request sc w wh) = wh
    /\ fst (kpi_request sc w (snd (kpi_request sc w wh))) = Kpis k
    /\ forall wh' : Warehouse,
         wh' (scope_region sc) = wh (scope_region sc) ->
         fst (kpi_request sc w wh') = Kpis k.
Proof.
  intros Hw.
  destruct (aggregate_total (matching sc w wh) w) as (k & Hk & _ & Hs & Hb & _).
  exists k. rewrite (kpi_request_valid sc w wh Hw), Hk. cbn [fst snd].
  repeat split; try assumption.
  - now rewrite (kpi_request_valid sc w wh Hw), Hk.
  - intros wh' Hsame. rewrite (kpi_request_valid sc w wh' Hw).
    unfold matching. rewrite Hsame. fold (matching sc w wh). now rewrite Hk.
Qed.

Lemma kpi_totals_are_sums_and_pure_witness :
  exists k,
    fst (kpi_request Examples.everything_us Examples.today Examples.three_jobs)
      = Kpis k
    /\ totalSlotMs k = 1900%Z
    /\ totalBytes k = 30%Z.
Proof.
  destruct (kpi_totals_are_sums_and_pure
              Examples.everything_us Examples.today Examples.three_jobs)
    as (k & Hk & _ & Hs & Hb & _); [simpl; lia |].
  exists k. split; [exact Hk |]. split; [exact Hs | exact Hb].
Defined.

End AggregationFacts.

(* ================================================================== *)
(** * Organization overview without records *)
(* ================================================================== *)

Section OverviewFacts.
Import Handler Backend.

Local Open Scope string_scope.

Ltac run_overview :=
  cbv beta iota zeta delta
    [exec bind ret emit modify fst snd app
     OrganizationOverview.mount_or_refresh
     OrganizationOverview.fetchOrganizationData
     OrganizationOverview.axios_get_overview
     OrganizationOverview.setProjects OrganizationOverview.setOrgStats
     OrganizationOverview.setLoading
     OrganizationOverview.projects OrganizationOverview.orgStats
     OrganizationOverview.loading].

Lemma overview_of_nothing (sc : Scope) (w : TimeWindow) (wh : Warehouse) :
  (w_start w < w_end w)%Z ->
  matching sc w wh = [] ->
  organization_overview sc w wh
  = Ok {| ov_projects := []; ov_totals := no_totals; ov_users := 0 |}.
Proof.
  intros Hw Hnone. unfold organization_overview, runAggregateQuery.
  destruct (Z.leb_spec (w_end w) (w_start w)); [lia |].
  now rewrite Hnone.
Qed.

(** C6: with no execution record in scope and window the
    organization-overview request succeeds with no project row and
    zero totals, and the view ends with an empty project list,
    totalQueries = 0 and totalErrors = 0, its error branch not taken. *)
Theorem overview_without_records_is_empty
        (API_BASE selectedRegion : string)
        (slot_hours_of terabytes_of : Z -> Js.number)
        (sc : Scope) (w : TimeWindow) (wh : Warehouse)
        (s : OrganizationOverview.State) :
  (w_start w < w_end w)%Z ->
  matching sc w wh = [] ->
  (exists o,
      organization_overview sc w wh = Ok o
      /\ ov_projects o = []
      /\ t_jobs (ov_totals o) = 0%Z
      /\ t_errors (ov_totals o) = 0%Z)
  /\ let '(s', log) :=
       OrganizationOverview.mount_or_refresh
         API_BASE (serve_overview slot_hours_of terabytes_of sc w wh)
         selectedRegion s in
     OrganizationOverview.projects s' = []
     /\ OrganizationOverview.totalQueries (OrganizationOverview.orgStats s')
        = Js.of_Z 0
     /\ OrganizationOverview.totalErrors (OrganizationOverview.orgStats s')
        = Js.of_Z 0
     /\ OrganizationOverview.loading s' = false
     /\ log = [ HttpGet (API_BASE ++ "/organization-overview?region="
                           ++ selectedRegion) ].
Proof.
  intros Hw Hnone. pose proof (overview_of_nothing sc w wh Hw Hnone) as Ho.
  split.
  - eexists. split; [exact Ho |]. repeat split.
  - destruct s. unfold serve_overview. rewrite Ho. run_overview.
    repeat split.
Qed.

Lemma overview_without_records_is_empty_witness :
  let '(s', _) :=
    OrganizationOverview.mount_or_refresh
      Examples.api
      (serve_overview (fun _ => Js.of_Z 0) (fun _ => Js.of_Z 0)
                      Examples.analytics_us Examples.quiet_day
                      Examples.three_jobs)
      "us" OrganizationOverview.initial in
  OrganizationOverview.projects s' = []
  /\ OrganizationOverview.totalQueries (OrganizationOverview.orgStats s')
     = Js.of_Z 0
  /\ OrganizationOverview.totalErrors (OrganizationOverview.orgStats s')
     = Js.of_Z 0.
Proof.
  pose proof (overview_without_records_is_empty
                Examples.api "us" (fun _ => Js.of_Z 0) (fun _ => Js.of_Z 0)
                Examples.analytics_us Examples.quiet_day Examples.three_jobs
                OrganizationOverview.initial) as H.
  destruct H as [_ H]; [simpl; lia | reflexivity |].
  destruct (OrganizationOverview.mount_or_refresh _ _ _ _) as [s' log].
  destruct H as (Hp & Hq & He & _). repeat split; assumption.
Defined.

(** The view shows the same empty overview when the request is
    rejected. *)
Lemma overview_rejected_is_empty
      (API_BASE selectedRegion : string)
      (net : string -> reply OrganizationOverview.OverviewData)
      (error : http_error) (s : OrganizationOverview.State) :
  net (API_BASE ++ "/organization-overview?region=" ++ selectedRegion)
    = Rejected error ->
  fst (OrganizationOverview.mount_or_refresh API_BASE net selectedRegion s)
  = {| OrganizationOverview.projects := [];
       OrganizationOverview.orgStats := OrganizationOverview.empty_stats;
       OrganizationOverview.loading := false |}.
Proof.
  intros Hrej. destruct s. run_overview. now rewrite Hrej.
Qed.

End OverviewFacts.

(* ================================================================== *)
(** * Week-over-week change and the pulse view *)
(* ================================================================== *)

Section PulseFacts.
Import Backend.

Local Open Scope string_scope.

(** On the model of 4.2 the change is the undefined change whenever
    the equally-sized window just before has total 0: neither a fault
    nor a percentage. *)
Lemma weekOverWeek_undefined_without_prior
      (field : ExecutionRecord -> Z) (sc : Scope) (w : TimeWindow)
      (wh : Warehouse) :
  window_total field sc (prior_window w) wh = 0%Z ->
  weekOverWeek field sc w wh = Some Undefined
  /\ w_end (prior_window w) = w_start w
  /\ (w_end (prior_window w) - w_start (prior_window w)
      = w_end w - w_start w)%Z.
Proof.
  intros Hprior. unfold weekOverWeek, change. rewrite Hprior.
  split; [reflexivity |]. split; [reflexivity | simpl; lia].
Qed.

Lemma opt_num_inj (x y : option Js.number) :
  Dom.opt_num x = Dom.opt_num y -> x = y.
Proof.
  destruct x as [a |], y as [b |]; cbn; intros H;
    try discriminate H; [injection H as -> |]; reflexivity.
Qed.

(** The bottom row of the pulse view is bound to the data: two data
    sets give the same row only when their four bottom-row KPIs and
    their three reservation figures agree. *)
Lemma bottom_row_reads_kpis (d d' : PulseView.PulseData) :
  PulseView.bottom_row d = PulseView.bottom_row d' ->
  PulseView.avgJobDurationWTD (PulseView.kpis d)
  = PulseView.avgJobDurationWTD (PulseView.kpis d')
  /\ PulseView.jobsDelayedWTD (PulseView.kpis d)
     = PulseView.jobsDelayedWTD (PulseView.kpis d')
  /\ PulseView.queryCacheRateWTD (PulseView.kpis d)
     = PulseView.queryCacheRateWTD (PulseView.kpis d')
  /\ PulseView.spillsToDiskWTD (PulseView.kpis d)
     = PulseView.spillsToDiskWTD (PulseView.kpis d')
  /\ PulseView.totalSlotCapacity (PulseView.reservations d)
     = PulseView.totalSlotCapacity (PulseView.reservations d')
  /\ PulseView.totalSlots (PulseView.reservations d)
     = PulseView.totalSlots (PulseView.reservations d')
  /\ PulseView.totalIdleSlots (PulseView.reservations d)
     = PulseView.totalIdleSlots (PulseView.reservations d').
Proof.
  unfold PulseView.bottom_row, PulseView.kpi_card, PulseView.capacity_row.
  intros H. injection H as H1 H2 H3 H4 H5 H6 H7.
  repeat split; now apply opt_num_inj.
Qed.

(** C4: the presentation half fails on the code.  Whatever the two
    week-over-week fields of the pulse data hold, undefined or a
    number, the view renders the same markup, and that markup carries
    the numeric labels '7.7% PROCESSED WOW' and '33.5% WOW'; so the
    data of a week without prior traffic, whose change fields are
    undefined, is rendered exactly like the sample data, whose change
    fields are -7.7 and 33.5. *)
Theorem undefined_change_rendered_as_number
        (d : PulseView.PulseData) (bytesChange slotChange : option Js.number) :
  let shown :=
    PulseView.render_data (Examples.with_changes d bytesChange slotChange) in
  shown = PulseView.render_data d
  /\ In "7.7% PROCESSED WOW" (PulseView.texts shown)
  /\ In "33.5% WOW" (PulseView.texts shown)
  /\ PulseView.bytesProcessedChange (PulseView.kpis Examples.pulse_without_prior)
     = None
  /\ PulseView.slotMsChange (PulseView.kpis Examples.pulse_without_prior)
     = None
  /\ PulseView.bytesProcessedChange (PulseView.kpis PulseView.mock_data)
     = Some (Js.decimal (-77) 1)
  /\ PulseView.slotMsChange (PulseView.kpis PulseView.mock_data)
     = Some (Js.decimal 335 1)
  /\ PulseView.render_data Examples.pulse_without_prior
     = PulseView.render_data PulseView.mock_data.
Proof.
  cbv zeta.
  split; [reflexivity |]. split; [cbn; tauto |]. split; [cbn; tauto |].
  repeat split.
Qed.

End PulseFacts.

(* ================================================================== *)
(** * Binary64 arithmetic: rounding, exact integers, comparison *)
(* ================================================================== *)

Section Binary64Facts.
Import Spec.
Import Js.

Local Open Scope Z_scope.

Lemma digits_bounds (m : positive) :
  2 ^ (digits m - 1) <= Z.pos m < 2 ^ digits m.
Proof.
  unfold digits. induction m as [m IH | m IH |]; cbn [digits2_pos].
  - rewrite Pos2Z.inj_succ, (Pos2Z.inj_xI m).
    replace (Z.succ (Z.pos (digits2_pos m)) - 1) with (Z.succ (Z.pos (digits2_pos m) - 1)) by lia.
    rewrite !Z.pow_succ_r by lia. lia.
  - rewrite Pos2Z.inj_succ, (Pos2Z.inj_xO m).
    replace (Z.succ (Z.pos (digits2_pos m)) - 1) with (Z.succ (Z.pos (digits2_pos m) - 1)) by lia.
    rewrite !Z.pow_succ_r by lia. lia.
  - simpl. lia.
Qed.

Lemma digits_unique (m : positive) (k : Z) :
  2 ^ (k - 1) <= Z.pos m < 2 ^ k -> digits m = k.
Proof.
  intros [Hlo Hhi]. pose proof (digits_bounds m) as [Dlo Dhi].
  assert (0 < digits m) by (unfold digits; lia).
  assert (0 < k).
  { destruct (Z_lt_le_dec 0 k); [assumption |].
    exfalso. destruct (Z.eq_dec k 0) as [-> | ]; [simpl in Hhi; lia |].
    rewrite Z.pow_neg_r in Hhi by lia. lia. }
  destruct (Z.lt_trichotomy (digits m) k) as [Hlt | [Heq | Hgt]]; [| exact Heq |].
  - assert (2 ^ digits m <= 2 ^ (k - 1)) by (apply Z.pow_le_mono_r; lia). lia.
  - assert (2 ^ k <= 2 ^ (digits m - 1)) by (apply Z.pow_le_mono_r; lia). lia.
Qed.

(** shr_1 on a non-negative mantissa *)
Lemma shr_1_nonneg (m : Z) (r s : bool) :
  0 <= m ->
  shr_1 {| shr_m := m; shr_r := r; shr_s := s |}
  = {| shr_m := m / 2; shr_r := Z.odd m; shr_s := r || s |}.
Proof.
  intros Hm. rewrite <- Z.div2_div.
  destruct m as [| [p | p |] | p]; try reflexivity; lia.
Qed.

Lemma iter_pos_nat {A} (f : A -> A) (p : positive) (x : A) :
  iter_pos f p x = Nat.iter (Pos.to_nat p) f x.
Proof.
  revert x. induction p as [p IH | p IH |]; intros x; cbn [iter_pos].
  - rewrite !IH, Pos2Nat.inj_xI.
    replace (S (2 * Pos.to_nat p))%nat
      with (Pos.to_nat p + (Pos.to_nat p + 1))%nat by lia.
    now rewrite Nat.iter_add, Nat.add_1_r, Nat.iter_succ_r.
  - rewrite !IH, Pos2Nat.inj_xO.
    replace (2 * Pos.to_nat p)%nat with (Pos.to_nat p + Pos.to_nat p)%nat by lia.
    now rewrite Nat.iter_add.
  - reflexivity.
Qed.

Lemma shifted_iter (m : Z) (n : nat) :
  0 <= m ->
  shifted m n (Nat.iter n shr_1 {| shr_m := m; shr_r := false; shr_s := false |}).
Proof.
  intros Hm. induction n as [| n IH].
  - exists 0. simpl. repeat split; try lia.
  - rewrite Nat.iter_succ. unfold shifted in *.
    destruct IH as (rem & (Hrem & Heq & Hq) & Hr & Hs).
    destruct (Nat.iter n shr_1 _) as [q r s]. cbn [shr_m shr_r shr_s] in *.
    rewrite shr_1_nonneg by exact Hq. cbn [shr_m shr_r shr_s].
    rewrite Nat2Z.inj_succ, Z.pow_succ_r by lia.
    set (P := 2 ^ Z.of_nat n) in *.
    assert (HP : 0 < P) by (apply Z.pow_pos_nonneg; lia).
    pose proof (Z.div_mod q 2 ltac:(lia)) as Hdm.
    pose proof (Z.mod_pos_bound q 2 ltac:(lia)) as Hb.
    rewrite Zmod_odd in Hdm, Hb.
    exists (rem + (if Z.odd q then 1 else 0) * P).
    assert (0 <= q / 2) by (apply Z.div_pos; lia).
    assert (Hsticky : r || s = negb (rem =? 0)).
    { destruct r; symmetry in Hr;
        [apply Z.leb_le in Hr | apply Z.leb_gt in Hr];
        (destruct s; symmetry in Hs;
         [apply negb_true_iff, Z.eqb_neq in Hs
         | apply negb_false_iff, Z.eqb_eq in Hs]);
        cbn [orb]; symmetry;
        (apply negb_true_iff, Z.eqb_neq || apply negb_false_iff, Z.eqb_eq);
        lia. }
    rewrite Hsticky.
    destruct (Z.odd q) eqn:Hodd.
    + split; [split; [nia | split; [nia | lia]] |]. split.
      * symmetry. apply Z.leb_le. nia.
      * f_equal. destruct (Z.eqb_spec rem 0); symmetry.
        -- apply Z.eqb_eq. nia.
        -- apply Z.eqb_neq. nia.
    + split; [split; [nia | split; [nia | lia]] |]. split.
      * symmetry. apply Z.leb_gt. nia.
      * f_equal. destruct (Z.eqb_spec rem 0); symmetry.
        -- apply Z.eqb_eq. nia.
        -- apply Z.eqb_neq. nia.
Qed.

Lemma round_after_shift (m : Z) (n : nat) (rec : shr_record) :
  shifted m n rec ->
  let R := round_nearest_even (shr_m rec) (loc_of_shr_record rec) in
  shr_m rec <= R <= shr_m rec + 1
  /\ shr_m rec * 2 ^ Z.of_nat n <= m
  /\ m < (shr_m rec + 1) * 2 ^ Z.of_nat n
  /\ 2 * R * 2 ^ Z.of_nat n <= 2 * m + 2 ^ Z.of_nat n.
Proof.
  intros (rem & (Hrem & Heq & Hq) & Hr & Hs).
  destruct rec as [q r s]. cbn [shr_m shr_r shr_s] in *.
  set (P := 2 ^ Z.of_nat n) in *.
  assert (HP : 0 < P) by (apply Z.pow_pos_nonneg; lia).
  destruct r; symmetry in Hr;
    [apply Z.leb_le in Hr | apply Z.leb_gt in Hr];
    (destruct s; symmetry in Hs;
     [apply negb_true_iff, Z.eqb_neq in Hs
     | apply negb_false_iff, Z.eqb_eq in Hs]);
    cbn [loc_of_shr_record round_nearest_even];
    try (destruct (Z.even q)); nia.
Qed.

Lemma fexp_normal (x : Z) :
  -1074 <= x - 53 -> fexp 53 1024 x = x - 53.
Proof. intros H. unfold fexp, emin. lia. Qed.

Lemma shr_fexp_pos (p : positive) (e : Z) :
  -1074 <= digits p + e - 53 ->
  shr_fexp 53 1024 (Z.pos p) e loc_Exact
  = if digits p <=? 53
    then ({| shr_m := Z.pos p; shr_r := false; shr_s := false |}, e)
    else (Nat.iter (Z.to_nat (digits p - 53)) shr_1
            {| shr_m := Z.pos p; shr_r := false; shr_s := false |},
          e + (digits p - 53)).
Proof.
  intros Hn. unfold shr_fexp. cbn [Zdigits2 shr_record_of_loc].
  fold (digits p). rewrite fexp_normal by lia.
  replace (digits p + e - 53 - e) with (digits p - 53) by lia.
  destruct (Z.leb_spec (digits p) 53) as [Hle | Hgt].
  - unfold shr. destruct (digits p - 53) eqn:Hd; try reflexivity. lia.
  - unfold shr. destruct (digits p - 53) as [| k | k] eqn:Hd; try lia.
    now rewrite iter_pos_nat, Z2Nat.inj_pos.
Qed.

(** A mantissa that fits 53 bits is kept as it is. *)
Lemma round_exact (p : positive) (e : Z) :
  digits p <= 53 ->
  -1074 <= digits p + e - 53 ->
  e <= 971 ->
  binary_round_aux 53 1024 false (Z.pos p) e loc_Exact = S754_finite false p e.
Proof.
  intros Hd Hn He. unfold binary_round_aux.
  rewrite shr_fexp_pos by exact Hn.
  destruct (Z.leb_spec (digits p) 53); [| lia].
  cbn [shr_m loc_of_shr_record round_nearest_even].
  rewrite shr_fexp_pos by exact Hn.
  destruct (Z.leb_spec (digits p) 53); [| lia].
  cbn [shr_m].
  destruct (Z.leb_spec e (1024 - 53)); [reflexivity | lia].
Qed.

(** A longer mantissa is rounded to 53 bits, to nearest. *)
Lemma round_inexact (p : positive) (e : Z) :
  let n := digits p - 53 in
  0 < n ->
  -1074 <= e + n ->
  e + n + 1 <= 971 ->
  exists (M : positive) (E : Z),
    binary_round_aux 53 1024 false (Z.pos p) e loc_Exact = S754_finite false M E
    /\ digits M = 53
    /\ e + n <= E <= e + n + 1
    /\ Z.pos p < (Z.pos M * 2 ^ (E - (e + n)) + 1) * 2 ^ n
    /\ 2 * (Z.pos M * 2 ^ (E - (e + n))) * 2 ^ n <= 2 * Z.pos p + 2 ^ n.
Proof.
  intros n Hn Hlo Hhi. unfold binary_round_aux.
  rewrite shr_fexp_pos by (fold n; lia).
  destruct (Z.leb_spec (digits p) 53) as [Hle | _]; [unfold n in Hn; lia |].
  fold n.
  pose proof (shifted_iter (Z.pos p) (Z.to_nat n) ltac:(lia)) as Hsh.
  apply round_after_shift in Hsh. cbv zeta in Hsh.
  rewrite Z2Nat.id in Hsh by lia.
  set (rec := Nat.iter (Z.to_nat n) shr_1 _) in *.
  set (R := round_nearest_even (shr_m rec) (loc_of_shr_record rec)) in *.
  destruct Hsh as (HR & Hqlo & Hqhi & Hnear).
  pose proof (digits_bounds p) as [Dlo Dhi].
  assert (HP : 0 < 2 ^ n) by (apply Z.pow_pos_nonneg; lia).
  replace (digits p - 1) with (52 + n) in Dlo by (unfold n; lia).
  replace (digits p) with (53 + n) in Dhi by (unfold n; lia).
  rewrite Z.pow_add_r in Dlo, Dhi by lia.
  assert (Hq : 2 ^ 52 <= shr_m rec < 2 ^ 53) by nia.
  assert (HRb : 2 ^ 52 <= R <= 2 ^ 53) by lia.
  destruct R as [| r | r] eqn:HRr; try lia.
  destruct (Z.eq_dec (Z.pos r) (2 ^ 53)) as [Htop | Hnot].
  - (* the rounded mantissa carried into a 54th bit *)
    assert (Hr : r = 9007199254740992%positive) by (simpl in Htop; lia).
    subst r. unfold shr_fexp. cbn [Zdigits2 shr_record_of_loc].
    change (Z.pos (digits2_pos 9007199254740992)) with 54.
    rewrite fexp_normal by lia.
    replace (54 + (e + n) - 53 - (e + n)) with 1 by lia.
    cbn [shr iter_pos shr_1 shr_m].
    destruct (Z.leb_spec (e + n + 1) (1024 - 53)); [| lia].
    exists 4503599627370496%positive, (e + n + 1).
    split; [reflexivity |]. split; [reflexivity |]. split; [lia |].
    replace (e + n + 1 - (e + n)) with 1 by lia.
    change (Z.pos 4503599627370496 * 2 ^ 1) with (Z.pos 9007199254740992).
    split; lia.
  - assert (Hdr : digits r = 53) by (apply digits_unique; simpl; lia).
    rewrite shr_fexp_pos by (rewrite Hdr; lia).
    rewrite Hdr. cbn [Z.leb Z.compare Pos.compare Pos.compare_cont shr_m].
    destruct (Z.leb_spec (e + n) (1024 - 53)); [| lia].
    exists r, (e + n).
    split; [reflexivity |]. split; [exact Hdr |]. split; [lia |].
    rewrite Z.sub_diag, Z.pow_0_r, Z.mul_1_r.
    split; nia.
Qed.

Lemma pos_iter_xO (p k : positive) :
  Z.pos (Pos.iter xO p k) = Z.pos p * 2 ^ Z.pos k.
Proof.
  induction k as [| k IH] using Pos.peano_ind.
  - simpl. lia.
  - rewrite Pos.iter_succ, Pos2Z.inj_xO, IH, Pos2Z.inj_succ, Z.pow_succ_r by lia.
    lia.
Qed.

(** An integer below 2^53 is represented exactly, with a 53-bit
    mantissa. *)
Lemma of_Z_exact (z : positive) :
  Z.pos z < 2 ^ 53 ->
  exists m : positive,
    of_Z (Z.pos z) = S754_finite false m (digits z - 53)
    /\ digits m = 53
    /\ Z.pos m = Z.pos z * 2 ^ (53 - digits z)
    /\ 0 < digits z <= 53.
Proof.
  intros Hz. pose proof (digits_bounds z) as [Dlo Dhi].
  assert (Hd0 : 0 < digits z) by (unfold digits; lia).
  assert (Hd : digits z <= 53).
  { destruct (Z_le_gt_dec (digits z) 53); [assumption |].
    assert (2 ^ 53 <= 2 ^ (digits z - 1)) by (apply Z.pow_le_mono_r; lia). lia. }
  unfold of_Z, binary_normalize, binary_round, prec, emax.
  fold (digits z). rewrite Z.add_0_r, fexp_normal by lia.
  unfold shl_align. rewrite Z.sub_0_r.
  destruct (digits z - 53) as [| k | k] eqn:Hk; try lia.
  - exists z. rewrite round_exact by lia.
    replace (53 - digits z) with 0 by lia. rewrite Z.pow_0_r.
    repeat split; lia.
  - pose proof (pos_iter_xO z k) as Hm.
    assert (Hk' : Z.pos k = 53 - digits z) by lia.
    rewrite Hk' in Hm.
    assert (Hdm : digits (Pos.iter xO z k) = 53).
    { apply digits_unique. rewrite Hm.
      assert (0 < 2 ^ (53 - digits z)) by (apply Z.pow_pos_nonneg; lia).
      replace (2 ^ (53 - 1)) with (2 ^ (digits z - 1) * 2 ^ (53 - digits z))
        by (rewrite <- Z.pow_add_r by lia; f_equal; lia).
      replace (2 ^ 53) with (2 ^ digits z * 2 ^ (53 - digits z))
        by (rewrite <- Z.pow_add_r by lia; f_equal; lia).
      nia. }
    exists (Pos.iter xO z k). rewrite round_exact by (rewrite ?Hdm; lia).
    repeat split; assumption || lia.
Qed.

(** Comparison of two positive numbers with full mantissas is the
    comparison of their values. *)
Lemma ltb_finite (m1 m2 : positive) (e1 e2 K : Z) :
  digits m1 = 53 -> digits m2 = 53 ->
  0 <= e1 + K -> 0 <= e2 + K ->
  SFltb (S754_finite false m1 e1) (S754_finite false m2 e2)
  = (Z.pos m1 * 2 ^ (e1 + K) <? Z.pos m2 * 2 ^ (e2 + K)).
Proof.
  intros H1 H2 K1 K2.
  pose proof (digits_bounds m1) as B1. pose proof (digits_bounds m2) as B2.
  rewrite H1 in B1. rewrite H2 in B2.
  change (2 ^ (53 - 1)) with 4503599627370496 in *.
  change (2 ^ 53) with 9007199254740992 in *.
  unfold SFltb, SFcompare.
  destruct (Z.compare_spec e1 e2) as [Heq | Hlt | Hgt].
  - subst e2. rewrite Pos.compare_cont_spec. cbn [Pos.switch_Eq].
    assert (0 < 2 ^ (e1 + K)) by (apply Z.pow_pos_nonneg; lia).
    destruct (Pos.compare_spec m1 m2) as [-> | Hm | Hm]; symmetry.
    + apply Z.ltb_ge. lia.
    + apply Z.ltb_lt. nia.
    + apply Z.ltb_ge. nia.
  - symmetry. apply Z.ltb_lt.
    replace (e2 + K) with (e1 + K + 1 + (e2 - e1 - 1)) by lia.
    rewrite (Z.pow_add_r 2 (e1 + K + 1)), (Z.pow_add_r 2 (e1 + K) 1) by lia.
    change (2 ^ 1) with 2.
    set (A := 2 ^ (e1 + K)). set (B := 2 ^ (e2 - e1 - 1)).
    assert (0 < A) by (apply Z.pow_pos_nonneg; lia).
    assert (0 < B) by (apply Z.pow_pos_nonneg; lia).
    assert (Z.pos m1 * A < Z.pos m2 * (A * 2)) by nia.
    assert (Z.pos m2 * (A * 2) * 1 <= Z.pos m2 * (A * 2) * B)
      by (apply Z.mul_le_mono_nonneg_l; nia).
    lia.
  - symmetry. apply Z.ltb_ge.
    replace (e1 + K) with (e2 + K + 1 + (e1 - e2 - 1)) by lia.
    rewrite (Z.pow_add_r 2 (e2 + K + 1)), (Z.pow_add_r 2 (e2 + K) 1) by lia.
    change (2 ^ 1) with 2.
    set (A := 2 ^ (e2 + K)). set (B := 2 ^ (e1 - e2 - 1)).
    assert (0 < A) by (apply Z.pow_pos_nonneg; lia).
    assert (0 < B) by (apply Z.pow_pos_nonneg; lia).
    assert (Z.pos m2 * A < Z.pos m1 * (A * 2)) by nia.
    assert (Z.pos m1 * (A * 2) * 1 <= Z.pos m1 * (A * 2) * B)
      by (apply Z.mul_le_mono_nonneg_l; nia).
    lia.
Qed.

Lemma five_percent_bits :
  OrganizationOverview.five_percent = S754_finite false 7205759403792794 (-57).
Proof. vm_compute. reflexivity. Qed.

(** The product of a positive count with 0.05, rounded. *)
Lemma mul_five_percent (t : positive) :
  Z.pos t < 2 ^ 53 ->
  let a := 53 - digits t in
  exists (M : positive) (E n : Z),
    mul (of_Z (Z.pos t)) OrganizationOverview.five_percent = S754_finite false M E
    /\ digits M = 53
    /\ 0 <= a <= 52
    /\ 52 <= n <= 53
    /\ - a - 57 + n <= E
    /\ 2 ^ 52 * 2 ^ n <= Z.pos t * 2 ^ a * 7205759403792794
    /\ Z.pos t * 2 ^ a * 7205759403792794
       < (Z.pos M * 2 ^ (E - (- a - 57 + n)) + 1) * 2 ^ n
    /\ 2 * (Z.pos M * 2 ^ (E - (- a - 57 + n))) * 2 ^ n
       <= 2 * (Z.pos t * 2 ^ a * 7205759403792794) + 2 ^ n.
Proof.
  intros Ht a.
  destruct (of_Z_exact t Ht) as (mt & Hof & Hdt & Hmt & Hd).
  rewrite Hof, five_percent_bits. unfold mul, SFmul, prec, emax.
  cbn [xorb].
  set (p := (mt * 7205759403792794)%positive).
  assert (Hp : Z.pos p = Z.pos t * 2 ^ a * 7205759403792794)
    by (unfold p, a; rewrite Pos2Z.inj_mul, Hmt; reflexivity).
  pose proof (digits_bounds mt) as Bt. rewrite Hdt in Bt.
  change (2 ^ (53 - 1)) with 4503599627370496 in Bt.
  change (2 ^ 53) with 9007199254740992 in Bt.
  assert (Hpb : 2 ^ 104 <= Z.pos p < 2 ^ 106).
  { unfold p. rewrite Pos2Z.inj_mul.
    change (2 ^ 104) with (4503599627370496 * 4503599627370496).
    change (2 ^ 106) with (9007199254740992 * 9007199254740992). nia. }
  pose proof (digits_bounds p) as [Dlo Dhi].
  assert (Hdp : 105 <= digits p <= 106).
  { split.
    - destruct (Z_lt_le_dec (digits p) 105); [| assumption].
      assert (2 ^ digits p <= 2 ^ 104) by (apply Z.pow_le_mono_r; lia). lia.
    - destruct (Z_lt_le_dec 106 (digits p)); [| assumption].
      assert (2 ^ 106 <= 2 ^ (digits p - 1)) by (apply Z.pow_le_mono_r; lia).
      lia. }
  destruct (round_inexact p (digits t - 53 + -57)) as (M & E & HM & HdM & HE & Hup & Hnear);
    try lia.
  exists M, E, (digits p - 53).
  replace (digits t - 53 + -57 + (digits p - 53))
    with (- a - 57 + (digits p - 53)) in * by (unfold a; lia).
  rewrite Hp in Hup, Hnear.
  split; [exact HM |]. split; [exact HdM |]. split; [unfold a; lia |].
  split; [lia |]. split; [lia |]. split; [| split; assumption].
  rewrite <- Hp, <- Z.pow_add_r by lia.
  replace (52 + (digits p - 53)) with (digits p - 1) by lia. exact Dlo.
Qed.

Lemma gt_five_percent_pos (t e : positive) :
  Z.pos t <= 2 ^ 52 ->
  Z.pos e < 2 ^ 53 ->
  gt (of_Z (Z.pos e)) (mul (of_Z (Z.pos t)) OrganizationOverview.five_percent)
  = (Z.pos t <? 20 * Z.pos e).
Proof.
  intros Ht He.
  change (2 ^ 52) with 4503599627370496 in Ht.
  change (2 ^ 53) with 9007199254740992 in He.
  destruct (mul_five_percent t) as (M & E & n & HM & HdM & Ha & Hn & HE & H1 & H2 & H3);
    [change (2 ^ 53) with 9007199254740992; lia |].
  destruct (of_Z_exact e) as (me & Hof & Hdme & Hme & Hde);
    [change (2 ^ 53) with 9007199254740992; lia |].
  unfold gt. rewrite HM, Hof.
  rewrite (ltb_finite M me E (digits e - 53) 200) by lia.
  set (a := 53 - digits t) in *.
  set (j := E - (- a - 57 + n)) in *.
(* both sides over the common factor X = 2^(143 - a) *)
set (X := 2 ^ (143 - a)). set (A := 2 ^ a) in *. set (N := 2 ^ n) in *.
set (R := Z.pos M * 2 ^ j) in *.
assert (HX : 0 < X) by (apply Z.pow_pos_nonneg; lia).
assert (HA : 0 < A) by (apply Z.pow_pos_nonneg; lia).
assert (HN : 0 < N) by (apply Z.pow_pos_nonneg; lia).
assert (Hleft : Z.pos M * 2 ^ (E + 200) = R * N * X).
{ unfold R, N, X. replace (E + 200) with (j + n + (143 - a)) by (unfold j; lia).
  rewrite !Z.pow_add_r by (unfold j; lia). ring. }
assert (Hright : Z.pos me * 2 ^ (digits e - 53 + 200)
                 = Z.pos e * 144115188075855872 * A * X).
{ rewrite Hme. unfold A, X.
  change 144115188075855872 with (2 ^ 57).
  rewrite <- !Z.mul_assoc, <- !Z.pow_add_r by lia.
  f_equal. f_equal. lia. }
rewrite Hleft, Hright.
set (C := 2 ^ (57 + a - n)).
assert (HC : N * C = 144115188075855872 * A).
{ unfold N, C, A. change 144115188075855872 with (2 ^ 57).
  rewrite <- !Z.pow_add_r by lia. f_equal. lia. }
set (TA := Z.pos t * A) in *.
set (EA := Z.pos e * A).
set (RN := R * N) in *.
change (2 ^ 52) with 4503599627370496 in H1.
destruct (Z.ltb_spec (Z.pos t) (20 * Z.pos e)) as [Hlt | Hge].
- apply Z.ltb_lt.
  assert (Hbase : 9007199254740993 * (Z.pos t * 7205759403792794)
                  < 9007199254740992 * (144115188075855872 * Z.pos e)) by lia.
  assert (Hscaled : 9007199254740993 * (TA * 7205759403792794)
                    < 9007199254740992 * (144115188075855872 * EA)).
  { unfold TA, EA.
    replace (9007199254740993 * (Z.pos t * A * 7205759403792794))
      with (9007199254740993 * (Z.pos t * 7205759403792794) * A) by ring.
    replace (9007199254740992 * (144115188075855872 * (Z.pos e * A)))
      with (9007199254740992 * (144115188075855872 * Z.pos e) * A) by ring.
    apply Z.mul_lt_mono_pos_r; assumption. }
  assert (HRN : RN < 144115188075855872 * EA).
  { replace (2 * R * N) with (2 * RN) in H3 by (unfold RN; ring). lia. }
  replace (Z.pos e * 144115188075855872 * A) with (144115188075855872 * EA)
    by (unfold EA; ring).
  apply Z.mul_lt_mono_pos_r; assumption.
- apply Z.ltb_ge.
  assert (Hbase : Z.pos e * 144115188075855872 <= Z.pos t * 7205759403792794)
    by lia.
  assert (Hscaled : Z.pos e * 144115188075855872 * A <= TA * 7205759403792794).
  { unfold TA.
    replace (Z.pos t * A * 7205759403792794)
      with (Z.pos t * 7205759403792794 * A) by ring.
    apply Z.mul_le_mono_nonneg_r; lia. }
  assert (HeC : Z.pos e * C <= R).
  { assert (Z.pos e * C * N < (R + 1) * N).
    { replace (Z.pos e * C * N) with (Z.pos e * (N * C)) by ring.
      rewrite HC.
      replace (Z.pos e * (144115188075855872 * A))
        with (Z.pos e * 144115188075855872 * A) by ring. lia. }
    assert (Z.pos e * C < R + 1) by (apply Z.mul_lt_mono_pos_r with N; assumption).
    lia. }
  apply Z.mul_le_mono_nonneg_r; [lia |].
  replace (Z.pos e * 144115188075855872 * A) with (Z.pos e * C * N).
  + unfold RN. apply Z.mul_le_mono_nonneg_r; lia.
  + replace (Z.pos e * C * N) with (Z.pos e * (N * C)) by ring.
    rewrite HC. ring.
Qed.

Lemma gt_five_percent (t e : Z) :
  0 <= t <= 2 ^ 52 ->
  0 <= e < 2 ^ 53 ->
  gt (of_Z e) (mul (of_Z t) OrganizationOverview.five_percent) = (t <? 20 * e).
Proof.
  intros Ht He.
  destruct t as [| t | t]; [| | lia]; (destruct e as [| e | e]; [| | lia]).
  - reflexivity.
  - rewrite five_percent_bits.
    destruct (of_Z_exact e) as (me & Hof & _); [lia |].
    unfold gt. rewrite Hof. reflexivity.
  - destruct (mul_five_percent t) as (M & E & n & HM & _).
    { change (2 ^ 52) with 4503599627370496 in Ht.
      change (2 ^ 53) with 9007199254740992. lia. }
    unfold gt. rewrite HM. reflexivity.
  - apply gt_five_percent_pos; lia.
Qed.

End Binary64Facts.

(* ================================================================== *)
(** * Organization overview: the health badge *)
(* ================================================================== *)

Section StatusFacts.
Import OrganizationOverview.

Local Open Scope Z_scope.
Local Open Scope string_scope.

(** C8, within the range where the product is exact enough: for a row
    whose counts are integers, the total at most 2^52 and the error
    count below 2^53, the badge is 'warning' exactly when the error
    count strictly exceeds 5% of the total query count and 'healthy'
    otherwise. *)
Theorem status_warning_iff_above_five_percent
        (project : ProjectRow) (queries errors : Z) :
  total_queries project = Js.of_Z queries ->
  error_count project = Js.of_Z errors ->
  0 <= queries <= 2 ^ 52 ->
  0 <= errors < 2 ^ 53 ->
  (status_of project = "warning" <-> 5 * queries < 100 * errors)
  /\ (status_of project = "healthy" <-> 100 * errors <= 5 * queries)
  /\ status (format_project project) = status_of project.
Proof.
  intros Hq He Hqr Her.
  assert (Hbadge : status (format_project project) = status_of project)
    by reflexivity.
  rewrite Hbadge. unfold status_of. rewrite Hq, He.
  rewrite (gt_five_percent queries errors Hqr Her).
  destruct (Z.ltb_spec queries (20 * errors)) as [Hlt | Hge].
  - split; [split; [lia | reflexivity] |].
    split; [split; [intros H; discriminate H | lia] | reflexivity].
  - split; [split; [intros H; discriminate H | lia] |].
    split; [split; [lia | reflexivity] | reflexivity].
Qed.

Lemma status_warning_iff_above_five_percent_witness :
  status_of (Examples.row 100 6) = "warning"
  /\ status_of (Examples.row 100 5) = "healthy".
Proof.
  destruct (status_warning_iff_above_five_percent
              (Examples.row 100 6) 100 6 eq_refl eq_refl)
    as ((_ & Hwarn) & _); [simpl; lia | simpl; lia |].
  destruct (status_warning_iff_above_five_percent
              (Examples.row 100 5) 100 5 eq_refl eq_refl)
    as (_ & (_ & Hok) & _); [simpl; lia | simpl; lia |].
  split; [apply Hwarn; lia | apply Hok; lia].
Defined.

(** C8 as worded fails on large counts: with 8799999999999999 queries
    and 440000000000000 errors the error count exceeds 5% of the total
    (439999999999999.95), yet the product rounds to 440000000000000
    and the badge is 'healthy'. *)
Lemma status_healthy_above_five_percent :
  let project := Examples.row 8799999999999999 440000000000000 in
  5 * 8799999999999999 < 100 * 440000000000000
  /\ 8799999999999999 < 2 ^ 53
  /\ Js.mul (total_queries project) five_percent = Js.of_Z 440000000000000
  /\ status_of project = "healthy".
Proof. cbv zeta. repeat split; vm_compute; reflexivity. Qed.

Example display_name_analytics :
  display_name "analytics-1" = "Analytics 1"
  /\ display_name "data_lake-eu" = "Data_lake Eu".
Proof. split; reflexivity. Qed.

(** The literal 0.05 and the two-decimal rounding, bit for bit. *)
Example five_percent_is_nearest_double :
  five_percent = S754_finite false 7205759403792794 (-57)
  /\ Js.round2 (Js.decimal 12345 3) = Js.decimal 1235 2
  /\ Js.round2 (Js.of_Z 0) = Js.of_Z 0.
Proof. repeat split; vm_compute; reflexivity. Qed.

End StatusFacts.

(* ================================================================== *)
(** * Expensive queries: refresh, sessions, the button, the list *)
(* ================================================================== *)

Section ExpensiveQueriesViewFacts.
Import Handler ExpensiveQueries ExpensiveQueriesView Spec.

Local Open Scope string_scope.

Ltac run_view :=
  cbv beta iota zeta delta
    [exec bind ret emit modify fst snd app
     mount_or_refresh click_query click_optimize
     fetchExpensiveQueries handleQuerySelect getOptimizationRecommendations
     handleCloseModal
     axios_get_expensive_queries axios_post_query_details axios_post_optimize
     setExpensiveQueries setSelectedJobId setQueryDetails setRecommendations
     setDebugInfo setIsModalOpen setLoadingQueries setLoadingDetails
     setLoadingRecommendations
     expensiveQueries selectedJobId queryDetails recommendations debugInfo
     isModalOpen loadingQueries loadingDetails loadingRecommendations].

(** What a refresh makes of the state, for either outcome. *)
Lemma refresh_result (API_BASE : string) (net : backend)
      (selectedProject selectedRegion : string) (s : State) :
  let url := API_BASE ++ "/expensive-queries?project=" ++ selectedProject
               ++ "&region=" ++ selectedRegion in
  mount_or_refresh API_BASE net selectedProject selectedRegion s
  = match get_expensive_queries net url with
    | Resolved data =>
        ({| expensiveQueries :=
              match data with
              | PayloadObject _ qs => qs
              | PayloadArray qs => qs
              end;
            selectedJobId := None;
            queryDetails := None;
            recommendations := [];
            debugInfo :=
              match data with
              | PayloadObject (Some (String c d)) _ => String c d
              | _ => ""
              end;
            isModalOpen := isModalOpen s;
            loadingQueries := false;
            loadingDetails := loadingDetails s;
            loadingRecommendations := loadingRecommendations s |},
         [ HttpGet url ])
    | Rejected error =>
        ({| expensiveQueries := [];
            selectedJobId := selectedJobId s;
            queryDetails := queryDetails s;
            recommendations := recommendations s;
            debugInfo := error_text error;
            isModalOpen := isModalOpen s;
            loadingQueries := false;
            loadingDetails := loadingDetails s;
            loadingRecommendations := loadingRecommendations s |},
         [ HttpGet url; ConsoleError "Error fetching queries:" ])
    end.
Proof.
  cbv zeta. destruct s. run_view.
  destruct (get_expensive_queries net _) as [[[[| c d] |] qs | qs] | error];
    reflexivity.
Qed.

(** What a click on a query makes of the state. *)
Lemma click_query_result (API_BASE : string) (net : backend)
      (jobId : string) (s : State) :
  click_query API_BASE net jobId s
  = if same_job (selectedJobId s) jobId then
      ({| expensiveQueries := expensiveQueries s;
          selectedJobId := None;
          queryDetails := None;
          recommendations := [];
          debugInfo := debugInfo s;
          isModalOpen := isModalOpen s;
          loadingQueries := loadingQueries s;
          loadingDetails := loadingDetails s;
          loadingRecommendations := loadingRecommendations s |}, [])
    else
      match post_query_details net (API_BASE ++ "/query-details") jobId with
      | Resolved data =>
          ({| expensiveQueries := expensiveQueries s;
              selectedJobId := Some jobId;
              queryDetails := Some data;
              recommendations := [];
              debugInfo := debugInfo s;
              isModalOpen := isModalOpen s;
              loadingQueries := loadingQueries s;
              loadingDetails := false;
              loadingRecommendations := loadingRecommendations s |},
           [ HttpPostJobId (API_BASE ++ "/query-details") jobId ])
      | Rejected _ =>
          ({| expensiveQueries := expensiveQueries s;
              selectedJobId := Some jobId;
              queryDetails := None;
              recommendations := [];
              debugInfo := debugInfo s;
              isModalOpen := isModalOpen s;
              loadingQueries := loadingQueries s;
              loadingDetails := false;
              loadingRecommendations := loadingRecommendations s |},
           [ HttpPostJobId (API_BASE ++ "/query-details") jobId;
             ConsoleError "Error fetching query details:";
             Alert "Error fetching query details. Check the backend logs." ])
      end.
Proof.
  destruct s. unfold click_query, handleQuerySelect. cbn [selectedJobId].
  destruct (same_job _ jobId).
  - run_view. reflexivity.
  - run_view. destruct (post_query_details net _ jobId); reflexivity.
Qed.

Lemma click_optimize_nothing_held (API_BASE : string) (net : backend) (s : State) :
  queryDetails s = None -> click_optimize API_BASE net s = (s, []).
Proof.
  intros Hnone. unfold click_optimize, getOptimizationRecommendations.
  rewrite Hnone. reflexivity.
Qed.

(** X1: a refresh sends one GET and ends with the list's loading flag
    cleared.  When the request is rejected the list is emptied and the
    error text shown, yet the selected job, its details and the
    recommendation text stay, so the details pane is unchanged beside an
    empty list; when it is answered the list is replaced, the debug note
    is the reply's or empty, and the selection, details and
    recommendations are cleared. *)
Theorem refresh_clears_selection_only_on_success
        (API_BASE : string) (net : backend)
        (selectedProject selectedRegion : string) (s : State) :
  let url := API_BASE ++ "/expensive-queries?project=" ++ selectedProject
               ++ "&region=" ++ selectedRegion in
  let '(s', log) := mount_or_refresh API_BASE net selectedProject selectedRegion s in
  loadingQueries s' = false
  /\ filter is_request log = [ HttpGet url ]
  /\ match get_expensive_queries net url with
     | Rejected error =>
         render_queries_list s' = EmptyState
         /\ debugInfo s' = "Error: " ++ Config.env_or (response_message error)
                                                      (message error)
         /\ selectedJobId s' = selectedJobId s
         /\ queryDetails s' = queryDetails s
         /\ recommendations s' = recommendations s
         /\ render_details_section s' = render_details_section s
         /\ render_modal s' = render_modal s
     | Resolved data =>
         (expensiveQueries s'
          = match data with PayloadObject _ qs => qs | PayloadArray qs => qs end)
         /\ (debugInfo s'
             = match data with
               | PayloadObject (Some (String c d)) _ => String c d
               | _ => ""
               end)
         /\ selectedJobId s' = None
         /\ queryDetails s' = None
         /\ recommendations s' = []
         /\ render_details_section s' = Placeholder
     end.
Proof.
  cbv zeta. rewrite refresh_result. cbv zeta.
  destruct (get_expensive_queries net _) as [data | error].
  - repeat split.
  - repeat split.
Qed.

(** Every handler keeps the display in agreement with the back end. *)
Lemma step_consistent (API_BASE : string) (net : backend)
      (selectedProject selectedRegion : string) (e : event) (s : State) :
  consistent API_BASE net s ->
  consistent API_BASE net
             (fst (step API_BASE net selectedProject selectedRegion e s)).
Proof.
  intros (Hq & Hd & Hr & Hdetails & Hrecs). unfold step.
  destruct e as [| jobId | |].
  - rewrite refresh_result. cbv zeta.
    destruct (get_expensive_queries net _) as [data | error]; cbn [fst];
      unfold consistent;
      cbn [loadingQueries loadingDetails loadingRecommendations
           queryDetails selectedJobId recommendations];
      refine (conj _ (conj _ (conj _ (conj _ _))));
      try reflexivity; try assumption.
    + intros d H. discriminate H.
    + intros H. now contradiction H.
  - rewrite click_query_result.
    destruct (same_job (selectedJobId s) jobId);
      [| destruct (post_query_details net _ jobId) as [data | error] eqn:Hreply];
      cbn [fst]; unfold consistent;
      cbn [loadingQueries loadingDetails loadingRecommendations
           queryDetails selectedJobId recommendations];
      refine (conj _ (conj _ (conj _ (conj _ _))));
      try reflexivity; try assumption;
      try (intros H; now contradiction H);
      try (intros d H; discriminate H).
    intros d H. injection H as Heq. subst d. now exists jobId.
  - destruct (queryDetails s) as [d |] eqn:Hheld.
    + rewrite (click_optimize_held API_BASE net s d Hheld).
      destruct (post_optimize net _ (qd_query d) (qd_ddl d)) as [text | error]
        eqn:Hreply; cbn [fst]; unfold consistent;
        cbn [loadingQueries loadingDetails loadingRecommendations
             queryDetails selectedJobId recommendations];
        rewrite Hheld;
        refine (conj _ (conj _ (conj _ (conj _ _))));
        try reflexivity; try assumption.
      intros _. exists d. split; [reflexivity | assumption].
    + rewrite (click_optimize_nothing_held API_BASE net s Hheld). cbn [fst].
      unfold consistent. rewrite Hheld.
      refine (conj _ (conj _ (conj _ (conj _ _)))); assumption.
  - destruct s. run_view. unfold consistent in *. cbn in *.
    refine (conj _ (conj _ (conj _ (conj _ _)))); assumption.
Qed.

Ltac run_session :=
  cbv beta iota zeta delta
    [exec bind ret emit modify fst snd app step start resume
     mount_or_refresh click_query click_optimize
     fetchExpensiveQueries handleQuerySelect getOptimizationRecommendations
     handleCloseModal
     axios_get_expensive_queries axios_post_query_details axios_post_optimize
     setExpensiveQueries setSelectedJobId setQueryDetails setRecommendations
     setDebugInfo setIsModalOpen setLoadingQueries setLoadingDetails
     setLoadingRecommendations
     expensiveQueries selectedJobId queryDetails recommendations debugInfo
     isModalOpen loadingQueries loadingDetails loadingRecommendations].

(** Resumed at once, the two halves of a handler are the handler. *)
Lemma start_then_resume (API_BASE : string) (net : backend)
      (selectedProject selectedRegion : string) (e : event) (s : State) :
  step API_BASE net selectedProject selectedRegion e s
  = match start API_BASE net selectedProject selectedRegion e s (s, []) with
    | (Some q, (s1, log1)) =>
        (fst (exec (resume q) s1), (log1 ++ snd (exec (resume q) s1))%list)
    | (None, w) => w
    end.
Proof.
  destruct s as [qs sel held recs dbg open lq ld lr].
  destruct e as [| jobId | |].
  - run_session.
    destruct (get_expensive_queries net _) as [[[[| c d] |] l | l] | error];
      reflexivity.
  - unfold step, click_query, handleQuerySelect, start. cbn [selectedJobId].
    destruct (same_job sel jobId).
    + reflexivity.
    + run_session. destruct (post_query_details net _ jobId); reflexivity.
  - unfold step, click_optimize, getOptimizationRecommendations, start.
    cbn [queryDetails]. destruct held as [d |].
    + run_session. destruct (post_optimize net _ _ _); reflexivity.
    + reflexivity.
  - reflexivity.
Qed.

(** As long as each reply comes in before the next event, the session
    stays on course. *)
Lemma answered_before_events_on_course (API_BASE : string) (net : backend)
      (selectedProject selectedRegion : string) (actions : list action) :
  forall w,
    answered_before_events API_BASE net selectedProject selectedRegion
                           actions w = true ->
    on_course API_BASE net w ->
    on_course API_BASE net
              (fst (play API_BASE net selectedProject selectedRegion actions w)).
Proof.
  induction actions as [| a actions IH]; intros w Hquiet Hw; [exact Hw |].
  cbn [play].
  assert (Hstep : answered_before_events
                    API_BASE net selectedProject selectedRegion actions
                    (fst (act API_BASE net selectedProject selectedRegion a w))
                  = true
                  /\ on_course API_BASE net
                       (fst (act API_BASE net selectedProject selectedRegion a w))).
  { destruct w as [s out]. cbn [answered_before_events outstanding] in Hquiet.
    unfold on_course in Hw. cbn [outstanding view] in Hw.
    destruct a as [e | n].
    - destruct out as [| q out]; [| discriminate Hquiet].
      split; [exact Hquiet |].
      pose proof (step_consistent API_BASE net selectedProject selectedRegion
                                  e s Hw) as Hnext.
      rewrite start_then_resume in Hnext.
      unfold act. cbn [view outstanding app].
      destruct (start API_BASE net selectedProject selectedRegion e s (s, []))
        as [[q |] [s1 log1]]; exact Hnext.
    - split.
      + destruct out; exact Hquiet.
      + unfold act. cbn [outstanding view].
        destruct out as [| q [| q' out]]; [| | contradiction Hw].
        * destruct n; exact Hw.
        * destruct n as [| n].
          -- cbn [nth_error]. unfold on_course.
             destruct (exec (resume q) s) as [s1 log1]. exact Hw.
          -- destruct n; exact Hw. }
  destruct Hstep as [Hquiet' Hw'].
  destruct (act API_BASE net selectedProject selectedRegion a w) as [w1 log1].
  specialize (IH w1 Hquiet' Hw').
  destruct (play API_BASE net selectedProject selectedRegion actions w1)
    as [w2 log2].
  exact IH.
Qed.

(** A click on a job that is not the selected one selects it, clears
    the recommendation text, sets the details' loading flag and leaves
    its request outstanding behind those already there. *)
Lemma act_select (API_BASE : string) (net : backend)
      (selectedProject selectedRegion : string) (jobId : string) (w : Session) :
  same_job (selectedJobId (view w)) jobId = false ->
  act API_BASE net selectedProject selectedRegion (User (SelectQuery jobId)) w
  = ({| view :=
          {| expensiveQueries := expensiveQueries (view w);
             selectedJobId := Some jobId;
             queryDetails := queryDetails (view w);
             recommendations := [];
             debugInfo := debugInfo (view w);
             isModalOpen := isModalOpen (view w);
             loadingQueries := loadingQueries (view w);
             loadingDetails := true;
             loadingRecommendations := loadingRecommendations (view w) |};
        outstanding :=
          (outstanding w
           ++ [ AwaitDetails
                  (post_query_details net (API_BASE ++ "/query-details") jobId) ])
          %list |},
     [ HttpPostJobId (API_BASE ++ "/query-details") jobId ]).
Proof.
  intros Hother. destruct w as [s out]. unfold act, start.
  cbn [view outstanding] in *.
  rewrite Hother. destruct s. run_session. reflexivity.
Qed.

(** The reply to a details request stores the details and clears the
    loading flag, whatever job is selected by then. *)
Lemma act_answer_details (API_BASE : string) (net : backend)
      (selectedProject selectedRegion : string) (n : nat) (d : QueryDetails)
      (w : Session) :
  nth_error (outstanding w) n = Some (AwaitDetails (Resolved d)) ->
  act API_BASE net selectedProject selectedRegion (Answer n) w
  = ({| view :=
          {| expensiveQueries := expensiveQueries (view w);
             selectedJobId := selectedJobId (view w);
             queryDetails := Some d;
             recommendations := recommendations (view w);
             debugInfo := debugInfo (view w);
             isModalOpen := isModalOpen (view w);
             loadingQueries := loadingQueries (view w);
             loadingDetails := false;
             loadingRecommendations := loadingRecommendations (view w) |};
        outstanding := without_nth n (outstanding w) |},
     []).
Proof.
  intros Hnth. destruct w as [s out]. unfold act. cbn [view outstanding] in *.
  rewrite Hnth. destruct s. run_session. reflexivity.
Qed.

(** X2: when each reply comes in before the next user event, a session
    from the initial state that ends with nothing outstanding shows no
    loading flag, the back end's details for the selected job, and a
    recommendation text that is the back end's reply for the held
    details.  The handlers can overlap, and then this fails: a click on
    one job and a click on another before the first reply, answered in
    reverse order, end with nothing outstanding, the second job
    selected and the first job's details on display. *)
Theorem display_agrees_unless_replies_overlap
        (API_BASE : string) (net : backend)
        (selectedProject selectedRegion : string)
        (actions : list action)
        (s : State) (j1 j2 : string) (d1 d2 : QueryDetails) :
  (answered_before_events API_BASE net selectedProject selectedRegion
                          actions (idle initial) = true ->
   outstanding (fst (play API_BASE net selectedProject selectedRegion
                          actions (idle initial))) = [] ->
   consistent API_BASE net
              (view (fst (play API_BASE net selectedProject selectedRegion
                               actions (idle initial)))))
  /\ (same_job (selectedJobId s) j1 = false ->
      String.eqb j1 j2 = false ->
      post_query_details net (API_BASE ++ "/query-details") j1 = Resolved d1 ->
      post_query_details net (API_BASE ++ "/query-details") j2 = Resolved d2 ->
      let race := [ User (SelectQuery j1); User (SelectQuery j2);
                    Answer 1; Answer 0 ] in
      let w := fst (play API_BASE net selectedProject selectedRegion
                         race (idle s)) in
      answered_before_events API_BASE net selectedProject selectedRegion
                             race (idle s) = false
      /\ outstanding w = []
      /\ selectedJobId (view w) = Some j2
      /\ queryDetails (view w) = Some d1
      /\ loadingDetails (view w) = false
      /\ snd (play API_BASE net selectedProject selectedRegion race (idle s))
         = [ HttpPostJobId (API_BASE ++ "/query-details") j1;
             HttpPostJobId (API_BASE ++ "/query-details") j2 ]
      /\ (d1 <> d2 -> ~ consistent API_BASE net (view w))).
Proof.
  split.
  - intros Hquiet Hdone.
    assert (Hstart : on_course API_BASE net (idle initial)).
    { unfold on_course, idle, consistent. cbn.
      repeat split; try reflexivity.
      - intros d H. discriminate H.
      - intros H. now contradiction H. }
    pose proof (answered_before_events_on_course
                  API_BASE net selectedProject selectedRegion actions
                  (idle initial) Hquiet Hstart) as Hend.
    unfold on_course in Hend. rewrite Hdone in Hend. exact Hend.
  - intros Hfirst Hother Hd1 Hd2. cbv zeta.
    cbn [play answered_before_events].
    rewrite (act_select API_BASE net selectedProject selectedRegion j1 (idle s))
      by exact Hfirst.
    cbn [fst idle view outstanding app].
    rewrite act_select by (cbn [view selectedJobId same_job]; exact Hother).
    cbn [fst view outstanding app selectedJobId expensiveQueries queryDetails
         recommendations debugInfo isModalOpen loadingQueries loadingDetails
         loadingRecommendations].
    rewrite Hd1, Hd2.
    rewrite (act_answer_details API_BASE net selectedProject selectedRegion
                                1 d2) by reflexivity.
    cbn [fst view outstanding without_nth selectedJobId expensiveQueries
         queryDetails recommendations debugInfo isModalOpen loadingQueries
         loadingDetails loadingRecommendations].
    rewrite (act_answer_details API_BASE net selectedProject selectedRegion
                                0 d1) by reflexivity.
    cbn [fst snd view outstanding without_nth selectedJobId expensiveQueries
         queryDetails recommendations debugInfo isModalOpen loadingQueries
         loadingDetails loadingRecommendations app].
    split; [reflexivity |]. split; [reflexivity |]. split; [reflexivity |].
    split; [reflexivity |]. split; [reflexivity |]. split; [reflexivity |].
    intros Hdiff (_ & _ & _ & Hdetails & _).
    destruct (Hdetails d1 eq_refl) as (j & Hj & Hreply).
    cbn [selectedJobId] in Hj. injection Hj as <-.
    rewrite Hd2 in Hreply. injection Hreply as Heq.
    apply Hdiff. symmetry. exact Heq.
Qed.

Lemma display_agrees_unless_replies_overlap_witness :
  let served := [ User Refresh; Answer 0; User (SelectQuery "job-1"); Answer 0;
                  User GetRecommendations; Answer 0; User CloseModal ] in
  let race := [ User (SelectQuery "job-1"); User (SelectQuery "job-2");
                Answer 1; Answer 0 ] in
  consistent Examples.api echo_backend
             (view (fst (play Examples.api echo_backend "any_value" "us"
                              served (idle initial))))
  /\ selectedJobId
       (view (fst (play Examples.api echo_backend "any_value" "us"
                        race (idle initial))))
     = Some "job-2"
  /\ queryDetails
       (view (fst (play Examples.api echo_backend "any_value" "us"
                        race (idle initial))))
     = Some (details_of_job "job-1").
Proof.
  cbv zeta.
  destruct (display_agrees_unless_replies_overlap
              Examples.api echo_backend "any_value" "us"
              [ User Refresh; Answer 0; User (SelectQuery "job-1"); Answer 0;
                User GetRecommendations; Answer 0; User CloseModal ]
              initial "job-1" "job-2"
              (details_of_job "job-1") (details_of_job "job-2"))
    as [Hserved Hrace].
  split; [apply Hserved; reflexivity |].
  destruct (Hrace eq_refl eq_refl eq_refl eq_refl)
    as (_ & _ & Hselected & Hdetails & _).
  split; [exact Hselected | exact Hdetails].
Defined.

(** X3: when the recommendations button is enabled, details with a
    non-empty schema text are held, and pressing it sends one request,
    the optimize request carrying that query and that schema; with no
    details held the handler does nothing at all. *)
Theorem recommendations_button_sends_schema
        (API_BASE : string) (net : backend) (s : State) :
  button_enabled s = true ->
  exists (d : QueryDetails) (ddl : Js.jsstring),
    queryDetails s = Some d
    /\ qd_ddl d = Some ddl
    /\ ddl <> []
    /\ no_job (selectedJobId s) = false
    /\ filter is_request (snd (click_optimize API_BASE net s))
       = [ HttpPostOptimize (API_BASE ++ "/optimize") (qd_query d) (Some ddl) ]
    /\ forall s0 : State,
         queryDetails s0 = None -> click_optimize API_BASE net s0 = (s0, []).
Proof.
  unfold button_enabled, render_details_section. intros Hen.
  destruct (no_job (selectedJobId s)) eqn:Hjob; [discriminate Hen |].
  destruct (loadingDetails s); [discriminate Hen |].
  destruct (queryDetails s) as [d |] eqn:Hheld; [| discriminate Hen].
  apply negb_true_iff, orb_false_iff in Hen as [_ Hddl].
  apply negb_false_iff in Hddl.
  destruct (qd_ddl d) as [[| u rest] |] eqn:Hd; try discriminate Hddl.
  exists d, (u :: rest).
  split; [reflexivity |]. split; [exact Hd |]. split; [discriminate |].
  split; [reflexivity |]. split.
  - rewrite (click_optimize_held API_BASE net s d Hheld), Hd.
    destruct (post_optimize net _ (qd_query d) _); reflexivity.
  - intros s0. apply click_optimize_nothing_held.
Qed.

Lemma recommendations_button_sends_schema_witness :
  filter is_request (snd (click_optimize Examples.api Examples.offline
                                         Examples.holding))
  = [ HttpPostOptimize (Examples.api ++ "/optimize")
                       (Js.lit "SELECT * FROM t")
                       (Some (Js.lit "CREATE TABLE t (x INT64)")) ].
Proof.
  destruct (recommendations_button_sends_schema
              Examples.api Examples.offline Examples.holding eq_refl)
    as (d & ddl & Hd & Hddl & _ & _ & Hlog & _).
  injection Hd as <-. injection Hddl as <-. exact Hlog.
Defined.

(** X4: clicking a query that is not selected and then clicking it
    again selects it with one query-details request and no stale
    recommendation text, then deselects it, clearing details and
    recommendations, without a second request. *)
Theorem select_twice_deselects
        (API_BASE : string) (net : backend) (s : State) (jobId : string) :
  same_job (selectedJobId s) jobId = false ->
  let '(s1, log1) := click_query API_BASE net jobId s in
  let '(s2, log2) := click_query API_BASE net jobId s1 in
  selectedJobId s1 = Some jobId
  /\ recommendations s1 = []
  /\ filter is_request log1
     = [ HttpPostJobId (API_BASE ++ "/query-details") jobId ]
  /\ selectedJobId s2 = None
  /\ queryDetails s2 = None
  /\ recommendations s2 = []
  /\ log2 = []
  /\ expensiveQueries s2 = expensiveQueries s.
Proof.
  intros Hother. rewrite (click_query_result API_BASE net jobId s), Hother.
  destruct (post_query_details net _ jobId) as [data | error];
    rewrite click_query_result; cbn [selectedJobId];
    rewrite same_job_refl; repeat split.
Qed.

Lemma select_twice_deselects_witness :
  let '(s1, _) :=
    click_query Examples.api Examples.offline "job-2" Examples.holding in
  let '(s2, log2) := click_query Examples.api Examples.offline "job-2" s1 in
  selectedJobId s1 = Some "job-2" /\ selectedJobId s2 = None /\ log2 = [].
Proof.
  pose proof (select_twice_deselects Examples.api Examples.offline
                                     Examples.holding "job-2" eq_refl) as H.
  destruct (click_query Examples.api Examples.offline "job-2" Examples.holding)
    as [s1 log1].
  destruct (click_query Examples.api Examples.offline "job-2" s1) as [s2 log2].
  destruct H as (H1 & _ & _ & H2 & _ & _ & H3 & _).
  repeat split; assumption.
Defined.

Lemma render_items_length (sel : option string) (i : nat) (qs : list Query) :
  List.length (render_items sel i qs) = List.length qs.
Proof.
  revert i. induction qs as [| q qs IH]; intros i; simpl; [| rewrite IH];
    reflexivity.
Qed.

Lemma none_selected_outside (j : string) (i : nat) (qs : list Query) :
  ~ In j (map job_id qs) ->
  filter selected (render_items (Some j) i qs) = [].
Proof.
  revert i. induction qs as [| q qs IH]; intros i Hout; [reflexivity |].
  simpl in Hout. cbn [render_items filter selected same_job].
  destruct (String.eqb_spec j (job_id q)) as [-> | Hne].
  - exfalso. apply Hout. now left.
  - apply IH. intros Hin. apply Hout. now right.
Qed.

(** X5: the list shows one item per query; when the job ids are
    pairwise distinct exactly one item is highlighted if the selected
    job is in the list, and none if it is not or nothing is selected. *)
Theorem one_item_highlighted
        (sel : option string) (i : nat) (qs : list Query) :
  NoDup (map job_id qs) ->
  List.length (render_items sel i qs) = List.length qs
  /\ List.length (filter selected (render_items sel i qs))
     = match sel with
       | Some j => if existsb (String.eqb j) (map job_id qs) then 1 else 0
       | None => 0
       end.
Proof.
  intros Hnodup. split; [apply render_items_length |].
  destruct sel as [j |].
  - revert i. induction qs as [| q qs IH]; intros i; [reflexivity |].
    inversion Hnodup as [| ? ? Hfresh Hrest]; subst.
    cbn [render_items filter selected same_job map existsb].
    destruct (String.eqb_spec j (job_id q)) as [-> | Hne].
    + cbn [orb List.length]. now rewrite none_selected_outside.
    + cbn [orb]. now apply IH.
  - revert i. induction qs as [| q qs IH]; intros i; [reflexivity |].
    inversion Hnodup; subst. cbn [render_items filter selected same_job].
    now apply IH.
Qed.

Lemma one_item_highlighted_witness :
  let qs := [ query_of_job "job-1"; query_of_job "job-2"; query_of_job "job-3" ] in
  List.length (render_items (Some "job-2") 0 qs) = 3
  /\ List.length (filter selected (render_items (Some "job-2") 0 qs)) = 1
  /\ map key (filter selected (render_items (Some "job-2") 0 qs)) = [ "job-2" ]
  /\ List.length (filter selected (render_items (Some "job-9") 0 qs)) = 0
  /\ List.length (filter selected (render_items None 0 qs)) = 0.
Proof.
  cbv zeta.
  assert (Hdistinct :
            NoDup (map job_id [ query_of_job "job-1"; query_of_job "job-2";
                                query_of_job "job-3" ])).
  { cbn [map query_of_job job_id].
    repeat constructor; cbn [In]; intros H;
      repeat (destruct H as [H | H]; [discriminate H |]); exact H. }
  destruct (one_item_highlighted
              (Some "job-2") 0
              [ query_of_job "job-1"; query_of_job "job-2"; query_of_job "job-3" ]
              Hdistinct) as [Hall Hone].
  destruct (one_item_highlighted
              (Some "job-9") 0
              [ query_of_job "job-1"; query_of_job "job-2"; query_of_job "job-3" ]
              Hdistinct) as [_ Hnone].
  destruct (one_item_highlighted
              None 0
              [ query_of_job "job-1"; query_of_job "job-2"; query_of_job "job-3" ]
              Hdistinct) as [_ Hunselected].
  split; [exact Hall |]. split; [exact Hone |]. split; [reflexivity |].
  split; [exact Hnone | exact Hunselected].
Defined.

(** X6: the preview cell is never blank: whatever the query carries and
    whatever the length limit, the text shown has at least one unit. *)
Theorem preview_never_blank (K : nat) (q : Query) :
  exists (u : Js.code_unit) (rest : Js.jsstring), preview_text K q = u :: rest.
Proof.
  unfold preview_text, Js.or, Js.truthy, Js.opt_substring, option_map.
  destruct (query_preview q) as [[| u rest] |];
    destruct (query q) as [text |];
    try destruct (Js.substring text 0 K) as [| v more];
    cbn; eexists; eexists; reflexivity.
Qed.

(** X17: pressing the recommendations button with details held leaves
    the modal open on the reply, or on the text that was there before
    when the request was rejected; closing the modal hides it and keeps
    the text; no refresh and no click on a query opens or closes the
    modal. *)
Theorem modal_opens_only_for_recommendations
        (API_BASE : string) (net : backend)
        (selectedProject selectedRegion : string) (e : event) (s : State) :
  let s' := fst (step API_BASE net selectedProject selectedRegion e s) in
  match e with
  | GetRecommendations =>
      match queryDetails s with
      | Some d =>
          render_modal s'
          = Some (Markdown
                    match post_optimize net (API_BASE ++ "/optimize")
                                        (qd_query d) (qd_ddl d) with
                    | Resolved text => text
                    | Rejected _ => recommendations s
                    end)
      | None => s' = s
      end
  | CloseModal => render_modal s' = None /\ recommendations s' = recommendations s
  | Refresh | SelectQuery _ => isModalOpen s' = isModalOpen s
  end.
Proof.
  cbv zeta. unfold step. destruct e as [| jobId | |].
  - rewrite refresh_result. cbv zeta.
    now destruct (get_expensive_queries net _).
  - rewrite click_query_result.
    destruct (same_job (selectedJobId s) jobId); [reflexivity |].
    now destruct (post_query_details net _ jobId).
  - destruct (queryDetails s) as [d |] eqn:Hheld.
    + rewrite (click_optimize_held API_BASE net s d Hheld).
      now destruct (post_optimize net _ (qd_query d) (qd_ddl d)).
    + now rewrite (click_optimize_nothing_held API_BASE net s Hheld).
  - destruct s. run_view. split; reflexivity.
Qed.

(** X18: after a click on a query that was not selected, the details
    pane shows the analysis of the reply, with the schema text or 'No
    schema information available.' and the button disabled when there
    is no schema, or the error notice when the request was rejected; for
    a job whose id is the empty string the pane keeps the placeholder
    whatever the reply. *)
Theorem details_pane_after_selection
        (API_BASE : string) (net : backend) (s : State) (jobId : string) :
  same_job (selectedJobId s) jobId = false ->
  render_details_section (fst (click_query API_BASE net jobId s))
  = match jobId with
    | EmptyString => Placeholder
    | String _ _ =>
        match post_query_details net (API_BASE ++ "/query-details") jobId with
        | Resolved d =>
            QueryAnalysis
              (qd_query d)
              (match qd_ddl d with
               | Some (u :: rest) => u :: rest
               | _ => Js.lit "No schema information available."
               end)
              (loadingRecommendations s
               || match qd_ddl d with Some (_ :: _) => false | _ => true end)
              (if loadingRecommendations s
               then "Analyzing..." else "Get AI Recommendations")
        | Rejected _ => ErrorPlaceholder
        end
    end.
Proof.
  intros Hother. rewrite click_query_result, Hother.
  destruct (post_query_details net _ jobId) as [d | error];
    destruct jobId as [| c rest]; try reflexivity.
  unfold render_details_section, ddl_text_of, Js.or, Js.truthy.
  cbn [fst selectedJobId no_job loadingDetails queryDetails
       loadingRecommendations].
  now destruct (qd_ddl d) as [[| u more] |].
Qed.

Lemma details_pane_after_selection_witness :
  render_details_section
    (fst (click_query Examples.api Examples.offline "job-2" Examples.holding))
  = ErrorPlaceholder
  /\ render_details_section
       (fst (click_query Examples.api Examples.offline "" Examples.holding))
     = Placeholder.
Proof.
  split.
  - exact (details_pane_after_selection
             Examples.api Examples.offline Examples.holding "job-2" eq_refl).
  - exact (details_pane_after_selection
             Examples.api Examples.offline Examples.holding "" eq_refl).
Defined.

End ExpensiveQueriesViewFacts.

(* ================================================================== *)
(** * Organization overview: names, badges and cards *)
(* ================================================================== *)

Section OverviewCardFacts.
Import Handler OrganizationOverview OverviewCards.

Local Open Scope string_scope.

(** One character of the display name: it is no hyphen, it is a word
    character exactly when the character it comes from is (after the
    hyphen became a space), and capitalizing it again changes nothing. *)
Lemma display_char (inside : bool) (c : ascii) :
  let c1 := if Ascii.eqb c "-" then " "%char else c in
  let c2 := if (is_word_char c1 && negb inside)%bool then toUpperCase c1 else c1 in
  Ascii.eqb c2 "-" = false
  /\ is_word_char c2 = is_word_char c1
  /\ (if (is_word_char c2 && negb inside)%bool then toUpperCase c2 else c2) = c2.
Proof.
  destruct inside; destruct c as [[] [] [] [] [] [] [] []];
    vm_compute; repeat split.
Qed.

Lemma capitalize_hyphen_free (inside : bool) (s : string) :
  forallb (fun c => negb (Ascii.eqb c "-"))
          (list_ascii_of_string (capitalize_words inside (hyphens_to_spaces s)))
  = true.
Proof.
  revert inside. induction s as [| c s IH]; intros inside; [reflexivity |].
  cbn [hyphens_to_spaces capitalize_words list_ascii_of_string forallb].
  destruct (display_char inside c) as (Hc & _ & _). cbv zeta in Hc.
  rewrite Hc. cbn [negb andb]. apply IH.
Qed.

Lemma capitalize_length (inside : bool) (s : string) :
  String.length (capitalize_words inside (hyphens_to_spaces s)) = String.length s.
Proof.
  revert inside. induction s as [| c s IH]; intros inside; [reflexivity |].
  cbn [hyphens_to_spaces capitalize_words String.length]. now rewrite IH.
Qed.

Lemma capitalize_idempotent (inside : bool) (s : string) :
  capitalize_words inside
    (hyphens_to_spaces (capitalize_words inside (hyphens_to_spaces s)))
  = capitalize_words inside (hyphens_to_spaces s).
Proof.
  revert inside. induction s as [| c s IH]; intros inside; [reflexivity |].
  cbn [hyphens_to_spaces capitalize_words].
  destruct (display_char inside c) as (Hhyphen & Hword & Hup).
  cbv zeta in Hhyphen, Hword, Hup.
  rewrite Hhyphen, Hup, Hword. f_equal. apply IH.
Qed.

(** X7: the display name of a project has as many characters as its id
    and no hyphen, and it is a fixed point: naming a display name again
    gives it back. *)
Theorem display_name_shape (project_id : string) :
  String.length (display_name project_id) = String.length project_id
  /\ forallb (fun c => negb (Ascii.eqb c "-"))
             (list_ascii_of_string (display_name project_id)) = true
  /\ display_name (display_name project_id) = display_name project_id.
Proof.
  unfold display_name. split; [apply capitalize_length |].
  split; [apply capitalize_hyphen_free | apply capitalize_idempotent].
Qed.

(** A rounded result of positive sign is a zero, a positive number,
    +infinity or NaN. *)
Lemma round_aux_positive_class (mx ex : Z) (lx : location) :
  match binary_round_aux 53 1024 false mx ex lx with
  | S754_zero _ | S754_finite false _ _ | S754_infinity false | S754_nan => True
  | _ => False
  end.
Proof.
  unfold binary_round_aux.
  destruct (shr_fexp 53 1024 mx ex lx) as [mrs e'].
  destruct (shr_fexp 53 1024 _ e' loc_Exact) as [mrs' e''].
  destruct (shr_m mrs'); [exact I | | exact I].
  destruct (e'' <=? 1024 - 53)%Z; exact I.
Qed.

Lemma mul_five_percent_class (t : Js.number) :
  nonnegative t = true ->
  match Js.mul t five_percent with
  | S754_zero _ | S754_finite false _ _ | S754_infinity false | S754_nan => True
  | _ => False
  end.
Proof.
  rewrite five_percent_bits. unfold Js.mul, Js.prec, Js.emax.
  destruct t as [s | [|] | | [|] m e]; intros H; try discriminate H;
    try exact I.
  cbn [SFmul xorb]. apply round_aux_positive_class.
Qed.

Lemma gt_above_nonnegative (e r : Js.number) :
  match r with
  | S754_zero _ | S754_finite false _ _ | S754_infinity false | S754_nan => True
  | _ => False
  end ->
  Js.gt e r = true -> Js.gt e (Js.of_Z 0) = true.
Proof.
  unfold Js.gt, SFltb. change (Js.of_Z 0) with (S754_zero false).
  destruct r as [s | [|] | | [|] m ex]; intros Hclass; try contradiction;
    destruct e as [s' | [|] | | [|] m' ex']; cbn; intros H;
    try discriminate H; reflexivity.
Qed.

(** X8: a project whose total query count is not negative and whose
    badge is 'warning' has a positive error count, so its card shows the
    error metric with that count. *)
Theorem warning_badge_shows_error_count (project : ProjectRow) :
  nonnegative (total_queries project) = true ->
  status_of project = "warning" ->
  let card := project_card (format_project project) in
  card_status card = "warning"
  /\ card_errors card = Some (error_count project).
Proof.
  intros Hnonneg Hwarn. cbv zeta.
  unfold project_card, format_project.
  cbn [status errorCount card_status card_errors]. split; [exact Hwarn |].
  unfold status_of in Hwarn.
  destruct (Js.gt (error_count project)
                  (Js.mul (total_queries project) five_percent)) eqn:Hgt;
    [| discriminate Hwarn].
  now rewrite (gt_above_nonnegative _ _
                 (mul_five_percent_class _ Hnonneg) Hgt).
Qed.

Lemma warning_badge_shows_error_count_witness :
  card_errors (project_card (format_project (Examples.row 100 6)))
  = Some (Js.of_Z 6).
Proof.
  destruct (warning_badge_shows_error_count (Examples.row 100 6))
    as [_ H]; [reflexivity | reflexivity | exact H].
Defined.

(** X9: a row whose total query count or error count is NaN (what a
    missing count becomes in the product and in the comparison) gets the
    badge 'healthy', and with a NaN error count its card shows no error
    metric. *)
Theorem count_not_a_number_shows_healthy (project : ProjectRow) :
  total_queries project = S754_nan \/ error_count project = S754_nan ->
  status_of project = "healthy"
  /\ (error_count project = S754_nan ->
      card_errors (project_card (format_project project)) = None).
Proof.
  intros Hnan. split.
  - unfold status_of, Js.gt, SFltb.
    destruct Hnan as [Ht | He].
    + rewrite Ht. cbn [Js.mul SFmul SFcompare].
      now destruct (error_count project).
    + rewrite He.
      now destruct (Js.mul (total_queries project) five_percent).
  - intros He. unfold project_card, format_project. cbn [errorCount card_errors].
    rewrite He. reflexivity.
Qed.

Lemma count_not_a_number_shows_healthy_witness :
  status_of {| project_id := "analytics-1";
               total_queries := S754_nan;
               slot_hours := Js.of_Z 0;
               error_count := Js.of_Z 500;
               tb_processed := Js.of_Z 0 |} = "healthy".
Proof.
  apply (count_not_a_number_shows_healthy
           {| project_id := "analytics-1";
              total_queries := S754_nan;
              slot_hours := Js.of_Z 0;
              error_count := Js.of_Z 500;
              tb_processed := Js.of_Z 0 |}).
  left. reflexivity.
Defined.

Ltac run_cards :=
  cbv beta iota zeta delta
    [exec bind ret emit modify fst snd app
     mount_or_refresh fetchOrganizationData axios_get_overview
     setProjects setOrgStats setLoading projects orgStats loading].

(** X10: when the overview request is answered the view shows one card
    per row of the reply, in the reply's order, each linking to
    /project/<id> with the badge computed from that row and no user
    tags; the four counts of the statistics are shown as received. *)
Theorem overview_cards_follow_reply
        (API_BASE selectedRegion : string)
        (net : string -> reply OverviewData)
        (data : OverviewData) (s : State) :
  net (API_BASE ++ "/organization-overview?region=" ++ selectedRegion)
    = Resolved data ->
  let s' := fst (mount_or_refresh API_BASE net selectedRegion s) in
  exists cards,
    render_projects s' = Some cards
    /\ List.length cards = List.length (data_projects data)
    /\ map card_link cards
       = map (fun r => "/project/" ++ project_id r) (data_projects data)
    /\ map card_status cards = map status_of (data_projects data)
    /\ map card_users cards = map (fun _ => []) (data_projects data)
    /\ totalProjects (orgStats s') = totalProjects (data_orgStats data)
    /\ totalQueries (orgStats s') = totalQueries (data_orgStats data)
    /\ totalUsers (orgStats s') = totalUsers (data_orgStats data)
    /\ totalErrors (orgStats s') = totalErrors (data_orgStats data).
Proof.
  intros Hreply. cbv zeta. destruct s. run_cards. rewrite Hreply.
  unfold render_projects. cbn [loading projects orgStats].
  eexists. split; [reflexivity |].
  rewrite !map_map, !length_map. repeat split.
Qed.

Lemma overview_cards_follow_reply_witness :
  let data :=
    {| data_projects := [ Examples.row 100 6; Examples.row 100 5 ];
       data_orgStats := empty_stats |} in
  exists cards,
    render_projects
      (fst (mount_or_refresh Examples.api (fun _ => Resolved data) "us" initial))
    = Some cards
    /\ map card_status cards = [ "warning"; "healthy" ].
Proof.
  cbv zeta.
  destruct (overview_cards_follow_reply
              Examples.api "us"
              (fun _ => Resolved
                 {| data_projects := [ Examples.row 100 6; Examples.row 100 5 ];
                    data_orgStats := empty_stats |})
              {| data_projects := [ Examples.row 100 6; Examples.row 100 5 ];
                 data_orgStats := empty_stats |}
              initial eq_refl)
    as (cards & Hcards & _ & _ & Hstatus & _).
  exists cards. split; [exact Hcards | exact Hstatus].
Defined.

End OverviewCardFacts.

(* ================================================================== *)
(** * Configuration checks *)
(* ================================================================== *)

Section ConfigFacts.
Import Js ConfigValidation.

Local Open Scope string_scope.
Local Open Scope Z_scope.

Lemma API_BASE_URL_not_empty (env : option string) :
  String.eqb (Config.API_BASE_URL env) "" = false.
Proof. destruct env as [[| c s] |]; reflexivity. Qed.

(** The sign of a rounded result is the sign asked for and nothing
    more. *)
Lemma round_aux_opp (mx ex : Z) (lx : location) :
  binary_round_aux 53 1024 true mx ex lx
  = SFopp (binary_round_aux 53 1024 false mx ex lx).
Proof.
  unfold binary_round_aux.
  destruct (shr_fexp 53 1024 mx ex lx) as [mrs e'].
  destruct (shr_fexp 53 1024 _ e' loc_Exact) as [mrs' e''].
  destruct (shr_m mrs'); try reflexivity.
  destruct (e'' <=? 1024 - 53)%Z; reflexivity.
Qed.

Lemma of_Z_opp (z : positive) : of_Z (Z.neg z) = SFopp (of_Z (Z.pos z)).
Proof.
  unfold of_Z, binary_normalize, binary_round, prec, emax.
  destruct (shl_align z 0 _) as [mz ez]. apply round_aux_opp.
Qed.

(** An integer within 53 bits compares with 1000 as a number the way it
    does as an integer. *)
Lemma lt_thousand (n : Z) :
  - 2 ^ 53 < n < 2 ^ 53 ->
  lt (of_Z n) (of_Z 1000) = (n <? 1000).
Proof.
  intros Hn.
  assert (Hk : of_Z 1000 = S754_finite false 8796093022208000 (-43))
    by (vm_compute; reflexivity).
  destruct n as [| z | z].
  - reflexivity.
  - destruct (of_Z_exact z) as (m & Hof & Hdm & Hm & Hd); [lia |].
    unfold lt. rewrite Hof, Hk.
    rewrite (ltb_finite m 8796093022208000 (digits z - 53) (-43) 60)
      by (reflexivity || lia).
    rewrite Hm, <- Z.mul_assoc, <- Z.pow_add_r by lia.
    replace (53 - digits z + (digits z - 53 + 60)) with 60 by lia.
    change (Z.pos 8796093022208000 * 2 ^ (-43 + 60)) with (1000 * 2 ^ 60).
    destruct (Z.ltb_spec (Z.pos z) 1000); [apply Z.ltb_lt | apply Z.ltb_ge]; lia.
  - destruct (of_Z_exact z) as (m & Hof & _); [lia |].
    unfold lt. rewrite of_Z_opp, Hof, Hk. reflexivity.
Qed.

(** X11: [validateConfig] never reports a missing API base URL, because
    the configured URL falls back to a non-empty default; it reports the
    refresh interval exactly when the interval, an integer within 53
    bits, is below 1000, and reports nothing for an interval that is
    NaN. *)
Theorem validateConfig_reports_only_short_interval
        (env : option string) (n : Z) :
  - 2 ^ 53 < n < 2 ^ 53 ->
  validateConfig (Config.API_BASE_URL env) (of_Z n)
  = (if n <? 1000
     then ["REFRESH_INTERVAL_MS should be at least 1000ms"] else [])
  /\ validateConfig (Config.API_BASE_URL env) S754_nan = []
  /\ forall interval,
       existsb (String.eqb "API_BASE_URL is not configured")
               (validateConfig (Config.API_BASE_URL env) interval) = false.
Proof.
  intros Hn. unfold validateConfig. rewrite API_BASE_URL_not_empty.
  cbn [app]. rewrite (lt_thousand n Hn). split; [reflexivity |].
  split; [reflexivity |].
  intros interval. now destruct (lt interval (of_Z 1000)).
Qed.

Lemma validateConfig_reports_only_short_interval_witness :
  validateConfig (Config.API_BASE_URL None) (of_Z 30000) = []
  /\ validateConfig (Config.API_BASE_URL (Some "")) (of_Z 500)
     = ["REFRESH_INTERVAL_MS should be at least 1000ms"].
Proof.
  destruct (validateConfig_reports_only_short_interval None 30000) as [H1 _];
    [simpl; lia |].
  destruct (validateConfig_reports_only_short_interval (Some "") 500) as [H2 _];
    [simpl; lia |].
  split; [exact H1 | exact H2].
Defined.

End ConfigFacts.

(* ================================================================== *)
(** * The provider, the filter controls and the navigation *)
(* ================================================================== *)

Section ShellFacts.
Import Handler.

Local Open Scope string_scope.

Ltac run_provider :=
  cbv beta iota zeta delta
    [exec bind ret emit modify fst snd app
     AppProvider.refreshProjects AppProvider.fetchProjects
     AppProvider.setProjects AppProvider.setLoading
     AppProvider.projects AppProvider.selectedProject
     AppProvider.selectedRegion AppProvider.loading].

(** X12: fetching the projects sends one GET for the selected region,
    ends with the loading flag cleared and never touches the selected
    project or region; an answer becomes the project list, and a
    rejection leaves the one-entry fallback list, whose only id is the
    project selected initially. *)
Theorem fetchProjects_keeps_selection
        (API_BASE_URL : string)
        (net : string -> reply (list AppContext.Project))
        (s : AppProvider.State) :
  let url := API_BASE_URL ++ "/projects?region=" ++ AppProvider.selectedRegion s in
  let '(s', log) := AppProvider.refreshProjects API_BASE_URL net s in
  AppProvider.selectedProject s' = AppProvider.selectedProject s
  /\ AppProvider.selectedRegion s' = AppProvider.selectedRegion s
  /\ AppProvider.loading s' = false
  /\ filter Spec.is_request log = [ HttpGet url ]
  /\ match net url with
     | Resolved data => AppProvider.projects s' = data
     | Rejected _ =>
         AppProvider.projects s' = AppProvider.fallback_projects
         /\ map AppContext.id (AppProvider.projects s')
            = [ AppProvider.selectedProject AppProvider.initial ]
     end.
Proof.
  cbv zeta. destruct s as [ps sp sr ld]. run_provider.
  destruct (net _) as [data | error]; repeat split.
Qed.

Lemma find_region_in_table (r : AppContext.Region) :
  In r AppContext.regions_table ->
  FilterControls.find_region AppContext.regions_table (AppContext.value r)
  = Some r.
Proof.
  intros Hin. simpl in Hin.
  repeat (destruct Hin as [<- | Hin]; [reflexivity |]). contradiction.
Qed.

(** X13: while the projects load, for each region of the table the
    status line names that region's own label (no two regions share a
    value), both dropdowns and the refresh button are disabled, and the
    project dropdown labels each project by its name. *)
Theorem filter_controls_while_projects_load
        (ctx : AppContext.ContextValue) (r : AppContext.Region)
        (loading showTimeRange : bool) (timeRange : string)
        (timeRangeOptions : list (string * string)) :
  AppContext.regions ctx = AppContext.regions_table ->
  In r AppContext.regions_table ->
  AppContext.selectedRegion ctx = AppContext.value r ->
  AppContext.loading ctx = true ->
  let c := FilterControls.render ctx loading showTimeRange timeRange
                                 timeRangeOptions in
  FilterControls.filter_status c
    = Some ("Loading projects for " ++ AppContext.label r ++ "...")
  /\ FilterControls.select_disabled (FilterControls.region_select c) = true
  /\ FilterControls.select_disabled (FilterControls.project_select c) = true
  /\ FilterControls.refresh_disabled c = true
  /\ In (AppContext.value r, AppContext.label r)
        (FilterControls.select_options (FilterControls.region_select c))
  /\ FilterControls.select_options (FilterControls.project_select c)
     = map (fun p => (AppContext.id p, AppContext.name p))
           (AppContext.projects ctx).
Proof.
  intros Hregions Hin Hsel Hload. cbv zeta. unfold FilterControls.render.
  cbn [FilterControls.filter_status FilterControls.select_disabled
       FilterControls.region_select FilterControls.project_select
       FilterControls.refresh_disabled FilterControls.select_options].
  rewrite Hload, Hregions, Hsel, (find_region_in_table r Hin).
  cbn [FilterControls.label_text]. rewrite orb_true_r.
  repeat split.
  apply (in_map (fun r0 => (AppContext.value r0, AppContext.label r0))). exact Hin.
Qed.

Lemma filter_controls_while_projects_load_witness :
  FilterControls.filter_status
    (FilterControls.render
       {| AppContext.projects := AppProvider.fallback_projects;
          AppContext.selectedProject := "any_value";
          AppContext.selectedRegion := "europe-west4";
          AppContext.regions := AppContext.regions_table;
          AppContext.loading := true |}
       false false "24h" Config.TIME_RANGE_OPTIONS)
  = Some "Loading projects for Europe West 4...".
Proof.
  destruct (filter_controls_while_projects_load
              {| AppContext.projects := AppProvider.fallback_projects;
                 AppContext.selectedProject := "any_value";
                 AppContext.selectedRegion := "europe-west4";
                 AppContext.regions := AppContext.regions_table;
                 AppContext.loading := true |}
              {| AppContext.value := "europe-west4";
                 AppContext.label := "Europe West 4" |}
              false false "24h" Config.TIME_RANGE_OPTIONS
              eq_refl) as [H _];
    [simpl; tauto | reflexivity | reflexivity | exact H].
Defined.

(** X14: the navigation bar links to exactly the four path strings
    that App declares routes for, in the same order; a link carries the
    'active' class exactly when location.pathname is identical to its
    path, so one link is active when the pathname is one of the four
    strings and none is otherwise: none on '/pulse/' or on '/Pulse',
    which differ from '/pulse' as strings. *)
Theorem navigation_links_and_active_link (pathname : string) :
  map Navigation.link_to (Navigation.render_nav pathname)
    = map fst Navigation.routes
  /\ (forall l,
        In l (Navigation.render_nav pathname) ->
        String.eqb (Navigation.link_class l) "nav-item active"
        = String.eqb pathname (Navigation.link_to l))
  /\ List.length
       (filter (fun l => String.eqb (Navigation.link_class l) "nav-item active")
               (Navigation.render_nav pathname))
     = (if existsb (String.eqb pathname) (map fst Navigation.routes)
        then 1 else 0)
  /\ filter (fun l => String.eqb (Navigation.link_class l) "nav-item active")
            (Navigation.render_nav "/pulse/") = []
  /\ filter (fun l => String.eqb (Navigation.link_class l) "nav-item active")
            (Navigation.render_nav "/Pulse") = [].
Proof.
  split; [reflexivity |]. split; [| split; [| split; reflexivity]].
  - unfold Navigation.render_nav, Navigation.navItems, Navigation.is_active.
    cbn [map Navigation.path Navigation.nav_label In].
    intros l [<- | [<- | [<- | [<- | []]]]];
      cbn [Navigation.link_class Navigation.link_to];
      match goal with
      | |- context [if String.eqb pathname ?p then _ else _] =>
          destruct (String.eqb pathname p); reflexivity
      end.
  - unfold Navigation.render_nav, Navigation.navItems, Navigation.routes,
      Navigation.is_active.
    cbn [map fst Navigation.path Navigation.nav_label existsb filter
         Navigation.link_class].
    destruct (String.eqb_spec pathname "/") as [-> | H1]; [reflexivity |].
    destruct (String.eqb_spec pathname "/pulse") as [-> | H2]; [reflexivity |].
    destruct (String.eqb_spec pathname "/time-window") as [-> | H3];
      [reflexivity |].
    destruct (String.eqb_spec pathname "/expensive-queries") as [-> | H4];
      reflexivity.
Qed.

End ShellFacts.

(* ================================================================== *)
(** * Pulse and time-window views: what a render finds *)
(* ================================================================== *)

Section DashboardFacts.
Import Handler Dashboards.

Local Open Scope string_scope.

Ltac run_pulse :=
  cbv beta iota zeta delta
    [exec bind ret emit modify fst snd app
     PulseView.mount_or_refresh PulseView.fetchPulseData fetchPulseData shaped
     PulseView.axios_get_pulse PulseView.setPulseData PulseView.setLoading
     PulseView.pulseData PulseView.loading].

(** On bodies of the data's shape, the handler that stores the body
    unchecked is the handler of the view. *)
Lemma fetchPulseData_shaped
      (API_BASE : string) (net : string -> reply PulseView.PulseData)
      (selectedProject selectedRegion : string) (s : PulseView.State) :
  exec (fetchPulseData API_BASE (fun url => shaped (net url))
                       selectedProject selectedRegion) s
  = PulseView.mount_or_refresh API_BASE net selectedProject selectedRegion s.
Proof. destruct s. run_pulse. now destruct (net _). Qed.

(** X15: a pulse fetch, from any state, sends one GET and clears the
    loading flag; the view then shows the reply's data when the body
    has the data's shape and the built-in sample data when the request
    was rejected, and it throws at the destructuring when the request
    was answered with a null body, which the handler stores unchecked.
    Before the first fetch ends the view is the loader. *)
Theorem pulse_view_after_fetch
        (API_BASE : string)
        (net : string -> reply (option PulseView.PulseData))
        (selectedProject selectedRegion : string) (s : PulseView.State) :
  let url := API_BASE ++ "/pulse-data?project=" ++ selectedProject
               ++ "&region=" ++ selectedRegion in
  let after := exec (fetchPulseData API_BASE net selectedProject selectedRegion)
                    s in
  PulseView.loading (fst after) = false
  /\ PulseView.pulseData (fst after)
     = match net url with
       | Resolved body => body
       | Rejected _ => Some PulseView.mock_data
       end
  /\ pulse_view (fst after)
     = match net url with
       | Resolved (Some data) => Markup (PulseView.render_data data)
       | Resolved None => TypeError
       | Rejected _ => Markup (PulseView.render_data PulseView.mock_data)
       end
  /\ snd after
     = match net url with
       | Resolved _ => [ HttpGet url ]
       | Rejected _ => [ HttpGet url; ConsoleError "Error fetching pulse data:" ]
       end
  /\ pulse_view PulseView.initial = Markup (Dom.Element "loader" []).
Proof.
  cbv zeta. destruct s as [data loading]. unfold pulse_view. run_pulse.
  destruct (net _) as [[body |] | error]; repeat split.
Qed.

Ltac run_dashboard :=
  cbv beta iota zeta delta
    [exec bind ret emit modify fst snd app
     TimeWindowInvestigation.mount_or_refresh
     TimeWindowInvestigation.fetchDashboardData fetchDashboardData shaped
     TimeWindowInvestigation.axios_get_dashboard
     TimeWindowInvestigation.setDashboardData
     TimeWindowInvestigation.setTimeRange
     TimeWindowInvestigation.setLoading
     TimeWindowInvestigation.dashboardData
     TimeWindowInvestigation.timeRange
     TimeWindowInvestigation.loading].

Lemma fetchDashboardData_shaped
      (API_BASE : string)
      (net : string -> reply TimeWindowInvestigation.DashboardData)
      (selectedProject selectedRegion : string)
      (s : TimeWindowInvestigation.State) :
  exec (fetchDashboardData API_BASE (fun url => shaped (net url))
                           selectedProject selectedRegion
                           (TimeWindowInvestigation.timeRange s)) s
  = TimeWindowInvestigation.mount_or_refresh
      API_BASE net selectedProject selectedRegion s.
Proof. destruct s. run_dashboard. now destruct (net _). Qed.

(** X16: a dashboard fetch, from any state, clears the loading flag and
    keeps the time range; the view then shows the reply's data when the
    body has the data's shape, and throws at the destructuring when the
    request was answered with a null body, which the handler stores
    unchecked; when the request was rejected it shows the fallback
    dashboard for the range asked: zero jobs, zero errors at 0%, and
    neither the users table nor the error chart. *)
Theorem time_window_view_after_fetch
        (API_BASE : string)
        (net : string -> reply (option TimeWindowInvestigation.DashboardData))
        (selectedProject selectedRegion : string)
        (s : TimeWindowInvestigation.State) :
  let range := TimeWindowInvestigation.timeRange s in
  let url := API_BASE ++ "/operational-dashboard?timeRange=" ++ range
               ++ "&project=" ++ selectedProject
               ++ "&region=" ++ selectedRegion in
  let after := exec (fetchDashboardData API_BASE net selectedProject
                                        selectedRegion range) s in
  let fallback := render_dashboard range TimeWindowInvestigation.fallback_data in
  TimeWindowInvestigation.loading (fst after) = false
  /\ TimeWindowInvestigation.timeRange (fst after) = range
  /\ time_window_view (fst after)
     = match net url with
       | Resolved (Some data) => Markup (Some (render_dashboard range data))
       | Resolved None => TypeError
       | Rejected _ => Markup (Some fallback)
       end
  /\ query_jobs fallback = Js.of_Z 0
  /\ error_count fallback = Js.of_Z 0
  /\ error_percentage fallback = Js.of_Z 0
  /\ users_table fallback = None
  /\ error_chart fallback = None
  /\ time_indicator fallback
     = "Data for the last "
         ++ (if String.eqb range "1h" then "complete day" else range).
Proof.
  cbv zeta. destruct s as [data range loading]. unfold time_window_view.
  run_dashboard.
  destruct (net _) as [[body |] | error]; repeat split.
Qed.

(** The users table is there exactly when the dashboard data has a
    user, and then it lists the first five users of the data, in order,
    and no more. *)
Lemma users_table_first_five
        (range : string) (d : TimeWindowInvestigation.DashboardData) :
  match users_table (render_dashboard range d) with
  | None => TimeWindowInvestigation.topUsers d = []
  | Some rows =>
      map line_email rows
      = firstn 5 (map TimeWindowInvestigation.user_email
                      (TimeWindowInvestigation.topUsers d))
      /\ 1 <= List.length rows <= 5
      /\ List.length rows
         = Nat.min 5 (List.length (TimeWindowInvestigation.topUsers d))
  end.
Proof.
  unfold render_dashboard. cbn [users_table].
  destruct (TimeWindowInvestigation.topUsers d) as [| u users] eqn:Hu;
    [reflexivity |].
  rewrite map_map, length_map, length_firstn, <- firstn_map.
  split; [reflexivity |]. cbn [List.length]. lia.
Qed.

End DashboardFacts.
